(** * CNOPS to RxNorm mapper: the mapping resolution pipeline

    A shallow embedding of [src/mapper/core_mapper.py]: the three lookup
    strategies of [map_single_drug], product enhancement, validation and
    the per-record loop of [process_file], together with the results the
    resolver sees from [src/mapper/api_client.py].

    Modelling choices.
    - Python [str] values are Rocq strings of ASCII text; [upper] and
      [strip] act on the ASCII range only.
    - Python [float] is the kernel's binary64 float, so [0.9 + 0.1] is
      the rounded sum Python computes.
    - A Python [dict] used as a table is a [gmap string string]; the
      fixed-shape dicts built by the API client are records whose fields
      are optional, as [dict.get] yields [None] for a missing key.
    - An input row maps column names to the text of its cells: the
      ingredient, code, name and dose form are [str] by the annotations
      of [MappingResult] and [_find_best_product_match], and the dosage
      and its unit only enter through an f-string, so they stand for
      their [str()] rendering.
    - [fuzz.ratio] belongs to an external package and is a parameter;
      the similarity threshold is an integer on its 0 to 100 scale.
    - The terminology service is stateful and remote: every call is
      appended to a call history, and the answer to a call may depend on
      the history so far. A call may also raise.
    - Exceptions are explicit: a computation yields [Ok v] or [Raise e].

    Two further parts follow the resolver: [ApiClient] embeds
    [src/mapper/api_client.py] itself, from the retry loop to the
    reading of the decoded responses, and [Simple] embeds the
    stand-alone mapper of [simple_mapper.py] with the statistics of its
    dashboard. *)

From Stdlib Require Import Floats.PrimFloat Strings.Ascii NArith ZArith.
From stdpp Require Import gmap strings list sorting pretty.
From Stdlib Require Floats.FloatOps Floats.FloatAxioms Floats.SpecFloat.

Set Warnings "-inexact-float".
Local Open Scope string_scope.
Local Open Scope Z_scope.
Local Open Scope list_scope.

(** ** Python string primitives *)

Module Py.

Definition upper_char (c : ascii) : ascii :=
  let n := N_of_ascii c in
  if ((97 <=? n) && (n <=? 122))%N then ascii_of_N (n - 32) else c.

(** [str.upper()] *)
Fixpoint upper (s : string) : string :=
  match s with
  | EmptyString => EmptyString
  | String c s' => String (upper_char c) (upper s')
  end.

Definition isspace (c : ascii) : bool :=
  let n := N_of_ascii c in
  ((n =? 32) || ((9 <=? n) && (n <=? 13)) || ((28 <=? n) && (n <=? 31)))%N.

Fixpoint lstrip (s : string) : string :=
  match s with
  | EmptyString => EmptyString
  | String c s' => if isspace c then lstrip s' else s
  end.

Fixpoint rstrip (s : string) : string :=
  match s with
  | EmptyString => EmptyString
  | String c s' =>
      match rstrip s' with
      | EmptyString => if isspace c then EmptyString else String c EmptyString
      | t => String c t
      end
  end.

(** [str.strip()] *)
Definition strip (s : string) : string := rstrip (lstrip s).

Fixpoint startswith (p s : string) : bool :=
  match p, s with
  | EmptyString, _ => true
  | String a p', String b s' => if Ascii.eqb a b then startswith p' s' else false
  | String _ _, EmptyString => false
  end.

(** [needle in hay] on strings *)
Fixpoint contains (needle hay : string) : bool :=
  startswith needle hay ||
  match hay with
  | EmptyString => false
  | String _ hay' => contains needle hay'
  end.

(** Truth value of a [str]: the empty string is falsy. *)
Definition truthy (s : string) : bool :=
  match s with EmptyString => false | _ => true end.

(** Truth value of an [Optional[str]]: [None] and [''] are falsy. *)
Definition truthy_opt (o : option string) : bool :=
  match o with Some s => truthy s | None => false end.

(** [sep.join(parts)] *)
Fixpoint join (sep : string) (parts : list string) : string :=
  match parts with
  | [] => ""
  | [p] => p
  | p :: rest => p +:+ sep +:+ join sep rest
  end.

(** [str(n)] for an [int] *)
Definition str_int (n : Z) : string := pretty n.

End Py.

(** ** Exceptions and the call history *)

Inductive exn :=
| AttributeError (msg : string)
| TypeError (msg : string)
| Exception (msg : string).

(** [str(e)] *)
Definition str_exn (e : exn) : string :=
  match e with
  | AttributeError m | TypeError m | Exception m => m
  end.

Inductive outcome (A : Type) :=
| Ok (a : A)
| Raise (e : exn).
Arguments Ok {A} a.
Arguments Raise {A} e.

(** One request to the terminology service. *)
Inductive call :=
| SearchByName (name : string)
| ApproximateSearch (term : string) (max_entries : Z)
| GetRelatedConcepts (rxcui : string) (tty : string).

Definition history := list call.

(** A computation that talks to the service: it reads and extends the
    history, and ends with a value or an exception. The history survives
    an exception, as the requests were already sent. *)
Definition M (A : Type) : Type := history → outcome A * history.

Definition ret {A} (a : A) : M A := fun h => (Ok a, h).

Definition bind {A B} (m : M A) (k : A → M B) : M B :=
  fun h =>
    match m h with
    | (Ok a, h') => k a h'
    | (Raise e, h') => (Raise e, h')
    end.

Definition lift {A} (o : outcome A) : M A := fun h => (o, h).

Notation "x <- m ;; k" := (bind m (fun x => k))
  (at level 100, m at next level, right associativity).

(** ** Data built by the API client *)

(** One entry of [approximate_search]: [{'rxcui', 'term', 'score'}]. *)
Record candidate := {
  c_rxcui : option string;
  c_term : option string;
  c_score : Z
}.

(** One entry of [get_related_concepts]:
    [{'rxcui', 'name', 'tty', 'synonym'}]. *)
Record product := {
  p_rxcui : option string;
  p_name : option string;
  p_tty : option string;
  p_synonym : option string
}.

Global Instance candidate_eq_dec : EqDecision candidate.
Proof. solve_decision. Defined.

Global Instance product_eq_dec : EqDecision product.
Proof. solve_decision. Defined.

(** The three operations of [RxNormAPIClient], as the resolver sees
    them: the answer given to a request sent after history [h]. *)
Record RxNormAPIClient := {
  search_by_name_answer : history → string → outcome (option string);
  approximate_search_answer : history → string → Z → outcome (list candidate);
  get_related_concepts_answer : history → string → string → outcome (list product)
}.

Definition search_by_name (api : RxNormAPIClient) (name : string)
  : M (option string) :=
  fun h => (search_by_name_answer api h name, h ++ [SearchByName name]).

Definition approximate_search (api : RxNormAPIClient) (term : string)
    (max_entries : Z) : M (list candidate) :=
  fun h => (approximate_search_answer api h term max_entries,
            h ++ [ApproximateSearch term max_entries]).

Definition get_related_concepts (api : RxNormAPIClient) (rxcui tty : string)
  : M (list product) :=
  fun h => (get_related_concepts_answer api h rxcui tty,
            h ++ [GetRelatedConcepts rxcui tty]).

(** Exceptions alone, for code that sends no request. *)
Definition obind {A B} (o : outcome A) (k : A → outcome B) : outcome B :=
  match o with
  | Ok a => k a
  | Raise e => Raise e
  end.

(** ** The mapping result and the mapper's configuration *)

Record MappingResult := {
  cnops_code : string;
  original_name : string;
  dci1 : string;
  rxcui : option string;
  rxnorm_name : option string;
  confidence_score : float;
  mapping_method : string;
  validation_notes : list string;
  alternative_matches : list candidate
}.

(** [config['mapping']['confidence_thresholds']] *)
Record ConfidenceThresholds := {
  high : float;
  medium : float;
  low : float
}.

(** [config['mapping']['validation']]; the similarity threshold is on
    the 0 to 100 scale of [fuzz.ratio]. *)
Record ValidationConfig := {
  name_similarity_threshold : Z;
  form_mismatch_penalty : float;
  combination_drug_penalty : float
}.

(** The attributes of a [CNOPSToRxNormMapper] instance. *)
Record CNOPSToRxNormMapper := {
  api_client : RxNormAPIClient;
  ingredient_translations : gmap string string;
  dose_form_translations : gmap string string;
  confidence_thresholds : ConfidenceThresholds;
  validation_config : ValidationConfig
}.

(** An input row: column name to cell text. *)
Abbreviation cnops_row := (gmap string string).

(** [record.get(key, '')] *)
Definition get (cnops_record : cnops_row) (key : string) : string :=
  default "" (cnops_record !! key).

(** In-place updates of a [MappingResult]. *)
Definition set_match (r : MappingResult) (id name : option string) : MappingResult :=
  {| cnops_code := cnops_code r; original_name := original_name r; dci1 := dci1 r;
     rxcui := id; rxnorm_name := name;
     confidence_score := confidence_score r; mapping_method := mapping_method r;
     validation_notes := validation_notes r;
     alternative_matches := alternative_matches r |}.

Definition set_method (r : MappingResult) (m : string) : MappingResult :=
  {| cnops_code := cnops_code r; original_name := original_name r; dci1 := dci1 r;
     rxcui := rxcui r; rxnorm_name := rxnorm_name r;
     confidence_score := confidence_score r; mapping_method := m;
     validation_notes := validation_notes r;
     alternative_matches := alternative_matches r |}.

Definition set_score (r : MappingResult) (s : float) : MappingResult :=
  {| cnops_code := cnops_code r; original_name := original_name r; dci1 := dci1 r;
     rxcui := rxcui r; rxnorm_name := rxnorm_name r;
     confidence_score := s; mapping_method := mapping_method r;
     validation_notes := validation_notes r;
     alternative_matches := alternative_matches r |}.

Definition set_alternatives (r : MappingResult) (alts : list candidate) : MappingResult :=
  {| cnops_code := cnops_code r; original_name := original_name r; dci1 := dci1 r;
     rxcui := rxcui r; rxnorm_name := rxnorm_name r;
     confidence_score := confidence_score r; mapping_method := mapping_method r;
     validation_notes := validation_notes r;
     alternative_matches := alts |}.

(** [result.validation_notes.append(note)] *)
Definition add_note (r : MappingResult) (note : string) : MappingResult :=
  {| cnops_code := cnops_code r; original_name := original_name r; dci1 := dci1 r;
     rxcui := rxcui r; rxnorm_name := rxnorm_name r;
     confidence_score := confidence_score r; mapping_method := mapping_method r;
     validation_notes := validation_notes r ++ [note];
     alternative_matches := alternative_matches r |}.

(** [MappingResult(cnops_code=..., original_name=..., dci1=...)] with the
    dataclass defaults. *)
Definition new_result (code name ingredient : string) : MappingResult :=
  {| cnops_code := code; original_name := name; dci1 := ingredient;
     rxcui := None; rxnorm_name := None;
     confidence_score := 0%float; mapping_method := "none";
     validation_notes := []; alternative_matches := [] |}.

(** ** Sorting the scored products

    [scored_products.sort(reverse=True)] orders [(score, product)] tuples
    with Python's tuple comparison: scores first, and on equal scores the
    products themselves. Two dicts that are equal compare as equal; two
    dicts that differ cannot be ordered and [<] raises [TypeError]. *)

Definition dict_lt_error : exn :=
  TypeError "'<' not supported between instances of 'dict' and 'dict'".

Definition tuple_lt (a b : Z * product) : outcome bool :=
  if decide (a.1 = b.1) then
    if decide (a.2 = b.2) then Ok false else Raise dict_lt_error
  else Ok (a.1 <? b.1).

(** [list.sort] is a stable comparison sort that only uses [<]; it is
    modelled by a stable insertion sort that only uses [tuple_lt]. The
    two agree on every list. When no two entries tie on score with
    different products, every comparison succeeds and the descending
    order is determined. When two such entries exist, a comparison sort
    must compare two of them, since entries that end up next to each
    other can only be ordered by comparing them, and that comparison
    raises. Both facts are proved of the model below
    ([sort_reverse_tie_free], [sort_reverse_tie_raises]).

    Insertion puts [x] before the first entry that is smaller. *)
Fixpoint insert_desc (x : Z * product) (l : list (Z * product))
  : outcome (list (Z * product)) :=
  match l with
  | [] => Ok [x]
  | y :: l' =>
      obind (tuple_lt y x) (fun smaller =>
        if smaller : bool then Ok (x :: y :: l')
        else obind (insert_desc x l') (fun r => Ok (y :: r)))
  end.

Fixpoint sort_into (acc l : list (Z * product)) : outcome (list (Z * product)) :=
  match l with
  | [] => Ok acc
  | x :: l' => obind (insert_desc x acc) (fun acc' => sort_into acc' l')
  end.

(** [l.sort(reverse=True)] *)
Definition sort_reverse (l : list (Z * product)) : outcome (list (Z * product)) :=
  sort_into [] l.

(** ** The resolver *)

Section Mapper.

(** [fuzz.ratio] of the fuzzywuzzy package: a similarity between two
    strings on the 0 to 100 scale. *)
Variable fuzz_ratio : string → string → Z.

Variable self : CNOPSToRxNormMapper.

(** The body of the scoring loop for one product. The API client
    stores [concept.get('name')] under the key ['name'], so a concept
    without a name yields [None] here and [.upper()] raises. *)
Definition score_product (target_strength target_form : string) (p : product)
  : outcome (Z * product) :=
  match p_name p with
  | None => Raise (AttributeError "'NoneType' object has no attribute 'upper'")
  | Some name =>
      let product_name := Py.upper name in
      let score := 0 in
      let score :=
        if Py.truthy (Py.strip target_strength)
           && Py.contains (Py.upper target_strength) product_name
        then score + 50 else score in
      let translated_form :=
        default target_form (dose_form_translations self !! target_form) in
      let score :=
        if Py.contains (Py.upper translated_form) product_name
        then score + 30 else score in
      Ok (score, p)
  end.

Fixpoint score_products (target_strength target_form : string)
    (products : list product) : outcome (list (Z * product)) :=
  match products with
  | [] => Ok []
  | p :: rest =>
      obind (score_product target_strength target_form p) (fun sp =>
      obind (score_products target_strength target_form rest) (fun r =>
      Ok (sp :: r)))
  end.

(** The two fallbacks after the sort: the first product whose term
    type is ['SCD'], else the first product. *)
Definition first_scd_or_first (products : list product) : option product :=
  match List.find (fun p => bool_decide (p_tty p = Some "SCD")) products with
  | Some p => Some p
  | None => head products
  end.

Definition _find_best_product_match (products : list product)
    (target_strength target_form : string) : outcome (option product) :=
  match products with
  | [] => Ok None
  | _ :: _ =>
      obind (score_products target_strength target_form products) (fun scored_products =>
      obind (sort_reverse scored_products) (fun scored_products =>
      match scored_products with
      | (score, p) :: _ =>
          if 0 <? score then Ok (Some p) else Ok (first_scd_or_first products)
      | [] => Ok (first_scd_or_first products)
      end))
  end.

(** A product dict always carries its four keys, so it is truthy and
    [if best_product:] only tests for [None]. *)
Definition _enhance_with_products (result : MappingResult)
    (cnops_record : cnops_row) : M MappingResult :=
  if negb (Py.truthy_opt (rxcui result)) then ret result
  else
    products <- get_related_concepts (api_client self)
                  (default "" (rxcui result)) "SCD+SBD";;
    match products with
    | [] => ret result
    | _ :: _ =>
        let target_strength :=
          get cnops_record "DOSAGE1" +:+ " " +:+ get cnops_record "UNITE_DOSAGE1" in
        let target_form := get cnops_record "FORME" in
        best_product <- lift (_find_best_product_match products
                                target_strength target_form);;
        match best_product with
        | Some best_product =>
            let result := set_match result (p_rxcui best_product)
                                           (p_name best_product) in
            let result := set_score result (confidence_score result + 0.1)%float in
            ret (add_note result "Enhanced with specific product")
        | None => ret result
        end
    end.

(** The tier note appended last by [_validate_mapping]. *)
Definition tier_note (score : float) : string :=
  if (high (confidence_thresholds self) <=? score)%float
  then "HIGH confidence mapping"
  else if (medium (confidence_thresholds self) <=? score)%float
  then "MEDIUM confidence mapping"
  else if (low (confidence_thresholds self) <=? score)%float
  then "LOW confidence - review recommended"
  else "VERY LOW confidence - manual review required".

Definition _validate_mapping (result : MappingResult)
    (cnops_record : cnops_row) : MappingResult :=
  if negb (Py.truthy_opt (rxcui result)) then
    add_note (set_score result 0%float) "No RxNorm mapping found"
  else
    let result :=
      if Py.truthy_opt (rxnorm_name result) && Py.truthy (dci1 result) then
        let similarity :=
          fuzz_ratio (Py.upper (dci1 result))
                     (Py.upper (default "" (rxnorm_name result))) in
        if similarity <? name_similarity_threshold (validation_config self) then
          add_note
            (set_score result
               (confidence_score result
                * form_mismatch_penalty (validation_config self))%float)
            ("Low name similarity: " +:+ Py.str_int similarity +:+ "%")
        else result
      else result in
    let result :=
      if Py.contains "/" (dci1 result)
         && negb (Py.contains "/" (default "" (rxnorm_name result))) then
        add_note
          (set_score result
             (confidence_score result
              * combination_drug_penalty (validation_config self))%float)
          "Possible combination drug mismatch"
      else result in
    add_note result (tier_note (confidence_score result)).

(** Strategy 3 and the final validation (lines 91 to 105). *)
Definition fuzzy_matching (result : MappingResult) (cnops_record : cnops_row)
  : M MappingResult :=
  matches <- approximate_search (api_client self) (dci1 result) 5;;
  result <-
    match matches with
    | best_match :: rest =>
        if 80 <=? c_score best_match then
          let result := set_match result (c_rxcui best_match) (c_term best_match) in
          let result := set_method result "fuzzy_high" in
          let result := set_score result 0.6%float in
          let result := set_alternatives result rest in
          let result :=
            add_note result
              ("Fuzzy match score: " +:+ Py.str_int (c_score best_match)) in
          _enhance_with_products result cnops_record
        else ret result
    | [] => ret result
    end;;
  ret (_validate_mapping result cnops_record).

(** Strategy 2, falling through to strategy 3 (lines 77 to 89). *)
Definition translation_lookup (result : MappingResult) (cnops_record : cnops_row)
  : M MappingResult :=
  match ingredient_translations self !! Py.upper (dci1 result) with
  | Some translated =>
      rxcui <- search_by_name (api_client self) translated;;
      if Py.truthy_opt rxcui then
        let result := set_match result rxcui (Some translated) in
        let result := set_method result "translated_exact" in
        let result := set_score result 0.8%float in
        let result :=
          add_note result
            ("Used translation: " +:+ dci1 result +:+ " -> " +:+ translated) in
        result <- _enhance_with_products result cnops_record;;
        ret (_validate_mapping result cnops_record)
      else fuzzy_matching result cnops_record
  | None => fuzzy_matching result cnops_record
  end.

Definition map_single_drug (cnops_record : cnops_row) : M MappingResult :=
  let result :=
    new_result (get cnops_record "CODE") (get cnops_record "NOM")
               (get cnops_record "DCI1") in
  if negb (Py.truthy (dci1 result)) then
    ret (add_note result "No DCI1 ingredient specified")
  else
    rxcui <- search_by_name (api_client self) (dci1 result);;
    if Py.truthy_opt rxcui then
      let result := set_match result rxcui (Some (dci1 result)) in
      let result := set_method result "direct_exact" in
      let result := set_score result 0.9%float in
      result <- _enhance_with_products result cnops_record;;
      ret (_validate_mapping result cnops_record)
    else translation_lookup result cnops_record.

(** ** The batch loop of [process_file] *)

(** One row of the output table. *)
Record output_row := {
  CNOPS_CODE : string;
  ORIGINAL_NAME : string;
  DCI1 : string;
  RXCUI : option string;
  RXNORM_NAME : option string;
  CONFIDENCE_SCORE : float;
  MAPPING_METHOD : string;
  VALIDATION_NOTES : string;
  ALTERNATIVES_COUNT : nat
}.

(** The row appended in the [try] branch. *)
Definition result_row (mapping_result : MappingResult) : output_row :=
  {| CNOPS_CODE := cnops_code mapping_result;
     ORIGINAL_NAME := original_name mapping_result;
     DCI1 := dci1 mapping_result;
     RXCUI := rxcui mapping_result;
     RXNORM_NAME := rxnorm_name mapping_result;
     CONFIDENCE_SCORE := confidence_score mapping_result;
     MAPPING_METHOD := mapping_method mapping_result;
     VALIDATION_NOTES := Py.join "; " (validation_notes mapping_result);
     ALTERNATIVES_COUNT := length (alternative_matches mapping_result) |}.

(** The row appended in the [except Exception as e] branch. *)
Definition error_row (row : cnops_row) (e : exn) : output_row :=
  {| CNOPS_CODE := get row "CODE";
     ORIGINAL_NAME := get row "NOM";
     DCI1 := get row "DCI1";
     RXCUI := None;
     RXNORM_NAME := None;
     CONFIDENCE_SCORE := 0%float;
     MAPPING_METHOD := "error";
     VALIDATION_NOTES := "Error: " +:+ str_exn e;
     ALTERNATIVES_COUNT := 0%nat |}.

(** The body of the [for] loop for one row: the row appended to
    [results] and the history afterwards. *)
Definition process_row (row : cnops_row) (h : history) : output_row * history :=
  match map_single_drug row h with
  | (Ok mapping_result, h') => (result_row mapping_result, h')
  | (Raise e, h') => (error_row row e, h')
  end.

(** The loop of [process_file] (lines 196 to 228) over the rows of the
    input table, in order; reading the input file, writing the output
    file and printing the summary are outside this model. *)
Fixpoint process_file (rows : list cnops_row) (h : history)
  : list output_row * history :=
  match rows with
  | [] => ([], h)
  | row :: rest =>
      let '(out, h') := process_row row h in
      let '(outs, h'') := process_file rest h' in
      (out :: outs, h'')
  end.

End Mapper.

Arguments _find_best_product_match : simpl never.
Arguments _enhance_with_products : simpl never.
Arguments _validate_mapping : simpl never.
Arguments fuzzy_matching : simpl never.

(** ** Reachable results

    The shapes a result takes on its way through [map_single_drug],
    named so that the properties below can speak about them. *)

(** The result after [_enhance_with_products] selected [best_product]. *)
Definition enhanced (result : MappingResult) (best_product : product)
  : MappingResult :=
  add_note
    (set_score (set_match result (p_rxcui best_product) (p_name best_product))
               (confidence_score result + 0.1)%float)
    "Enhanced with specific product".

(** The result as constructed at the top of [map_single_drug]. *)
Definition fresh_result (cnops_record : cnops_row) : MappingResult :=
  new_result (get cnops_record "CODE") (get cnops_record "NOM")
             (get cnops_record "DCI1").

(** The result right after strategy 1 succeeded with identifier [id]. *)
Definition direct_exact_result (cnops_record : cnops_row) (id : string)
  : MappingResult :=
  set_score
    (set_method
       (set_match (fresh_result cnops_record) (Some id)
                  (Some (get cnops_record "DCI1")))
       "direct_exact")
    0.9%float.

(** The result right after strategy 2 succeeded. *)
Definition translated_exact_result (cnops_record : cnops_row)
    (translated id : string) : MappingResult :=
  add_note
    (set_score
       (set_method
          (set_match (fresh_result cnops_record) (Some id) (Some translated))
          "translated_exact")
       0.8%float)
    ("Used translation: " +:+ get cnops_record "DCI1" +:+ " -> " +:+ translated).

(** The result right after strategy 3 accepted [best_match]. *)
Definition fuzzy_high_result (cnops_record : cnops_row)
    (best_match : candidate) (rest : list candidate) : MappingResult :=
  add_note
    (set_alternatives
       (set_score
          (set_method
             (set_match (fresh_result cnops_record)
                        (c_rxcui best_match) (c_term best_match))
             "fuzzy_high")
          0.6%float)
       rest)
    ("Fuzzy match score: " +:+ Py.str_int (c_score best_match)).

(** A match is present when [result.rxcui] is truthy, the test used by
    enhancement and validation. *)
Definition matched (r : MappingResult) : Prop := Py.truthy_opt (rxcui r) = true.

Section Reachable.

Variable self : CNOPSToRxNormMapper.
Variable cnops_record : cnops_row.

(** What a strategy leaves behind when it succeeds. *)
Inductive strategy_result : MappingResult → Prop :=
| sr_direct id :
    Py.truthy id = true →
    strategy_result (direct_exact_result cnops_record id)
| sr_translated translated id :
    Py.truthy id = true →
    strategy_result (translated_exact_result cnops_record translated id)
| sr_fuzzy h best_match rest :
    approximate_search_answer (api_client self) h (get cnops_record "DCI1") 5
      = Ok (best_match :: rest) →
    80 ≤ c_score best_match →
    strategy_result (fuzzy_high_result cnops_record best_match rest).

(** The results that reach [_validate_mapping]. *)
Inductive pre_validation : MappingResult → Prop :=
| pv_unmatched : pre_validation (fresh_result cnops_record)
| pv_plain r : strategy_result r → pre_validation r
| pv_enhanced r h products p :
    strategy_result r →
    matched r →
    get_related_concepts_answer (api_client self) h
      (default "" (rxcui r)) "SCD+SBD" = Ok products →
    p ∈ products →
    pre_validation (enhanced r p).

(** Both exact lookups miss when the first is sent after history [h]:
    the raw name is not found, and neither is its translation when the
    table has one. *)
Definition exact_lookups_miss (h : history) : Prop :=
  let name := get cnops_record "DCI1" in
  (∃ o, search_by_name_answer (api_client self) h name = Ok o
        ∧ Py.truthy_opt o = false)
  ∧ ∀ translated,
      ingredient_translations self !! Py.upper name = Some translated →
      ∃ o, search_by_name_answer (api_client self)
             (h ++ [SearchByName name]) translated = Ok o
           ∧ Py.truthy_opt o = false.

(** The history once the exact lookups have been sent. *)
Definition after_exact_lookups (h : history) : history :=
  let name := get cnops_record "DCI1" in
  h ++ SearchByName name ::
    match ingredient_translations self !! Py.upper name with
    | Some translated => [SearchByName translated]
    | None => []
    end.

(** Every candidate and product the service returns carries a
    non-empty identifier. *)
Definition identifiers_present : Prop :=
  (∀ h term n l c,
      approximate_search_answer (api_client self) h term n = Ok l →
      c ∈ l → Py.truthy_opt (c_rxcui c) = true)
  ∧ (∀ h id tty l p,
      get_related_concepts_answer (api_client self) h id tty = Ok l →
      p ∈ l → Py.truthy_opt (p_rxcui p) = true).

(** The confidence a matched result can have before validation. *)
Definition base_scores : list float :=
  [0.9; 0.8; 0.6; 0.9 + 0.1; 0.8 + 0.1; 0.6 + 0.1]%float.

(** The confidence validation leaves for a pre-validation score [s]:
    each penalty applied or not. *)
Definition penalised (s : float) : list float :=
  let pf := form_mismatch_penalty (validation_config self) in
  let pc := combination_drug_penalty (validation_config self) in
  [s; s * pf; s * pc; s * pf * pc]%float.

(** No reachable confidence is multiplied down to zero by the
    configured penalties. *)
Definition penalties_keep_nonzero : bool :=
  forallb (fun s => forallb (fun x => negb (x =? 0)%float) (penalised s))
          base_scores.

End Reachable.

(** The notes validation can append last. *)
Definition verdicts : list string :=
  ["No RxNorm mapping found"; "HIGH confidence mapping";
   "MEDIUM confidence mapping"; "LOW confidence - review recommended";
   "VERY LOW confidence - manual review required"].

(** ** Ties in the list to sort *)

(** No two entries tie on score with different products. *)
Definition tie_free (l : list (Z * product)) : Prop :=
  ∀ a b, a ∈ l → b ∈ l → a.1 = b.1 → a.2 = b.2.

(** The order the sort establishes: scores descend. *)
Definition score_ge (a b : Z * product) : Prop := b.1 ≤ a.1.

(** ** Fixtures for the worked examples *)

Module Fixture.

(** A stand-in for [fuzz.ratio]: twice the length of a longest common
    subsequence over the total length, as a rounded percentage. *)
Fixpoint lcs_row (a : ascii) (t : string) (prev : list Z) (left diag : Z)
  : list Z :=
  match t, prev with
  | String b t', up :: prev' =>
      let v := if Ascii.eqb a b then diag + 1 else Z.max up left in
      v :: lcs_row a t' prev' v up
  | _, _ => []
  end.

Fixpoint lcs_rows (s t : string) (prev : list Z) : list Z :=
  match s with
  | EmptyString => prev
  | String a s' => lcs_rows s' t (lcs_row a t prev 0 0)
  end.

Definition lcs (s t : string) : Z :=
  List.last (lcs_rows s t (repeat 0 (String.length t))) 0.

Definition ratio (s t : string) : Z :=
  let total := Z.of_nat (String.length s + String.length t) in
  if total =? 0 then 100 else (2 * (200 * lcs s t) + total) / (2 * total).

(** A terminology service that answers from fixed tables, whatever
    was asked before. *)
Definition service (names : gmap string string) (candidates : list candidate)
    (related : gmap string (list product)) : RxNormAPIClient :=
  {| search_by_name_answer := fun _ name => Ok (names !! name);
     approximate_search_answer := fun _ _ _ => Ok candidates;
     get_related_concepts_answer :=
       fun _ rxcui _ => Ok (default [] (related !! rxcui)) |}.

Definition mapper (api : RxNormAPIClient) : CNOPSToRxNormMapper :=
  {| api_client := api;
     ingredient_translations := {[ "ACIDE ACETYLSALICYLIQUE" := "aspirin" ]};
     dose_form_translations := {[ "COMPRIME" := "Oral Tablet" ]};
     confidence_thresholds := {| high := 0.8; medium := 0.6; low := 0.4 |};
     validation_config :=
       {| name_similarity_threshold := 70;
          form_mismatch_penalty := 0.7;
          combination_drug_penalty := 0.5 |} |}.

(** The same mapper with a similarity threshold low enough for the
    aspirin scenario to pass unpenalised. *)
Definition lenient_mapper (api : RxNormAPIClient) : CNOPSToRxNormMapper :=
  {| api_client := api;
     ingredient_translations := ingredient_translations (mapper api);
     dose_form_translations := dose_form_translations (mapper api);
     confidence_thresholds := confidence_thresholds (mapper api);
     validation_config :=
       {| name_similarity_threshold := 20;
          form_mismatch_penalty := 0.7;
          combination_drug_penalty := 0.5 |} |}.

Definition row (ingredient dosage unit form : string) : cnops_row :=
  {[ "CODE" := "C-" +:+ ingredient; "NOM" := ingredient +:+ " " +:+ dosage;
     "DCI1" := ingredient; "DOSAGE1" := dosage; "UNITE_DOSAGE1" := unit;
     "FORME" := form ]}.

Definition aspirin_row : cnops_row := row "aspirin" "500" "MG" "COMPRIME".
Definition acide_row : cnops_row :=
  row "ACIDE ACETYLSALICYLIQUE" "500" "MG" "COMPRIME".
Definition aspirine_row : cnops_row := row "ASPIRINE" "500" "MG" "COMPRIME".
Definition empty_row : cnops_row := {[ "CODE" := "C-0"; "NOM" := "SANS DCI" ]}.

Definition paracetamol_row : cnops_row :=
  row "paracetamol" "1" "G" "COMPRIME".

Definition known_names : gmap string string :=
  {[ "aspirin" := "1191"; "paracetamol" := "161" ]}.

Definition tablet : product :=
  {| p_rxcui := Some "212033"; p_name := Some "aspirin 500 MG Oral Tablet";
     p_tty := Some "SCD"; p_synonym := None |}.

Definition branded_tablet : product :=
  {| p_rxcui := Some "211874";
     p_name := Some "aspirin 500 MG Oral Tablet [Bayer Aspirin]";
     p_tty := Some "SBD"; p_synonym := None |}.

Definition nameless_product : product :=
  {| p_rxcui := Some "212033"; p_name := Some "";
     p_tty := Some "SCD"; p_synonym := None |}.

Definition cand (id : string) (score : Z) : candidate :=
  {| c_rxcui := Some id; c_term := Some "aspirin"; c_score := score |}.

Definition six_candidates : list candidate :=
  [cand "1191" 90; cand "2" 85; cand "3" 80; cand "4" 75; cand "5" 70; cand "6" 65].

Definition anonymous_candidate : candidate :=
  {| c_rxcui := None; c_term := Some "aspirin"; c_score := 90 |}.

(** Mappers over particular services. *)

(** Knows no name and offers nothing. *)
Definition silent_mapper : CNOPSToRxNormMapper := mapper (service ∅ [] ∅).

(** Knows aspirin and paracetamol, offers no product. *)
Definition plain_mapper : CNOPSToRxNormMapper :=
  mapper (service known_names [] ∅).

Definition lenient_plain_mapper : CNOPSToRxNormMapper :=
  lenient_mapper (service known_names [] ∅).

(** Offers one product for aspirin. *)
Definition tablet_mapper : CNOPSToRxNormMapper :=
  mapper (service known_names six_candidates {[ "1191" := [tablet] ]}).

(** Offers two products for aspirin that tie on score. *)
Definition tied_mapper : CNOPSToRxNormMapper :=
  mapper (service known_names [] {[ "1191" := [tablet; branded_tablet] ]}).

(** Offers a product with an empty name for aspirin. *)
Definition nameless_mapper : CNOPSToRxNormMapper :=
  mapper (service known_names [] {[ "1191" := [nameless_product] ]}).

(** Knows no name; the approximate search returns six candidates. *)
Definition six_mapper : CNOPSToRxNormMapper :=
  mapper (service ∅ six_candidates ∅).

(** Knows no name; the approximate search returns one candidate
    without identifier. *)
Definition anonymous_mapper : CNOPSToRxNormMapper :=
  mapper (service ∅ [anonymous_candidate] ∅).

Definition batch : list cnops_row := [paracetamol_row; aspirin_row; empty_row].

End Fixture.

(** ** Further notions for the resolver *)

(** The scores [score_product] can give. *)
Definition possible_scores : list Z := [0; 30; 50; 80].


(** ** The summary printed by [process_file]

    [pd.DataFrame(results)] is represented by the list of its rows. A
    frame built from an empty list has no columns at all, so selecting
    the column ['RXCUI'] raises [KeyError]; on a non-empty list every
    row has all the columns. A boolean mask keeps the rows where the
    comparison holds; a comparison with NaN never holds. *)

(** The numbers [_print_summary] prints. *)
Record summary := {
  s_total : nat;
  s_mapped : nat;
  s_high_conf : nat;
  s_med_conf : nat;
  s_low_conf : nat
}.

(** [len(df[mask])] *)
Definition count_rows {A} (mask : A → bool) (df : list A) : nat :=
  length (List.filter mask df).

(** [Series.notna()] on the identifier column: [None] is missing, any
    string is not. *)
Definition notna (x : option string) : bool :=
  match x with Some _ => true | None => false end.

Definition _print_summary (self : CNOPSToRxNormMapper) (df : list output_row)
  : outcome summary :=
  match df with
  | [] => Raise (Exception "'RXCUI'")
  | _ :: _ =>
      let thresholds := confidence_thresholds self in
      Ok {| s_total := length df;
            s_mapped := count_rows (fun r => notna (RXCUI r)) df;
            s_high_conf :=
              count_rows (fun r => (high thresholds <=? CONFIDENCE_SCORE r)%float) df;
            s_med_conf :=
              count_rows (fun r => (medium thresholds <=? CONFIDENCE_SCORE r)%float
                                   && (CONFIDENCE_SCORE r <? high thresholds)%float) df;
            s_low_conf :=
              count_rows (fun r => (CONFIDENCE_SCORE r <? medium thresholds)%float) df |}
  end.

(** Neither a threshold of the summary nor a score of the frame is
    NaN. *)
Definition is_nan (f : float) : bool := negb (f =? f)%float.

Definition no_nan (self : CNOPSToRxNormMapper) (df : list output_row) : bool :=
  negb (is_nan (high (confidence_thresholds self)))
  && negb (is_nan (medium (confidence_thresholds self)))
  && forallb (fun r => negb (is_nan (CONFIDENCE_SCORE r))) df.

(** ** The reach of the translation table *)

(** The entries of a translation table whose key is its own upper-case
    form. *)
Definition upper_case_entries (table : gmap string string)
  : gmap string string :=
  filter (λ entry, Py.upper entry.1 = entry.1) table.

(** The mapper with another table of ingredient translations. *)
Definition with_translations (self : CNOPSToRxNormMapper)
    (table : gmap string string) : CNOPSToRxNormMapper :=
  {| api_client := api_client self;
     ingredient_translations := table;
     dose_form_translations := dose_form_translations self;
     confidence_thresholds := confidence_thresholds self;
     validation_config := validation_config self |}.
(** * The API client

    [src/mapper/api_client.py] below the resolver: the retry loop of
    [_make_request] and the three operations that read the decoded
    JSON. A decoded response is a Python value; the operations use
    [.get], subscripts, truth tests and [for] on values whose type is
    only known at run time, so each of these is modelled on every kind
    of value, with the exception Python raises on the wrong kind.

    The world is the trace of sleeps and GET requests. What a GET
    yields, given the trace so far, is the [session]'s business: a
    decoded body, a [RequestException] (connection error, timeout, bad
    status, undecodable body), or some other exception. *)

Module ApiClient.

Set Warnings "-register-all".

(** A value decoded by [response.json()]. A dict lists its entries in
    insertion order, with distinct keys. *)
Inductive json :=
| JNone
| JBool (b : bool)
| JInt (n : Z)
| JFloat (f : float)
| JStr (s : string)
| JList (items : list json)
| JDict (entries : list (string * json)).

(** [type(x).__name__] *)
Definition type_name (x : json) : string :=
  match x with
  | JNone => "NoneType"
  | JBool _ => "bool"
  | JInt _ => "int"
  | JFloat _ => "float"
  | JStr _ => "str"
  | JList _ => "list"
  | JDict _ => "dict"
  end.

(** [bool(x)] *)
Definition truthy (x : json) : bool :=
  match x with
  | JNone => false
  | JBool b => b
  | JInt n => negb (n =? 0)
  | JFloat f => negb (f =? 0)%float
  | JStr s => Py.truthy s
  | JList items => match items with [] => false | _ => true end
  | JDict entries => match entries with [] => false | _ => true end
  end.

(** The value stored under [key], if any. *)
Fixpoint lookup_key (key : string) (entries : list (string * json))
  : option json :=
  match entries with
  | [] => None
  | (k, v) :: rest => if String.eqb k key then Some v else lookup_key key rest
  end.

(** [x.get(key, fallback)]; only a dict has [.get]. *)
Definition py_get (x : json) (key : string) (fallback : json) : outcome json :=
  match x with
  | JDict entries => Ok (default fallback (lookup_key key entries))
  | _ => Raise (AttributeError
                  ("'" +:+ type_name x +:+ "' object has no attribute 'get'"))
  end.

(** [x[key]] for a string key. *)
Definition subscript (x : json) (key : string) : outcome json :=
  match x with
  | JDict entries =>
      match lookup_key key entries with
      | Some v => Ok v
      | None => Raise (Exception ("'" +:+ key +:+ "'"))
      end
  | JList _ => Raise (TypeError "list indices must be integers or slices, not str")
  | JStr _ => Raise (TypeError "string indices must be integers")
  | _ => Raise (TypeError ("'" +:+ type_name x +:+ "' object is not subscriptable"))
  end.

(** [x[0]] *)
Definition subscript_0 (x : json) : outcome json :=
  match x with
  | JList (v :: _) => Ok v
  | JList [] => Raise (Exception "list index out of range")
  | JStr (String c _) => Ok (JStr (String c EmptyString))
  | JStr EmptyString => Raise (Exception "string index out of range")
  | JDict _ => Raise (Exception "0")
  | _ => Raise (TypeError ("'" +:+ type_name x +:+ "' object is not subscriptable"))
  end.

Fixpoint characters (s : string) : list json :=
  match s with
  | EmptyString => []
  | String c s' => JStr (String c EmptyString) :: characters s'
  end.

(** The values [for v in x] goes through: the items of a list, the keys
    of a dict, the characters of a string. *)
Definition iterate (x : json) : outcome (list json) :=
  match x with
  | JList items => Ok items
  | JDict entries => Ok (JStr <$> entries.*1)
  | JStr s => Ok (characters s)
  | _ => Raise (TypeError ("'" +:+ type_name x +:+ "' object is not iterable"))
  end.

(** A length of time handed to [time.sleep] or as a timeout: an [int]
    or a [float]. *)
Inductive seconds :=
| Seconds (n : Z)
| SecondsF (f : float).

(** The two places that sleep: before every attempt, and between a
    failed attempt and the next. *)
Inductive sleep_site := RateLimit | Backoff.

Inductive event :=
| Slept (site : sleep_site) (d : seconds)
| Get (url : string) (params : option (list (string * json))) (timeout : seconds).

Definition trace := list event.

(** What one GET comes to: [session.get], [raise_for_status] and
    [response.json()] together. *)
Inductive reply :=
| Body (body : json)
| RequestException (msg : string)
| OtherException (e : exn).

(** The attributes of an [RxNormAPIClient]; [session] is asked with the
    trace so far. *)
Record client := {
  base_url : string;
  rate_limit : seconds;
  timeout : seconds;
  retries : Z;
  session : trace → string → option (list (string * json)) → reply
}.

Definition IO (A : Type) : Type := trace → outcome A * trace.

Definition io_ret {A} (a : A) : IO A := fun tr => (Ok a, tr).

Definition io_bind {A B} (m : IO A) (k : A → IO B) : IO B :=
  fun tr =>
    match m tr with
    | (Ok a, tr') => k a tr'
    | (Raise e, tr') => (Raise e, tr')
    end.

Definition io_lift {A} (o : outcome A) : IO A := fun tr => (o, tr).

(** [time.sleep] keeps the length as a signed 64-bit count of
    nanoseconds: a whole number of seconds beyond [max_sleep_seconds]
    on either side, or a float whose count of nanoseconds does not fit,
    raises [OverflowError]. *)
Definition max_sleep_seconds : Z := Z.quot (2 ^ 63 - 1) (10 ^ 9).

Definition sleep_overflow : exn :=
  Exception "timestamp too large to convert to C _PyTime_t".

(** A length [time.sleep] accepts: not negative, not NaN, and within
    the range. *)
Definition sleepable (d : seconds) : bool :=
  match d with
  | Seconds n => (0 <=? n) && (n <=? max_sleep_seconds)
  | SecondsF f =>
      (0 <=? f * 1e9)%float && (f * 1e9 <? 9223372036854775808)%float
  end.

(** [time.sleep(d)] at one of the two sites. A length out of range
    raises [OverflowError], NaN and a negative length raise
    [ValueError]; none of them is a [RequestException]. *)
Definition sleep (site : sleep_site) (d : seconds) : IO unit :=
  fun tr =>
    if sleepable d then (Ok tt, tr ++ [Slept site d])
    else
      match d with
      | Seconds n =>
          if (n <? - max_sleep_seconds) || (max_sleep_seconds <? n)
          then (Raise sleep_overflow, tr)
          else (Raise (Exception "sleep length must be non-negative"), tr)
      | SecondsF f =>
          if is_nan f
          then (Raise (Exception "Invalid value NaN (not a number)"), tr)
          else if (f * 1e9 <? -9223372036854775808)%float
                  || (9223372036854775808 <=? f * 1e9)%float
          then (Raise sleep_overflow, tr)
          else (Raise (Exception "sleep length must be non-negative"), tr)
      end.

(** The iterations of the [for attempt in range(self.retries)] loop
    from [attempt] on, [remaining] of them being left; when none is
    left the loop is over and [None] is returned. *)
Fixpoint attempts (self : client) (endpoint : string)
    (params : option (list (string * json))) (remaining : nat) (attempt : Z)
  : IO json :=
  match remaining with
  | O => io_ret JNone
  | S remaining' =>
      io_bind (sleep RateLimit (rate_limit self)) (fun _ =>
      fun tr =>
        let url := base_url self +:+ "/" +:+ endpoint in
        let tr' := tr ++ [Get url params (timeout self)] in
        match session self tr url params with
        | Body body => (Ok body, tr')
        | RequestException _ =>
            if attempt =? retries self - 1 then (Ok JNone, tr')
            else io_bind (sleep Backoff (Seconds (2 ^ attempt))) (fun _ =>
                   attempts self endpoint params remaining' (attempt + 1)) tr'
        | OtherException e => (Raise e, tr')
        end)
  end.

Definition _make_request (self : client) (endpoint : string)
    (params : option (list (string * json))) : IO json :=
  attempts self endpoint params (Z.to_nat (retries self)) 0.

(** Lines 46 to 48: the first identifier of the decoded response. *)
Definition first_rxnorm_id (result : json) : outcome json :=
  if truthy result then
    obind (py_get result "idGroup" (JDict [])) (fun id_group =>
    obind (py_get id_group "rxnormId" JNone) (fun ids =>
    if truthy ids then
      obind (subscript result "idGroup") (fun id_group =>
      obind (subscript id_group "rxnormId") (fun ids =>
      subscript_0 ids))
    else Ok JNone))
  else Ok JNone.

Definition search_by_name (self : client) (name : string) : IO json :=
  io_bind (_make_request self "rxcui.json" (Some [("name", JStr name)]))
    (fun result => io_lift (first_rxnorm_id result)).

(** One entry of the list [approximate_search] returns. *)
Record match_entry := {
  m_rxcui : json;
  m_term : json;
  m_score : json
}.

Fixpoint collect {A B} (f : A → outcome B) (l : list A) : outcome (list B) :=
  match l with
  | [] => Ok []
  | x :: rest =>
      obind (f x) (fun y => obind (collect f rest) (fun ys => Ok (y :: ys)))
  end.

(** The dict appended for one candidate. *)
Definition match_of (candidate : json) : outcome match_entry :=
  obind (py_get candidate "rxcui" JNone) (fun rxcui =>
  obind (py_get candidate "term" JNone) (fun term =>
  obind (py_get candidate "score" (JInt 0)) (fun score =>
  Ok {| m_rxcui := rxcui; m_term := term; m_score := score |}))).

(** Lines 55 to 64. *)
Definition candidate_matches (result : json) : outcome (list match_entry) :=
  if truthy result then
    obind (py_get result "approximateGroup" (JDict [])) (fun group =>
    obind (py_get group "candidate" JNone) (fun candidates =>
    if truthy candidates then
      obind (subscript result "approximateGroup") (fun group =>
      obind (subscript group "candidate") (fun candidates =>
      obind (iterate candidates) (fun candidates =>
      collect match_of candidates)))
    else Ok []))
  else Ok [].

Definition approximate_search (self : client) (term : string) (max_entries : Z)
  : IO (list match_entry) :=
  io_bind (_make_request self "approximateTerm.json"
             (Some [("term", JStr term); ("maxEntries", JInt max_entries)]))
    (fun result => io_lift (candidate_matches result)).

(** One entry of the list [get_related_concepts] returns. *)
Record concept_entry := {
  k_rxcui : json;
  k_name : json;
  k_tty : json;
  k_synonym : json
}.

Definition concept_of (concept : json) : outcome concept_entry :=
  obind (py_get concept "rxcui" JNone) (fun rxcui =>
  obind (py_get concept "name" JNone) (fun name =>
  obind (py_get concept "tty" JNone) (fun tty =>
  obind (py_get concept "synonym" JNone) (fun synonym =>
  Ok {| k_rxcui := rxcui; k_name := name; k_tty := tty;
        k_synonym := synonym |})))).

(** The body of the loop over the concept groups: the concepts one
    group adds. *)
Definition group_concepts (group : json) : outcome (list concept_entry) :=
  obind (py_get group "conceptProperties" JNone) (fun properties =>
  if truthy properties then
    obind (subscript group "conceptProperties") (fun properties =>
    obind (iterate properties) (fun properties =>
    collect concept_of properties))
  else Ok []).

(** Lines 72 to 84. *)
Definition related_concepts (result : json) : outcome (list concept_entry) :=
  if truthy result then
    obind (py_get result "relatedGroup" JNone) (fun related =>
    if truthy related then
      obind (subscript result "relatedGroup") (fun related =>
      obind (py_get related "conceptGroup" (JList [])) (fun groups =>
      obind (iterate groups) (fun groups =>
      obind (collect group_concepts groups) (fun found =>
      Ok (concat found)))))
    else Ok [])
  else Ok [].

Definition get_related_concepts (self : client) (rxcui : string)
    (tty : option string) : IO (list concept_entry) :=
  let endpoint := "rxcui/" +:+ rxcui +:+ "/related.json" in
  let params :=
    if Py.truthy_opt tty then Some [("tty", JStr (default "" tty))] else None in
  io_bind (_make_request self endpoint params)
    (fun result => io_lift (related_concepts result)).

(** The trace of [k] failed attempts that were each followed by a
    backoff, starting with attempt number [attempt]. *)
Fixpoint retried (self : client) (url : string)
    (params : option (list (string * json))) (k : nat) (attempt : Z) : trace :=
  match k with
  | O => []
  | S k' =>
      [Slept RateLimit (rate_limit self); Get url params (timeout self);
       Slept Backoff (Seconds (2 ^ attempt))]
      ++ retried self url params k' (attempt + 1)
  end.

(** The number of GET requests in a trace. *)
Fixpoint gets (tr : trace) : nat :=
  match tr with
  | [] => 0
  | Get _ _ _ :: rest => S (gets rest)
  | Slept _ _ :: rest => gets rest
  end.

(** The seconds of backoff in a trace. *)
Fixpoint backoff_total (tr : trace) : Z :=
  match tr with
  | [] => 0
  | Slept Backoff (Seconds n) :: rest => n + backoff_total rest
  | _ :: rest => backoff_total rest
  end.

(** The entry [match_of] builds from a candidate that is a dict. *)
Definition match_of_dict (candidate : list (string * json)) : match_entry :=
  {| m_rxcui := default JNone (lookup_key "rxcui" candidate);
     m_term := default JNone (lookup_key "term" candidate);
     m_score := default (JInt 0) (lookup_key "score" candidate) |}.

(** The entry [concept_of] builds from a concept that is a dict. *)
Definition concept_of_dict (concept : list (string * json)) : concept_entry :=
  {| k_rxcui := default JNone (lookup_key "rxcui" concept);
     k_name := default JNone (lookup_key "name" concept);
     k_tty := default JNone (lookup_key "tty" concept);
     k_synonym := default JNone (lookup_key "synonym" concept) |}.

(** A concept group that is a dict, with the concepts it contributes:
    those of its [conceptProperties] when that is a list of dicts, none
    when it is missing or falsy. *)
Definition group_holds (group : json) (concepts : list (list (string * json)))
  : Prop :=
  ∃ entries,
    group = JDict entries
    ∧ (lookup_key "conceptProperties" entries = Some (JList (JDict <$> concepts))
       ∨ (concepts = []
          ∧ truthy (default JNone (lookup_key "conceptProperties" entries))
            = false)).

(** Every GET for [url] and [params] fails with a [RequestException]. *)
Definition always_fails (self : client) (url : string)
    (params : option (list (string * json))) : Prop :=
  ∀ tr, ∃ msg, session self tr url params = RequestException msg.

End ApiClient.

(** * The stand-alone mapper

    [simple_mapper.py]: a mapper with its configuration and its
    translation table written into [__init__], its own copy of
    [_make_request] and [search_by_name] (the code of
    [src/mapper/api_client.py] without the logging), a resolver with
    the two exact strategies only, the batch loop and the statistics of
    the dashboard. *)

Module Simple.
Import ApiClient.

(** The dataclass of [simple_mapper.py]. [rxcui] holds whatever
    [search_by_name] returned: an element of the decoded response. *)
Record MappingResult := {
  cnops_code : string;
  original_name : string;
  dci1 : string;
  rxcui : json;
  rxnorm_name : option string;
  confidence_score : float;
  mapping_method : string;
  validation_notes : list string;
  alternative_matches : list json
}.

(** The instance [__init__] builds, around its HTTP session. *)
Definition SimpleCNOPSMapper
    (session : trace → string → option (list (string * json)) → reply)
  : client :=
  {| base_url := "https://rxnav.nlm.nih.gov/REST";
     rate_limit := SecondsF 0.2;
     timeout := Seconds 30;
     retries := 3;
     session := session |}.

Definition ingredient_translations : gmap string string :=
  list_to_map
    [("ACIDE ACETYLSALICYLIQUE", "aspirin");
     ("PARACETAMOL", "acetaminophen");
     ("ACIDE ASCORBIQUE", "ascorbic acid");
     ("ACIDE FOLIQUE", "folic acid");
     ("AMOXICILLINE", "amoxicillin");
     ("DICLOFENAC", "diclofenac");
     ("IBUPROFENE", "ibuprofen");
     ("FLUCONAZOLE", "fluconazole");
     ("LANSOPRAZOLE", "lansoprazole");
     ("CETIRIZINE", "cetirizine");
     ("CLONAZEPAM", "clonazepam");
     ("OXALIPLATINE", "oxaliplatin");
     ("CEFACLOR", "cefaclor");
     ("CEFOTAXIME", "cefotaxime");
     ("HYDROXOCOBALAMINE", "hydroxocobalamin");
     ("TETRAZEPAM", "tetrazepam");
     ("INDAPAMIDE", "indapamide");
     ("PERINDOPRIL", "perindopril");
     ("RIFAMYCINE", "rifamycin");
     ("PREDNISOLONE", "prednisolone");
     ("CHLORPHENAMINE", "chlorpheniramine");
     ("AMBROXOL", "ambroxol");
     ("BENFLUOREX", "benfluorex");
     ("VILOXAZINE", "viloxazine");
     ("ZIPRASIDONE", "ziprasidone")].

(** [MappingResult(cnops_code=..., original_name=..., dci1=...)] *)
Definition new_result (cnops_record : cnops_row) : MappingResult :=
  {| cnops_code := get cnops_record "CODE";
     original_name := get cnops_record "NOM";
     dci1 := get cnops_record "DCI1";
     rxcui := JNone; rxnorm_name := None;
     confidence_score := 0%float; mapping_method := "none";
     validation_notes := []; alternative_matches := [] |}.

(** The result after a strategy succeeded: identifier, name, method and
    score are assigned and [notes] are appended. *)
Definition found (result : MappingResult) (id : json) (name method : string)
    (score : float) (notes : list string) : MappingResult :=
  {| cnops_code := cnops_code result;
     original_name := original_name result;
     dci1 := dci1 result;
     rxcui := id; rxnorm_name := Some name;
     confidence_score := score; mapping_method := method;
     validation_notes := validation_notes result ++ notes;
     alternative_matches := alternative_matches result |}.

(** [result.validation_notes.append(note)] *)
Definition add_note (result : MappingResult) (note : string) : MappingResult :=
  {| cnops_code := cnops_code result;
     original_name := original_name result;
     dci1 := dci1 result;
     rxcui := rxcui result; rxnorm_name := rxnorm_name result;
     confidence_score := confidence_score result;
     mapping_method := mapping_method result;
     validation_notes := validation_notes result ++ [note];
     alternative_matches := alternative_matches result |}.

Definition map_single_drug (self : client) (cnops_record : cnops_row)
  : IO MappingResult :=
  let result := new_result cnops_record in
  if negb (Py.truthy (dci1 result)) then
    io_ret (add_note result "No DCI1 ingredient specified")
  else
    io_bind (search_by_name self (dci1 result)) (fun id =>
    if truthy id then
      io_ret (found result id (dci1 result) "direct_exact" 0.9%float
                ["HIGH confidence mapping"])
    else
      match ingredient_translations !! Py.upper (dci1 result) with
      | Some translated =>
          io_bind (search_by_name self translated) (fun id =>
          if truthy id then
            io_ret (found result id translated "translated_exact" 0.8%float
                      ["Used translation: " +:+ dci1 result +:+ " -> "
                         +:+ translated;
                       "HIGH confidence mapping"])
          else io_ret (add_note result "No mapping found"))
      | None => io_ret (add_note result "No mapping found")
      end).

(** One row of the output table. *)
Record output_row := {
  CNOPS_CODE : string;
  ORIGINAL_NAME : string;
  DCI1 : string;
  RXCUI : json;
  RXNORM_NAME : option string;
  CONFIDENCE_SCORE : float;
  MAPPING_METHOD : string;
  VALIDATION_NOTES : string
}.

Definition result_row (mapping_result : MappingResult) : output_row :=
  {| CNOPS_CODE := cnops_code mapping_result;
     ORIGINAL_NAME := original_name mapping_result;
     DCI1 := dci1 mapping_result;
     RXCUI := rxcui mapping_result;
     RXNORM_NAME := rxnorm_name mapping_result;
     CONFIDENCE_SCORE := confidence_score mapping_result;
     MAPPING_METHOD := mapping_method mapping_result;
     VALIDATION_NOTES := Py.join "; " (validation_notes mapping_result) |}.

Definition error_row (row : cnops_row) (e : exn) : output_row :=
  {| CNOPS_CODE := get row "CODE";
     ORIGINAL_NAME := get row "NOM";
     DCI1 := get row "DCI1";
     RXCUI := JNone;
     RXNORM_NAME := None;
     CONFIDENCE_SCORE := 0%float;
     MAPPING_METHOD := "error";
     VALIDATION_NOTES := "Error: " +:+ str_exn e |}.

(** The [for] loop of [process_file]: [try] the resolution of each row,
    [except Exception] append the error row. The progress line printed
    every hundred rows, with its division by the elapsed time, stands
    before the [try] and is left out. *)
Fixpoint process_rows (self : client) (rows : list cnops_row) (tr : trace)
  : list output_row * trace :=
  match rows with
  | [] => ([], tr)
  | row :: rest =>
      let '(out, tr') :=
        match map_single_drug self row tr with
        | (Ok mapping_result, tr') => (result_row mapping_result, tr')
        | (Raise e, tr') => (error_row row e, tr')
        end in
      let '(outs, tr'') := process_rows self rest tr' in
      (out :: outs, tr'')
  end.

(** [Series.notna()] on the identifier column: [None] and NaN are
    missing. *)
Definition notna (x : json) : bool :=
  match x with
  | JNone => false
  | JFloat f => (f =? f)%float
  | _ => true
  end.

(** [len(df[mask])] on a frame given by its rows. *)
Definition count_rows (mask : output_row → bool) (df : list output_row) : nat :=
  length (List.filter mask df).

(** [process_file]: the loop, then the count of mapped rows for the
    summary line. A frame built from no rows has no column ['RXCUI']
    and the selection raises [KeyError]. Reading and writing the
    spreadsheets is left out. *)
Definition process_file (self : client) (rows : list cnops_row)
  : IO (list output_row) :=
  fun tr =>
    let '(results_df, tr') := process_rows self rows tr in
    match results_df with
    | [] => (Raise (Exception "'RXCUI'"), tr')
    | _ :: _ => (Ok results_df, tr')
    end.

(** The numbers [generate_dashboard] writes into the page. *)
Record statistics := {
  total_records : nat;
  mapped_records : nat;
  failed_records : nat;
  high_conf : nat;
  med_conf : nat;
  low_conf : nat;
  very_low_conf : nat
}.

(** The analysis at the top of [generate_dashboard] (lines 195 to
    205); the counts per method and per ingredient and the page itself
    are left out. *)
Definition generate_dashboard (results_df : list output_row)
  : outcome statistics :=
  match results_df with
  | [] => Raise (Exception "'RXCUI'")
  | _ :: _ =>
      let total_records := length results_df in
      let mapped_records := count_rows (fun r => notna (RXCUI r)) results_df in
      Ok {| total_records := total_records;
            mapped_records := mapped_records;
            failed_records := total_records - mapped_records;
            high_conf :=
              count_rows (fun r => (0.8 <=? CONFIDENCE_SCORE r)%float) results_df;
            med_conf :=
              count_rows (fun r => (0.5 <=? CONFIDENCE_SCORE r)%float
                                   && (CONFIDENCE_SCORE r <? 0.8)%float)
                         results_df;
            low_conf :=
              count_rows (fun r => (0.3 <=? CONFIDENCE_SCORE r)%float
                                   && (CONFIDENCE_SCORE r <? 0.8)%float)
                         results_df;
            very_low_conf :=
              count_rows (fun r => (CONFIDENCE_SCORE r <? 0.3)%float) results_df |}
  end.

(** The rows the loop can produce: a confidence of 0.8 or 0.9 with the
    methods [direct_exact] and [translated_exact], of 0.0 with [none]
    and [error]. *)
Definition resolved (out : output_row) : bool :=
  bool_decide (MAPPING_METHOD out ∈ ["direct_exact"; "translated_exact"]).

Definition loop_row (out : output_row) : Prop :=
  (resolved out = true ∧ CONFIDENCE_SCORE out ∈ [0.8; 0.9]%float)
  ∨ (resolved out = false ∧ CONFIDENCE_SCORE out = 0%float).

(** Every GET fails with a [RequestException], whatever is asked. *)
Definition unreachable (self : client) : Prop :=
  ∀ url params, always_fails self url params.

End Simple.

(** * Further fixtures for the worked examples *)

Module Samples.

(** A product whose concept had no name. *)
Definition unnamed_product : product :=
  {| p_rxcui := Some "212033"; p_name := None;
     p_tty := Some "SCD"; p_synonym := None |}.

(** A combination matched to a single ingredient. *)
Definition combination_result : MappingResult :=
  set_score
    (set_match (new_result "C-7" "AUGMENTIN 1 G"
                           "AMOXICILLINE/ACIDE CLAVULANIQUE")
               (Some "723") (Some "amoxicillin"))
    0.8%float.

(** A mapper whose translation table spells its key in lower case;
    the similarity threshold is low enough for the aspirin scenario. *)
Definition lower_case_mapper : CNOPSToRxNormMapper :=
  with_translations Fixture.lenient_plain_mapper
    {[ "acide acetylsalicylique" := "aspirin" ]}.

(** The frame of the batch processed with the one-product service. *)
Definition frame : list output_row :=
  (process_file Fixture.ratio Fixture.tablet_mapper Fixture.batch []).1.

Import ApiClient.

(** Decoded responses of the three endpoints. *)
Definition aspirin_ids : json :=
  JDict [("idGroup",
          JDict [("name", JStr "aspirin");
                 ("rxnormId", JList [JStr "1191"])])].

Definition unknown_name : json :=
  JDict [("idGroup", JDict [("name", JStr "ACIDE ACETYLSALICYLIQUE")])].

Definition null_group : json := JDict [("idGroup", JNone)].

Definition aspirin_candidates : list (list (string * json)) :=
  [[("rxcui", JStr "1191"); ("term", JStr "aspirin"); ("score", JInt 100)];
   [("rxcui", JStr "1294937"); ("term", JStr "aspirin lysine")]].

Definition approximate_body : json :=
  JDict [("approximateGroup",
          JDict [("inputTerm", JNone);
                 ("candidate", JList (JDict <$> aspirin_candidates))])].

Definition tablet_concepts : list (list (string * json)) :=
  [[("rxcui", JStr "212033"); ("name", JStr "aspirin 500 MG Oral Tablet");
    ("tty", JStr "SCD")]].

Definition related_groups : list json :=
  [JDict [("tty", JStr "SBD")];
   JDict [("tty", JStr "SCD");
          ("conceptProperties", JList (JDict <$> tablet_concepts))]].

Definition related_group : list (string * json) :=
  [("rxcui", JStr "1191"); ("conceptGroup", JList related_groups)].

Definition related_body : json :=
  JDict [("relatedGroup", JDict related_group)].

(** Sessions: one that always answers with [body], one that fails a
    number of times first, one that never answers, and one that knows
    the names of a list. *)
Definition answering (body : json)
  : trace → string → option (list (string * json)) → reply :=
  fun _ _ _ => Body body.

Definition flaky (failures : nat) (body : json)
  : trace → string → option (list (string * json)) → reply :=
  fun tr _ _ =>
    if (gets tr <? failures)%nat then RequestException "connection refused"
    else Body body.

Definition refusing : trace → string → option (list (string * json)) → reply :=
  fun _ _ _ => RequestException "connection refused".

Definition knowing (names : list (string * string))
  : trace → string → option (list (string * json)) → reply :=
  fun _ _ params =>
    match params with
    | Some [(_, JStr name)] =>
        match List.find (fun entry => String.eqb entry.1 name) names with
        | Some (_, id) =>
            Body (JDict [("idGroup", JDict [("rxnormId", JList [JStr id])])])
        | None => Body (JDict [("idGroup", JDict [])])
        end
    | _ => Body (JDict [("idGroup", JDict [])])
    end.

(** A client as [config/api_config.yaml] may set it up. *)
Definition rxnav (session : trace → string → option (list (string * json)) → reply)
  : client :=
  {| base_url := "https://rxnav.nlm.nih.gov/REST";
     rate_limit := SecondsF 0.1;
     timeout := Seconds 10;
     retries := 3;
     session := session |}.

(** The stand-alone mapper over a service that knows aspirin. *)
Definition simple_mapper : client :=
  Simple.SimpleCNOPSMapper (knowing [("aspirin", "1191")]).

End Samples.

(** ** Facts about the sort and the product choice *)

Lemma insert_desc_perm x l l' :
  insert_desc x l = Ok l' → l' ≡ₚ x :: l.
Proof.
  revert l'. induction l as [|y l IH]; intros l' H; simpl in H.
  - by inversion H.
  - destruct (tuple_lt y x) as [[|]|e]; simpl in H; try discriminate.
    + by inversion H.
    + destruct (insert_desc x l) as [r|e]; simpl in H; try discriminate.
      inversion H; subst. rewrite (IH r eq_refl). apply Permutation_swap.
Qed.

Lemma sort_into_perm l acc l' :
  sort_into acc l = Ok l' → l' ≡ₚ acc ++ l.
Proof.
  revert acc l'. induction l as [|x l IH]; intros acc l' H; simpl in H.
  - inversion H. by rewrite app_nil_r.
  - destruct (insert_desc x acc) as [acc'|e] eqn:Hins; simpl in H; try discriminate.
    rewrite (IH _ _ H), (insert_desc_perm _ _ _ Hins).
    simpl. apply Permutation_middle.
Qed.

Lemma sort_reverse_perm l l' : sort_reverse l = Ok l' → l' ≡ₚ l.
Proof. intros H. by apply sort_into_perm in H. Qed.

Section MapperFacts.

Variable fuzz_ratio : string → string → Z.
Variable self : CNOPSToRxNormMapper.

Lemma score_products_snd ts tf products scored :
  score_products self ts tf products = Ok scored → scored.*2 = products.
Proof.
  revert scored. induction products as [|p ps IH]; intros scored H; simpl in H.
  - by inversion H.
  - unfold score_product in H. destruct (p_name p); simpl in H; try discriminate.
    destruct (score_products self ts tf ps) as [r|e]; simpl in H; try discriminate.
    inversion H; subst. rewrite fmap_cons. simpl. f_equal. by apply IH.
Qed.

Lemma first_scd_or_first_elem products p :
  first_scd_or_first products = Some p → p ∈ products.
Proof.
  unfold first_scd_or_first.
  destruct (find _ products) as [q|] eqn:Hf.
  - intros [= <-]. apply find_some in Hf as [Hin _]. by apply list_elem_of_In.
  - destruct products; simpl; intros [= <-]. apply list_elem_of_here.
Qed.

(** Whatever [_find_best_product_match] returns was among the
    products it was given. *)
Lemma find_best_elem products ts tf p :
  _find_best_product_match self products ts tf = Ok (Some p) → p ∈ products.
Proof.
  unfold _find_best_product_match. destruct products as [|p0 ps]; [done|].
  destruct (score_products self ts tf (p0 :: ps)) as [scored|e] eqn:Hs; [|done].
  simpl. destruct (sort_reverse scored) as [sorted|e] eqn:Hsort; [|done].
  simpl. apply score_products_snd in Hs. apply sort_reverse_perm in Hsort.
  destruct sorted as [|[s q] rest].
  - intros [= H]. by apply first_scd_or_first_elem.
  - destruct (0 <? s).
    + intros [= ->]. rewrite <- Hs.
      apply (list_elem_of_fmap_2 snd scored (s, p)).
      rewrite <- Hsort. apply list_elem_of_here.
    + intros [= H]. by apply first_scd_or_first_elem.
Qed.


End MapperFacts.

(** ** When the sort raises

    The sort goes through exactly when no two entries tie on score with
    different products; a single such pair anywhere in the list makes it
    raise. *)

Lemma tie_free_perm l l' : l ≡ₚ l' → tie_free l → tie_free l'.
Proof.
  intros Hp Hl a b Ha Hb. apply Hl; by rewrite Hp.
Qed.

Lemma insert_desc_spec x acc :
  StronglySorted score_ge acc →
  (Exists (λ y, y.1 = x.1 ∧ y.2 ≠ x.2) acc
   ∧ insert_desc x acc = Raise dict_lt_error)
  ∨ (Forall (λ y, y.1 = x.1 → y.2 = x.2) acc
     ∧ ∃ l, insert_desc x acc = Ok l ∧ StronglySorted score_ge l).
Proof.
  induction acc as [|y acc IH]; intros Hs.
  { right. split; [constructor|]. exists [x]. split; [done|].
    repeat constructor. }
  apply StronglySorted_inv in Hs as [Hs Hy].
  specialize (IH Hs). simpl. unfold tuple_lt.
  destruct (decide (y.1 = x.1)) as [Heq|Hne].
  - destruct (decide (y.2 = x.2)) as [Heq2|Hne2]; simpl.
    + destruct IH as [[Hex ->]|(Hall & l & Hins & Hsl)]; rewrite ?Hins; simpl.
      * left. split; [by apply Exists_cons_tl|done].
      * right. split; [by constructor|]. exists (y :: l). split; [done|].
        constructor; [done|].
        assert (l ≡ₚ x :: acc) as Hp by (by eapply insert_desc_perm).
        rewrite Hp. constructor; [unfold score_ge; lia|done].
    + left. split; [|done]. by apply Exists_cons_hd.
  - simpl. destruct (y.1 <? x.1) eqn:Hlt.
    + right. apply Z.ltb_lt in Hlt.
      assert (Forall (λ z, z.1 < x.1) acc) as Hsmall.
      { eapply Forall_impl; [exact Hy|]. intros z Hz. unfold score_ge in Hz. lia. }
      split.
      * constructor; [done|]. eapply Forall_impl; [exact Hsmall|].
        intros z Hz Hzx. simpl in Hz. lia.
      * exists (x :: y :: acc). split; [done|].
        constructor; [by constructor|].
        constructor; [unfold score_ge; lia|].
        eapply Forall_impl; [exact Hsmall|]. intros z Hz. unfold score_ge.
        simpl in Hz. lia.
    + apply Z.ltb_ge in Hlt.
      destruct IH as [[Hex ->]|(Hall & l & Hins & Hsl)]; rewrite ?Hins; simpl.
      * left. split; [by apply Exists_cons_tl|done].
      * right. split; [by constructor|]. exists (y :: l). split; [done|].
        constructor; [done|].
        assert (l ≡ₚ x :: acc) as Hp by (by eapply insert_desc_perm).
        rewrite Hp. constructor; [unfold score_ge; lia|done].
Qed.

Lemma sort_into_spec l acc :
  StronglySorted score_ge acc →
  tie_free acc →
  (tie_free (acc ++ l)
   ∧ ∃ l', sort_into acc l = Ok l' ∧ StronglySorted score_ge l')
  ∨ (¬ tie_free (acc ++ l) ∧ sort_into acc l = Raise dict_lt_error).
Proof.
  revert acc. induction l as [|x l IH]; intros acc Hs Hfree; simpl.
  { left. rewrite app_nil_r. eauto. }
  destruct (insert_desc_spec x acc Hs) as [[Hex ->]|(Hall & acc' & Hins & Hs')].
  - right. split; [|done]. intros Hfree'.
    apply Exists_exists in Hex as (y & Hy & Heq & Hne).
    apply Hne, Hfree'; [| |done].
    + apply elem_of_app. by left.
    + apply elem_of_app. right. apply list_elem_of_here.
  - rewrite Hins. simpl.
    pose proof (insert_desc_perm _ _ _ Hins) as Hp.
    assert (tie_free acc') as Hfree'.
    { apply (tie_free_perm (x :: acc)); [done|].
      rewrite Forall_forall in Hall.
      intros a b Ha Hb Hab.
      apply elem_of_cons in Ha as [->|Ha]; apply elem_of_cons in Hb as [->|Hb].
      - done.
      - symmetry. by apply Hall.
      - by apply Hall.
      - by apply Hfree. }
    assert (acc' ++ l ≡ₚ acc ++ x :: l) as Hp'.
    { rewrite Hp. simpl. apply Permutation_middle. }
    destruct (IH acc' Hs' Hfree') as [[Hf Hok]|[Hf Hraise]].
    + left. split; [|done]. by apply (tie_free_perm (acc' ++ l)).
    + right. split; [|done]. intros Hf'. apply Hf.
      by apply (tie_free_perm (acc ++ x :: l)).
Qed.

(** One tie between two different products is enough for the sort to
    raise. *)
Lemma sort_reverse_tie_raises l a b :
  a ∈ l → b ∈ l → a.1 = b.1 → a.2 ≠ b.2 →
  sort_reverse l = Raise dict_lt_error.
Proof.
  intros Ha Hb Heq Hne. unfold sort_reverse.
  destruct (sort_into_spec l []) as [[Hf _]|[_ Hr]]; [constructor|..|done].
  - intros ? ? H. inversion H.
  - by destruct Hne; apply Hf.
Qed.

(** Without such a tie the sort returns. *)
Lemma sort_reverse_tie_free l :
  tie_free l → ∃ l', sort_reverse l = Ok l' ∧ l' ≡ₚ l.
Proof.
  intros Hf. unfold sort_reverse.
  destruct (sort_into_spec l []) as [[_ (l' & Hok & _)]|[Hnf _]]; [constructor|..].
  - intros ? ? H. inversion H.
  - exists l'. split; [done|]. by apply sort_reverse_perm.
  - done.
Qed.

(** A sort that returns found no such tie and left the scores in
    descending order. *)
Lemma sort_reverse_sorted l l' :
  sort_reverse l = Ok l' → tie_free l ∧ StronglySorted score_ge l'.
Proof.
  unfold sort_reverse. intros Hok.
  destruct (sort_into_spec l []) as [[Hf (l'' & Hok' & Hs)]|[_ Hr]];
    [constructor|..].
  - intros ? ? H. inversion H.
  - rewrite Hok in Hok'. by inversion Hok'; subst.
  - by rewrite Hok in Hr.
Qed.

(** Product selection raises as soon as two different products of the
    list get the same score. *)
Lemma find_best_tie_raises self products ts tf scored s p q :
  score_products self ts tf products = Ok scored →
  (s, p) ∈ scored → (s, q) ∈ scored → p ≠ q →
  _find_best_product_match self products ts tf = Raise dict_lt_error.
Proof.
  intros Hsc Hp Hq Hne. unfold _find_best_product_match.
  destruct products as [|p0 ps].
  { simpl in Hsc. inversion Hsc; subst. inversion Hp. }
  rewrite Hsc. simpl.
  by rewrite (sort_reverse_tie_raises scored (s, p) (s, q)).
Qed.

(** What a returned selection is: the product with the highest score
    when that score is positive, else the first base clinical drug,
    else the first product. In both cases no two different products of
    the list had the same score. *)
Lemma find_best_selects_top_scorer self products ts tf p :
  _find_best_product_match self products ts tf = Ok (Some p) →
  ∃ scored,
    score_products self ts tf products = Ok scored
    ∧ tie_free scored
    ∧ ((∃ s, (s, p) ∈ scored ∧ 0 < s ∧ Forall (λ sq, sq.1 ≤ s) scored)
       ∨ (Forall (λ sq, sq.1 ≤ 0) scored
          ∧ first_scd_or_first products = Some p)).
Proof.
  unfold _find_best_product_match. destruct products as [|p0 ps]; [done|].
  destruct (score_products self ts tf (p0 :: ps)) as [scored|e] eqn:Hsc; [|done].
  simpl. destruct (sort_reverse scored) as [sorted|e] eqn:Hsort; [|done].
  simpl. intros Hsel. exists scored. split; [done|].
  destruct (sort_reverse_sorted _ _ Hsort) as [Hfree Hsorted].
  split; [done|].
  pose proof (sort_reverse_perm _ _ Hsort) as Hperm.
  destruct sorted as [|[s q] rest].
  { apply Permutation_nil_l in Hperm. subst scored.
    right. split; [constructor|]. by inversion Hsel. }
  apply StronglySorted_inv in Hsorted as [_ Hrest].
  assert (Forall (λ sq : Z * product, sq.1 ≤ s) scored) as Hmax.
  { rewrite <- Hperm. constructor; [simpl; lia|].
    eapply Forall_impl; [exact Hrest|]. intros sq Hsq. exact Hsq. }
  destruct (0 <? s) eqn:Hpos.
  - left. inversion Hsel; subst. exists s. split; [|split; [lia|done]].
    rewrite <- Hperm. apply list_elem_of_here.
  - right. split; [|by inversion Hsel].
    eapply Forall_impl; [exact Hmax|]. intros sq Hsq. simpl in Hsq. lia.
Qed.

Section PipelineFacts.

Variable fuzz_ratio : string → string → Z.
Variable self : CNOPSToRxNormMapper.

Lemma enhance_history r rec h :
  (_enhance_with_products self r rec h).2 =
    if Py.truthy_opt (rxcui r)
    then h ++ [GetRelatedConcepts (default "" (rxcui r)) "SCD+SBD"]
    else h.
Proof.
  unfold _enhance_with_products.
  destruct (Py.truthy_opt (rxcui r)); simpl; [|done].
  unfold bind, get_related_concepts, lift, ret.
  destruct (get_related_concepts_answer _ _ _ _) as [[|p ps]|e]; simpl; try done.
  destruct (_find_best_product_match _ _ _ _) as [[b|]|e]; done.
Qed.

(** Enhancement either leaves the result alone or replaces the match
    by one of the products the service returned. *)
Lemma enhance_inv r rec h r' h' :
  _enhance_with_products self r rec h = (Ok r', h') →
  r' = r
  ∨ (matched r ∧ ∃ products p,
        get_related_concepts_answer (api_client self) h
          (default "" (rxcui r)) "SCD+SBD" = Ok products
        ∧ p ∈ products ∧ r' = enhanced r p).
Proof.
  unfold _enhance_with_products, matched.
  destruct (Py.truthy_opt (rxcui r)) eqn:Ht; simpl.
  2:{ intros [= <- _]. by left. }
  unfold bind, get_related_concepts, lift, ret.
  destruct (get_related_concepts_answer _ _ _ _) as [[|p ps]|e] eqn:Ha;
    simpl; try done.
  { intros [= <- _]. by left. }
  destruct (_find_best_product_match _ _ _ _) as [[b|]|e] eqn:Hb; try done.
  - intros [= <- _]. right. split; [done|]. exists (p :: ps), b.
    split; [done|]. split; [|done]. by apply find_best_elem in Hb.
  - intros [= <- _]. by left.
Qed.


(** A direct hit enhanced by a product stands at 1.0 before
    validation. *)
Lemma direct_exact_enhanced_score rec id q :
  confidence_score (enhanced (direct_exact_result rec id) q) = 1%float.
Proof. reflexivity. Qed.

Lemma validate_unmatched r rec :
  Py.truthy_opt (rxcui r) = false →
  _validate_mapping fuzz_ratio self r rec =
    add_note (set_score r 0%float) "No RxNorm mapping found".
Proof. intros H. unfold _validate_mapping. by rewrite H. Qed.

(** Validation touches the confidence and the notes only. *)
Lemma validate_keeps r rec :
  let r' := _validate_mapping fuzz_ratio self r rec in
  rxcui r' = rxcui r ∧ rxnorm_name r' = rxnorm_name r
  ∧ mapping_method r' = mapping_method r
  ∧ alternative_matches r' = alternative_matches r
  ∧ dci1 r' = dci1 r ∧ cnops_code r' = cnops_code r
  ∧ original_name r' = original_name r
  ∧ ∃ added, validation_notes r' = validation_notes r ++ added.
Proof.
  unfold _validate_mapping.
  destruct (Py.truthy_opt (rxcui r)); simpl.
  2:{ repeat split; eauto. }
  destruct (Py.truthy_opt (rxnorm_name r) && Py.truthy (dci1 r));
    [destruct (_ <? _)|];
    simpl; (destruct (Py.contains "/" (dci1 r) && _); simpl;
            repeat split; rewrite <- ?app_assoc; eauto).
Qed.

Lemma validate_score_matched r rec :
  matched r →
  confidence_score (_validate_mapping fuzz_ratio self r rec)
    ∈ penalised self (confidence_score r).
Proof.
  unfold matched, _validate_mapping, penalised. intros ->. simpl.
  destruct (Py.truthy_opt (rxnorm_name r) && Py.truthy (dci1 r));
    [destruct (_ <? _)|];
    simpl; (destruct (Py.contains "/" (dci1 r) && _); simpl);
    set_solver.
Qed.

(** Every way [map_single_drug] can return: at once for an empty
    ingredient, else through validation of a reachable result. *)
Lemma map_single_drug_inv rec h r h' :
  map_single_drug fuzz_ratio self rec h = (Ok r, h') →
  (get rec "DCI1" = ""
   ∧ r = add_note (fresh_result rec) "No DCI1 ingredient specified"
   ∧ h' = h)
  ∨ (get rec "DCI1" ≠ ""
     ∧ ∃ r0, pre_validation self rec r0
             ∧ r = _validate_mapping fuzz_ratio self r0 rec).
Proof.
  unfold map_single_drug. fold (fresh_result rec).
  change (dci1 (fresh_result rec)) with (get rec "DCI1").
  destruct (get rec "DCI1") as [|a s] eqn:Hd; simpl.
  { intros [= <- <-]. by left. }
  rewrite <- Hd. intros H. right. split; [by rewrite Hd|].
  revert H. unfold bind at 1. unfold search_by_name at 1.
  destruct (search_by_name_answer _ _ _) as [o1|e]; [|done].
  destruct (Py.truthy_opt o1) eqn:Ht1.
  { (* strategy 1 *)
    destruct o1 as [id|]; [|done]. simpl in Ht1.
    change (set_score _ 0.9%float) with (direct_exact_result rec id) in *.
    unfold bind, ret.
    destruct (_enhance_with_products _ _ _ _) as [[r1|e] h1] eqn:He; [|done].
    intros [= <- _]. exists r1. split; [|done].
    apply enhance_inv in He as [->|(Hm & ps & p & Ha & Hin & ->)].
    - apply pv_plain. by constructor.
    - eapply pv_enhanced; eauto. by constructor. }
  assert (∀ hf, fuzzy_matching fuzz_ratio self (fresh_result rec) rec hf = (Ok r, h') →
            ∃ r0, pre_validation self rec r0
                  ∧ r = _validate_mapping fuzz_ratio self r0 rec) as Hfuzzy.
  { intros hf. unfold fuzzy_matching, bind, ret.
    unfold approximate_search at 1.
    change (dci1 (fresh_result rec)) with (get rec "DCI1").
    destruct (approximate_search_answer _ _ _ _) as [[|c rest]|e] eqn:Hap; [| |done].
    { intros [= <- _]. eexists. split; [apply pv_unmatched|done]. }
    destruct (80 <=? c_score c) eqn:Hsc.
    2:{ intros [= <- _]. eexists. split; [apply pv_unmatched|done]. }
    change (add_note _ _) with (fuzzy_high_result rec c rest).
    destruct (_enhance_with_products _ _ _ _) as [[r1|e] h1] eqn:He; [|done].
    intros [= <- _]. exists r1. split; [|done].
    assert (strategy_result self rec (fuzzy_high_result rec c rest)) as Hsr.
    { eapply sr_fuzzy; eauto. lia. }
    apply enhance_inv in He as [->|(Hm & ps & p & Ha & Hin & ->)].
    - by apply pv_plain.
    - eapply pv_enhanced; eauto. }
  unfold translation_lookup.
  change (dci1 (fresh_result rec)) with (get rec "DCI1").
  destruct (ingredient_translations self !! _) as [t|]; [|by apply Hfuzzy].
  unfold bind at 1. unfold search_by_name at 1.
  destruct (search_by_name_answer _ _ _) as [o2|e]; [|done].
  destruct (Py.truthy_opt o2) eqn:Ht2; [|by apply Hfuzzy].
  destruct o2 as [id|]; [|done]. simpl in Ht2.
  change (add_note _ _) with (translated_exact_result rec t id).
  unfold bind, ret.
  destruct (_enhance_with_products _ _ _ _) as [[r1|e] h1] eqn:He; [|done].
  intros [= <- _]. exists r1. split; [|done].
  apply enhance_inv in He as [->|(Hm & ps & p & Ha & Hin & ->)].
  - apply pv_plain. by constructor.
  - eapply pv_enhanced; eauto. by constructor.
Qed.

End PipelineFacts.

(** ** The strategies *)

Section Strategies.

Variable fuzz_ratio : string → string → Z.
Variable self : CNOPSToRxNormMapper.

(** C6. A record whose ingredient field is empty is answered at once:
    method [none], confidence 0.0, the single note that no ingredient
    was specified, and the call history is returned unchanged, so no
    exact, approximate or related-concept request was sent. *)
Theorem empty_ingredient_returns_at_once (cnops_record : cnops_row) (h : history) :
  get cnops_record "DCI1" = "" →
  map_single_drug fuzz_ratio self cnops_record h =
    (Ok {| cnops_code := get cnops_record "CODE";
           original_name := get cnops_record "NOM";
           dci1 := "";
           rxcui := None; rxnorm_name := None;
           confidence_score := 0%float;
           mapping_method := "none";
           validation_notes := ["No DCI1 ingredient specified"];
           alternative_matches := [] |}, h).
Proof.
  intros Hd. unfold map_single_drug. simpl. by rewrite Hd.
Qed.


End Strategies.

Section Fuzzy.

Variable fuzz_ratio : string → string → Z.
Variable self : CNOPSToRxNormMapper.

(** When both exact lookups miss, the approximate search is all that
    is left to run. *)
Lemma exact_miss_runs_fuzzy (cnops_record : cnops_row) (h : history) :
  get cnops_record "DCI1" ≠ "" →
  exact_lookups_miss self cnops_record h →
  map_single_drug fuzz_ratio self cnops_record h =
    fuzzy_matching fuzz_ratio self (fresh_result cnops_record) cnops_record
      (after_exact_lookups self cnops_record h).
Proof.
  intros Hd [(o1 & Ho1 & Hf1) Htr].
  unfold map_single_drug, after_exact_lookups. fold (fresh_result cnops_record).
  change (dci1 (fresh_result cnops_record)) with (get cnops_record "DCI1").
  assert (Py.truthy (get cnops_record "DCI1") = true) as ->
      by (by destruct (get _ _)).
  cbn [negb]. unfold bind at 1. unfold search_by_name at 1.
  cbv beta iota. rewrite Ho1, Hf1.
  unfold translation_lookup.
  change (dci1 (fresh_result cnops_record)) with (get cnops_record "DCI1").
  destruct (ingredient_translations self !! _) as [t|] eqn:Ht; [|done].
  destruct (Htr t eq_refl) as (o2 & Ho2 & Hf2).
  unfold bind at 1. unfold search_by_name at 1. cbv beta iota.
  rewrite Ho2, Hf2. by rewrite <- app_assoc.
Qed.

(** C2, as the code has it. When both exact lookups miss and the
    approximate search, asked for 5 entries, returns a non-empty list:
    a top score of 80 or more makes the result [fuzzy_high] with
    confidence 0.6, a note with the score, and all the other returned
    candidates as alternatives, however many the service returned
    (one less than the number returned, which is [min n 5 - 1] when the
    service returned at most 5); enhancement and validation follow. A
    top score below 80 leaves no match: method [none], confidence 0.0,
    no alternatives. *)
Theorem fuzzy_high_keeps_all_other_candidates (cnops_record : cnops_row)
    (h : history) (best_match : candidate) (rest : list candidate) :
  get cnops_record "DCI1" ≠ "" →
  exact_lookups_miss self cnops_record h →
  approximate_search_answer (api_client self)
    (after_exact_lookups self cnops_record h) (get cnops_record "DCI1") 5
    = Ok (best_match :: rest) →
  let returned := length (best_match :: rest) in
  let h3 := after_exact_lookups self cnops_record h
            ++ [ApproximateSearch (get cnops_record "DCI1") 5] in
  let run := map_single_drug fuzz_ratio self cnops_record h in
  let note := "Fuzzy match score: " +:+ Py.str_int (c_score best_match) in
  (80 ≤ c_score best_match →
     let base := fuzzy_high_result cnops_record best_match rest in
     (mapping_method base = "fuzzy_high"
      ∧ confidence_score base = 0.6%float
      ∧ rxcui base = c_rxcui best_match
      ∧ alternative_matches base = rest
      ∧ validation_notes base = [note])
     ∧ run = (result <- _enhance_with_products self base cnops_record;;
              ret (_validate_mapping fuzz_ratio self result cnops_record)) h3
     ∧ ∀ r, run.1 = Ok r →
         mapping_method r = "fuzzy_high"
         ∧ alternative_matches r = rest
         ∧ length (alternative_matches r) = (returned - 1)%nat
         ∧ ((returned ≤ 5)%nat →
            length (alternative_matches r) = (Nat.min returned 5 - 1)%nat)
         ∧ note ∈ validation_notes r)
  ∧ (c_score best_match < 80 →
     run = (Ok {| cnops_code := get cnops_record "CODE";
                  original_name := get cnops_record "NOM";
                  dci1 := get cnops_record "DCI1";
                  rxcui := None; rxnorm_name := None;
                  confidence_score := 0%float;
                  mapping_method := "none";
                  validation_notes := ["No RxNorm mapping found"];
                  alternative_matches := [] |}, h3)).
Proof.
  intros Hd Hmiss Hap returned h3 run note.
  assert (run = fuzzy_matching fuzz_ratio self (fresh_result cnops_record)
                  cnops_record (after_exact_lookups self cnops_record h))
    as Hrun by (by apply exact_miss_runs_fuzzy).
  revert Hrun. unfold fuzzy_matching. unfold bind at 1.
  unfold approximate_search at 1.
  change (dci1 (fresh_result cnops_record)) with (get cnops_record "DCI1").
  cbv beta iota. rewrite Hap. fold h3. intros Hrun. split.
  - intros Hsc. assert ((80 <=? c_score best_match) = true) as Hb by lia.
    rewrite Hb in Hrun. split; [done|]. split; [exact Hrun|].
    intros r. rewrite Hrun. unfold bind, ret.
    destruct (_enhance_with_products _ _ _ _) as [[r1|e] h1] eqn:He; [|done].
    intros [= <-].
    destruct (validate_keeps fuzz_ratio self r1 cnops_record)
      as (_ & _ & -> & -> & _ & _ & _ & added & ->).
    assert (mapping_method r1 = "fuzzy_high" ∧ alternative_matches r1 = rest
            ∧ note ∈ validation_notes r1) as (-> & -> & Hn).
    { apply enhance_inv in He as [->|(_ & ps & p & _ & _ & ->)]; simpl;
        repeat split; set_solver. }
    split; [done|]. split; [done|].
    split; [subst returned; simpl; lia|].
    split; [subst returned; simpl; lia|set_solver].
  - intros Hsc. assert ((80 <=? c_score best_match) = false) as Hb by lia.
    rewrite Hb in Hrun. exact Hrun.
Qed.

End Fuzzy.

Section Validation.

Variable fuzz_ratio : string → string → Z.
Variable self : CNOPSToRxNormMapper.

(** Strategy 2 succeeding: what remains is enhancement and
    validation of the [translated_exact] result. *)
Lemma translated_hit_run (cnops_record : cnops_row) (h : history)
    (translated id : string) :
  get cnops_record "DCI1" ≠ "" →
  (∃ o, search_by_name_answer (api_client self) h (get cnops_record "DCI1")
          = Ok o ∧ Py.truthy_opt o = false) →
  ingredient_translations self !! Py.upper (get cnops_record "DCI1")
    = Some translated →
  search_by_name_answer (api_client self)
    (h ++ [SearchByName (get cnops_record "DCI1")]) translated
    = Ok (Some id) →
  id ≠ "" →
  map_single_drug fuzz_ratio self cnops_record h =
    (result <- _enhance_with_products self
                 (translated_exact_result cnops_record translated id)
                 cnops_record;;
     ret (_validate_mapping fuzz_ratio self result cnops_record))
      (h ++ [SearchByName (get cnops_record "DCI1"); SearchByName translated]).
Proof.
  intros Hd (o1 & Ho1 & Hf1) Htab Hs2 Hid.
  unfold map_single_drug. fold (fresh_result cnops_record).
  change (dci1 (fresh_result cnops_record)) with (get cnops_record "DCI1").
  assert (Py.truthy (get cnops_record "DCI1") = true) as ->
      by (by destruct (get _ _)).
  cbn [negb]. unfold bind at 1. unfold search_by_name at 1.
  cbv beta iota. rewrite Ho1, Hf1.
  unfold translation_lookup.
  change (dci1 (fresh_result cnops_record)) with (get cnops_record "DCI1").
  rewrite Htab. unfold bind at 1. unfold search_by_name at 1.
  cbv beta iota. rewrite Hs2. cbn [Py.truthy_opt].
  assert (Py.truthy id = true) as -> by (by destruct id).
  by rewrite <- app_assoc.
Qed.

(** Enhancement is a no-op when no related product is returned. *)
Lemma enhance_no_products (result : MappingResult) (cnops_record : cnops_row)
    (h : history) :
  matched result →
  get_related_concepts_answer (api_client self) h
    (default "" (rxcui result)) "SCD+SBD" = Ok [] →
  _enhance_with_products self result cnops_record h =
    (Ok result,
     h ++ [GetRelatedConcepts (default "" (rxcui result)) "SCD+SBD"]).
Proof.
  unfold matched, _enhance_with_products. intros -> Hrel.
  cbn [negb]. unfold bind, get_related_concepts. by rewrite Hrel.
Qed.

(** Validation of a matched result that earns no penalty only adds
    the tier note. *)
Lemma validate_no_penalty (result : MappingResult) (cnops_record : cnops_row)
    (name : string) :
  matched result →
  rxnorm_name result = Some name →
  name_similarity_threshold (validation_config self)
    ≤ fuzz_ratio (Py.upper (dci1 result)) (Py.upper name) →
  Py.contains "/" (dci1 result) = false →
  _validate_mapping fuzz_ratio self result cnops_record =
    add_note result (tier_note self (confidence_score result)).
Proof.
  unfold matched, _validate_mapping. intros -> -> Hsim Hc.
  cbn [negb andb default from_option]. change (Datatypes.id name) with name.
  assert ((fuzz_ratio (Py.upper (dci1 result)) (Py.upper name)
           <? name_similarity_threshold (validation_config self)) = false)
    as -> by lia.
  by destruct (Py.truthy_opt (Some name) && Py.truthy (dci1 result));
    rewrite Hc.
Qed.

(** C9, with the conditions the code adds. For the ingredient
    "ACIDE ACETYLSALICYLIQUE": the exact lookup of the raw name finds
    nothing, the table holds "aspirin" under the key
    "ACIDE ACETYLSALICYLIQUE" itself (the ingredient in upper case;
    keys are compared as they are written), the exact lookup
    of "aspirin" returns "1191" and no related product is offered.
    If moreover the similarity of the two upper-cased names is not
    below the configured threshold, so that validation applies no
    penalty, and 0.8 reaches the high tier, the result is 1191 /
    aspirin / [translated_exact] / 0.8 with the translation note
    followed by the high-confidence note. *)
Theorem aspirin_scenario (cnops_record : cnops_row) (h : history) :
  let name := "ACIDE ACETYLSALICYLIQUE" in
  get cnops_record "DCI1" = name →
  search_by_name_answer (api_client self) h name = Ok None →
  ingredient_translations self !! name = Some "aspirin" →
  search_by_name_answer (api_client self) (h ++ [SearchByName name]) "aspirin"
    = Ok (Some "1191") →
  get_related_concepts_answer (api_client self)
    (h ++ [SearchByName name; SearchByName "aspirin"]) "1191" "SCD+SBD"
    = Ok [] →
  (high (confidence_thresholds self) <=? 0.8)%float = true →
  name_similarity_threshold (validation_config self)
    ≤ fuzz_ratio name "ASPIRIN" →
  map_single_drug fuzz_ratio self cnops_record h =
    (Ok {| cnops_code := get cnops_record "CODE";
           original_name := get cnops_record "NOM";
           dci1 := name;
           rxcui := Some "1191";
           rxnorm_name := Some "aspirin";
           confidence_score := 0.8%float;
           mapping_method := "translated_exact";
           validation_notes :=
             ["Used translation: ACIDE ACETYLSALICYLIQUE -> aspirin";
              "HIGH confidence mapping"];
           alternative_matches := [] |},
     h ++ [SearchByName name; SearchByName "aspirin";
           GetRelatedConcepts "1191" "SCD+SBD"]).
Proof.
  intros name Hd Hs1 Htab Hs2 Hrel Hhigh Hsim. subst name.
  set (base := translated_exact_result cnops_record "aspirin" "1191").
  rewrite (translated_hit_run cnops_record h "aspirin" "1191");
    rewrite ?Hd; [|done|by exists None|done|done|done].
  unfold bind, ret.
  rewrite (enhance_no_products base); [|done|exact Hrel].
  rewrite (validate_no_penalty base cnops_record "aspirin");
    change (dci1 base) with (get cnops_record "DCI1"); rewrite ?Hd;
    [|done|done|exact Hsim|done].
  unfold tier_note. cbn [base confidence_score translated_exact_result
    add_note set_score]. rewrite Hhigh.
  unfold base, translated_exact_result, fresh_result. rewrite Hd.
  by rewrite <- app_assoc.
Qed.

(** C7, with the guard the code has. For a matched result whose
    matched name is non-empty (and whose ingredient is), a similarity
    below the threshold multiplies the confidence that entered
    validation by the form-mismatch penalty and adds a note with the
    measured similarity; without the combination-drug penalty the
    confidence ends as that score times the form-mismatch penalty. When
    the matched name is absent or empty the similarity is not measured:
    no similarity note is added and the form-mismatch penalty is not
    applied, whatever the similarity would be. *)
Theorem low_similarity_is_penalised (result : MappingResult)
    (cnops_record : cnops_row) :
  matched result →
  dci1 result ≠ "" →
  let validated := _validate_mapping fuzz_ratio self result cnops_record in
  (∀ name,
     rxnorm_name result = Some name →
     name ≠ "" →
     let similarity := fuzz_ratio (Py.upper (dci1 result)) (Py.upper name) in
     similarity < name_similarity_threshold (validation_config self) →
     let combination :=
       Py.contains "/" (dci1 result) && negb (Py.contains "/" name) in
     ("Low name similarity: " +:+ Py.str_int similarity +:+ "%")
       ∈ validation_notes validated
     ∧ (combination = false →
        confidence_score validated =
          (confidence_score result
           * form_mismatch_penalty (validation_config self))%float)
     ∧ (combination = true →
        confidence_score validated =
          (confidence_score result
           * form_mismatch_penalty (validation_config self)
           * combination_drug_penalty (validation_config self))%float))
  ∧ (Py.truthy_opt (rxnorm_name result) = false →
     let combination := Py.contains "/" (dci1 result) in
     confidence_score validated
     = (if combination
        then (confidence_score result
              * combination_drug_penalty (validation_config self))%float
        else confidence_score result)
     ∧ validation_notes validated
       = validation_notes result
         ++ (if combination then ["Possible combination drug mismatch"] else [])
         ++ [tier_note self (confidence_score validated)]).
Proof.
  intros Hm Hd validated. unfold matched in Hm.
  assert (Py.truthy (dci1 result) = true) as Htd by (by destruct (dci1 _)).
  split.
  - intros name Hn Hne similarity Hlow combination.
    subst validated. unfold _validate_mapping. rewrite Hm, Hn.
    assert (Py.truthy name = true) as Htn by (by destruct name).
    cbn [negb Py.truthy_opt default from_option]. rewrite Htn, Htd.
    change (Datatypes.id name) with name. cbn [andb]. fold similarity.
    assert ((similarity <? name_similarity_threshold (validation_config self))
            = true) as -> by lia.
    cbn [dci1 rxnorm_name add_note set_score]. rewrite Hn.
    change (default "" (Some name)) with name. fold combination.
    destruct combination; simpl; (split; [set_solver|]); split; done.
  - intros Hname combination. subst validated combination.
    unfold _validate_mapping. rewrite Hm, Hname. cbn [negb andb].
    assert (Py.contains "/" (default "" (rxnorm_name result)) = false) as ->.
    { destruct (rxnorm_name result) as [[|c n]|]; done. }
    cbn [negb]. rewrite andb_true_r.
    destruct (Py.contains "/" (dci1 result)); simpl; split; try done.
    by rewrite <- app_assoc.
Qed.

End Validation.

(** Membership in a list given by its elements, and its refutation. *)
Ltac elem_found := apply list_elem_of_In; simpl; auto 10.
Ltac elem_absurd H :=
  apply list_elem_of_In in H; simpl in H; intuition discriminate.

Section Invariants.

Variable fuzz_ratio : string → string → Z.
Variable self : CNOPSToRxNormMapper.

Lemma strategy_result_facts rec r :
  strategy_result self rec r →
  mapping_method r ∈ ["direct_exact"; "translated_exact"; "fuzzy_high"]
  ∧ confidence_score r ∈ [0.9; 0.8; 0.6]%float
  ∧ (identifiers_present self → matched r)
  ∧ cnops_code r = get rec "CODE" ∧ original_name r = get rec "NOM"
  ∧ dci1 r = get rec "DCI1".
Proof.
  unfold matched.
  destruct 1 as [id Hid|t id Hid|h c rest Hap Hsc]; simpl;
    (split; [elem_found|]); (split; [elem_found|]);
    (split; [|done]); try done.
  intros [Hcand _]. eapply Hcand; [exact Hap|]. apply list_elem_of_here.
Qed.

Lemma pre_validation_facts rec r :
  pre_validation self rec r →
  (matched r →
     mapping_method r ∈ ["direct_exact"; "translated_exact"; "fuzzy_high"]
     ∧ confidence_score r ∈ base_scores)
  ∧ (mapping_method r = "none" → rxcui r = None)
  ∧ mapping_method r ≠ "error"
  ∧ (identifiers_present self → mapping_method r ≠ "none" → matched r)
  ∧ cnops_code r = get rec "CODE" ∧ original_name r = get rec "NOM"
  ∧ dci1 r = get rec "DCI1".
Proof.
  destruct 1 as [|r Hsr|r h ps p Hsr Hm Hrel Hin].
  - unfold matched. simpl. repeat split; done.
  - destruct (strategy_result_facts rec r Hsr)
      as (Hmeth & Hscore & Hids & Hc & Hn & Hd).
    split; [|split; [|split; [|split]]]; [| | | |done].
    + intros _. split; [done|]. unfold base_scores.
      apply list_elem_of_In in Hscore. simpl in Hscore.
      destruct Hscore as [<-|[<-|[<-|[]]]]; elem_found.
    + intros Hnone. rewrite Hnone in Hmeth. elem_absurd Hmeth.
    + intros Herr. rewrite Herr in Hmeth. elem_absurd Hmeth.
    + auto.
  - destruct (strategy_result_facts rec r Hsr)
      as (Hmeth & Hscore & Hids & Hc & Hn & Hd).
    change (mapping_method (enhanced r p)) with (mapping_method r).
    change (confidence_score (enhanced r p))
      with (confidence_score r + 0.1)%float.
    split; [|split; [|split; [|split]]]; [| | | |done].
    + intros _. split; [done|]. unfold base_scores.
      apply list_elem_of_In in Hscore. simpl in Hscore.
      destruct Hscore as [<-|[<-|[<-|[]]]]; elem_found.
    + intros Hnone. rewrite Hnone in Hmeth. elem_absurd Hmeth.
    + intros Herr. rewrite Herr in Hmeth. elem_absurd Hmeth.
    + intros [_ Hprod] _. unfold matched. simpl. eapply Hprod; eauto.
Qed.

(** The note validation appends last is its verdict. *)
Lemma validate_verdict r rec :
  ∃ earlier verdict,
    validation_notes (_validate_mapping fuzz_ratio self r rec)
      = earlier ++ [verdict]
    ∧ verdict ∈ verdicts.
Proof.
  unfold _validate_mapping. destruct (Py.truthy_opt (rxcui r)); simpl.
  2:{ eexists _, _. split; [done|]. unfold verdicts. elem_found. }
  eexists _, _. split; [done|]. unfold tier_note, verdicts.
  repeat match goal with |- context [if ?b then _ else _] =>
    match b with context [PrimFloat.leb] => destruct b end end; elem_found.
Qed.

(** C4, as the code has it. Whenever the ingredient field is
    non-empty, the result returned is the output of validation, and a
    result without a match then has confidence 0.0 and ends with the
    note that no mapping was found. For an empty ingredient field the
    result is returned before validation: confidence 0.0 by default,
    method [none], and only the note that no ingredient was given. *)
Theorem validation_finalises_nonempty_ingredient (cnops_record : cnops_row)
    (h h' : history) (r : MappingResult) :
  map_single_drug fuzz_ratio self cnops_record h = (Ok r, h') →
  (get cnops_record "DCI1" ≠ "" →
     (∃ r0, r = _validate_mapping fuzz_ratio self r0 cnops_record)
     ∧ (¬ matched r →
        confidence_score r = 0%float
        ∧ ∃ earlier,
            validation_notes r = earlier ++ ["No RxNorm mapping found"]))
  ∧ (get cnops_record "DCI1" = "" →
     r = add_note (fresh_result cnops_record) "No DCI1 ingredient specified"
     ∧ confidence_score r = 0%float
     ∧ mapping_method r = "none"
     ∧ validation_notes r = ["No DCI1 ingredient specified"]
     ∧ h' = h).
Proof.
  intros Hrun.
  apply map_single_drug_inv in Hrun
    as [(Hd & -> & ->)|(Hd & r0 & Hpre & ->)].
  - split; [done|]. intros _. repeat split.
  - split; [|done]. intros _. split; [by exists r0|].
    unfold matched.
    destruct (validate_keeps fuzz_ratio self r0 cnops_record) as (-> & _).
    intros Hnm. apply not_true_is_false in Hnm.
    rewrite (validate_unmatched fuzz_ratio self r0 cnops_record Hnm).
    split; [done|]. by eexists.
Qed.

(** C5, as the code has it. For every result returned: a match
    implies one of the three strategy methods; method [none] implies no
    identifier; the method is never [error]; no match implies
    confidence 0.0. When every candidate and product of the service
    carries a non-empty identifier, a match is present exactly when the
    method is neither [none] nor [error]. When the configured
    penalties multiply no reachable confidence down to zero, a matched
    result has a non-zero confidence. *)
Theorem match_method_confidence_invariant (cnops_record : cnops_row)
    (h h' : history) (r : MappingResult) :
  map_single_drug fuzz_ratio self cnops_record h = (Ok r, h') →
  (matched r →
     mapping_method r ∈ ["direct_exact"; "translated_exact"; "fuzzy_high"])
  ∧ (mapping_method r = "none" → rxcui r = None)
  ∧ mapping_method r ≠ "error"
  ∧ (¬ matched r → confidence_score r = 0%float)
  ∧ (identifiers_present self →
       (matched r ↔ mapping_method r ≠ "none" ∧ mapping_method r ≠ "error"))
  ∧ (penalties_keep_nonzero self = true →
       matched r → (confidence_score r =? 0)%float = false).
Proof.
  intros Hrun.
  apply map_single_drug_inv in Hrun
    as [(Hd & -> & ->)|(Hd & r0 & Hpre & ->)].
  - unfold matched. simpl. repeat split; try done.
    intros [Hn _]. by destruct Hn.
  - pose proof (validate_score_matched fuzz_ratio self r0 cnops_record) as Hsc.
    pose proof (validate_unmatched fuzz_ratio self r0 cnops_record) as Hun.
    destruct (validate_keeps fuzz_ratio self r0 cnops_record)
      as (Hrx & _ & Hmeth & _).
    unfold matched in *. rewrite Hrx, Hmeth.
    destruct (pre_validation_facts cnops_record r0 Hpre)
      as (Hmatched & Hnone & Herr & Hids & _).
    unfold matched in *.
    split; [by intros Hm; apply Hmatched|]. split; [done|]. split; [done|].
    split; [|split].
    + intros Hnm. apply not_true_is_false in Hnm. by rewrite (Hun Hnm).
    + intros Hpresent. split.
      * intros Hm. split; [|done]. intros Hno. apply Hnone in Hno.
        by rewrite Hno in Hm.
      * intros [Hno _]. by apply Hids.
    + intros Hpen Hm. specialize (Hsc Hm).
      destruct (Hmatched Hm) as [_ Hbase].
      unfold penalties_keep_nonzero in Hpen.
      rewrite forallb_forall in Hpen.
      apply list_elem_of_In in Hbase. specialize (Hpen _ Hbase).
      rewrite forallb_forall in Hpen.
      apply list_elem_of_In in Hsc. specialize (Hpen _ Hsc).
      by apply negb_true_iff in Hpen.
Qed.

End Invariants.

Section Batch.

Variable fuzz_ratio : string → string → Z.
Variable self : CNOPSToRxNormMapper.

(** A returned result carries the three source fields of its row. *)
Lemma map_single_drug_source_fields rec h r h' :
  map_single_drug fuzz_ratio self rec h = (Ok r, h') →
  cnops_code r = get rec "CODE" ∧ original_name r = get rec "NOM"
  ∧ dci1 r = get rec "DCI1".
Proof.
  intros Hrun.
  apply map_single_drug_inv in Hrun
    as [(Hd & -> & ->)|(Hd & r0 & Hpre & ->)]; [done|].
  destruct (validate_keeps fuzz_ratio self r0 rec)
    as (_ & _ & _ & _ & -> & -> & -> & _).
  by destruct (pre_validation_facts self rec r0 Hpre) as (_ & _ & _ & _ & ?).
Qed.

Lemma process_file_length rows h :
  length (process_file fuzz_ratio self rows h).1 = length rows.
Proof.
  revert h. induction rows as [|row rest IH]; intros h; simpl; [done|].
  destruct (process_row _ _ row h) as [out h1].
  specialize (IH h1). destruct (process_file _ _ rest h1) as [outs h2].
  simpl in *. by rewrite IH.
Qed.

(** The row at position [i] is the one produced for record [i], run
    on the history left by the records before it. *)
Lemma process_file_lookup rows h i row :
  rows !! i = Some row →
  (process_file fuzz_ratio self rows h).1 !! i =
    Some (process_row fuzz_ratio self row
            (process_file fuzz_ratio self (take i rows) h).2).1.
Proof.
  revert h i. induction rows as [|row0 rest IH]; intros h i Hi; [done|].
  simpl. destruct (process_row _ _ row0 h) as [out h1] eqn:Hrow.
  destruct i as [|i]; simpl in Hi |- *.
  - inversion Hi; subst.
    destruct (process_file _ _ rest h1) as [outs h2]. simpl. by rewrite Hrow.
  - rewrite Hrow. specialize (IH h1 i Hi).
    destruct (process_file _ _ rest h1) as [outs h2].
    destruct (process_file _ _ (take i rest) h1) as [outs' h2'].
    simpl in *. exact IH.
Qed.

(** C8. The loop emits exactly one row per input record, in input
    order. The row for record [i] carries that record's code, name and
    ingredient; when its resolution raises [e], the row has method
    [error], confidence 0.0, no identifier and the note "Error: "
    followed by the description of [e]; when it returns, the row is
    built from the result. Either way the records after it are still
    processed. *)
Theorem process_file_survives_exceptions (rows : list cnops_row) (h : history) :
  let out := (process_file fuzz_ratio self rows h).1 in
  length out = length rows
  ∧ ∀ i row, rows !! i = Some row →
      let h_i := (process_file fuzz_ratio self (take i rows) h).2 in
      ∃ out_row,
        out !! i = Some out_row
        ∧ CNOPS_CODE out_row = get row "CODE"
        ∧ ORIGINAL_NAME out_row = get row "NOM"
        ∧ DCI1 out_row = get row "DCI1"
        ∧ (∀ e, (map_single_drug fuzz_ratio self row h_i).1 = Raise e →
             out_row =
               {| CNOPS_CODE := get row "CODE";
                  ORIGINAL_NAME := get row "NOM";
                  DCI1 := get row "DCI1";
                  RXCUI := None; RXNORM_NAME := None;
                  CONFIDENCE_SCORE := 0%float;
                  MAPPING_METHOD := "error";
                  VALIDATION_NOTES := "Error: " +:+ str_exn e;
                  ALTERNATIVES_COUNT := 0%nat |})
        ∧ (∀ r, (map_single_drug fuzz_ratio self row h_i).1 = Ok r →
             out_row = result_row r).
Proof.
  intros out. split; [apply process_file_length|].
  intros i row Hi h_i. eexists. split; [by apply process_file_lookup|].
  fold h_i. unfold process_row.
  destruct (map_single_drug fuzz_ratio self row h_i) as [[r|e] h1] eqn:Hrun;
    simpl.
  - destruct (map_single_drug_source_fields _ _ _ _ Hrun) as (-> & -> & ->).
    repeat split; [done|]. by intros ? [= <-].
  - repeat split; [|done]. by intros ? [= <-].
Qed.

End Batch.

(** ** Worked examples *)

(** C3. Two different products that both contain the strength and the
    translated dose form each score 80. The first of them should win the
    tie; instead the sort compares the two dicts and the call raises
    [TypeError]. *)
Theorem tied_products_raise_type_error :
  score_products Fixture.silent_mapper "500 MG" "COMPRIME"
    [Fixture.tablet; Fixture.branded_tablet]
    = Ok [(80, Fixture.tablet); (80, Fixture.branded_tablet)]
  ∧ _find_best_product_match Fixture.silent_mapper
      [Fixture.tablet; Fixture.branded_tablet] "500 MG" "COMPRIME"
    = Raise dict_lt_error.
Proof. split; vm_compute; reflexivity. Qed.

(** C10. A direct hit on "aspirin" for which the service returns two
    different products that tie on score: no product is selected and no
    bonus is added, as enhancement raises [TypeError] and with it the
    whole resolution. *)
Theorem tied_products_abort_enhancement :
  _enhance_with_products Fixture.tied_mapper
    (direct_exact_result Fixture.aspirin_row "1191") Fixture.aspirin_row
    [SearchByName "aspirin"]
    = (Raise dict_lt_error,
       [SearchByName "aspirin"; GetRelatedConcepts "1191" "SCD+SBD"])
  ∧ map_single_drug Fixture.ratio Fixture.tied_mapper Fixture.aspirin_row []
    = (Raise dict_lt_error,
       [SearchByName "aspirin"; GetRelatedConcepts "1191" "SCD+SBD"]).
Proof. split; vm_compute; reflexivity. Qed.


(** Counterexample to C2 as stated: the service returns six candidates
    to a request for five entries; the top one is accepted and the other
    five are all kept, not four. *)
Lemma six_candidates_leave_five_alternatives :
  exact_lookups_miss Fixture.six_mapper Fixture.aspirine_row []
  ∧ approximate_search_answer (api_client Fixture.six_mapper)
      (after_exact_lookups Fixture.six_mapper Fixture.aspirine_row [])
      "ASPIRINE" 5
    = Ok Fixture.six_candidates
  ∧ ∃ r, (map_single_drug Fixture.ratio Fixture.six_mapper
            Fixture.aspirine_row []).1 = Ok r
         ∧ mapping_method r = "fuzzy_high"
         ∧ length (alternative_matches r) = 5%nat
         ∧ length (alternative_matches r)
           ≠ (Nat.min (length Fixture.six_candidates) 5 - 1)%nat.
Proof.
  split; [|split; [reflexivity|]].
  - split.
    + exists None. split; reflexivity.
    + intros t Ht. vm_compute in Ht. discriminate.
  - eexists. split; [vm_compute; reflexivity|].
    split; [reflexivity|]. split; [reflexivity|]. vm_compute. discriminate.
Qed.

(** Counterexample to C4 as stated: a record without ingredient is
    returned unmatched and without the note that no mapping was found;
    its result is not the output of validation for any input. *)
Lemma empty_ingredient_skips_validation :
  ∃ r, map_single_drug Fixture.ratio Fixture.silent_mapper Fixture.empty_row []
       = (Ok r, [])
       ∧ ¬ matched r
       ∧ ("No RxNorm mapping found" ∉ validation_notes r)
       ∧ ∀ r0, r ≠ _validate_mapping Fixture.ratio Fixture.silent_mapper r0
                     Fixture.empty_row.
Proof.
  eexists. split; [vm_compute; reflexivity|].
  split; [unfold matched; simpl; discriminate|]. split.
  - intros H. elem_absurd H.
  - intros r0 Heq.
    destruct (validate_verdict Fixture.ratio Fixture.silent_mapper r0
                Fixture.empty_row) as (earlier & verdict & Hnotes & Hv).
    rewrite <- Heq in Hnotes. simpl in Hnotes.
    destruct earlier as [|n [|n' earlier]]; simplify_eq/=.
    elem_absurd Hv.
Qed.

(** Counterexample to C5 as stated: the accepted fuzzy candidate has no
    identifier, so the result is returned with method [fuzzy_high] and
    without a match. *)
Lemma fuzzy_high_without_identifier :
  ∃ r h', map_single_drug Fixture.ratio Fixture.anonymous_mapper
            Fixture.aspirine_row [] = (Ok r, h')
          ∧ rxcui r = None
          ∧ mapping_method r = "fuzzy_high"
          ∧ ¬ (is_Some (rxcui r)
               ↔ mapping_method r ≠ "none" ∧ mapping_method r ≠ "error").
Proof.
  eexists _, _. split; [vm_compute; reflexivity|].
  split; [reflexivity|]. split; [reflexivity|].
  simpl. intros [_ H]. destruct H as [x Hx]; [|discriminate]. split; discriminate.
Qed.

(** Counterexample to C7 as stated: the selected product has an empty
    name, whose similarity to the ingredient is 0 and so below the
    threshold of 70, yet validation skips the check: no penalty and no
    similarity note. *)
Lemma empty_matched_name_is_not_penalised :
  (map_single_drug Fixture.ratio Fixture.nameless_mapper Fixture.aspirin_row []).1
    = Ok (_validate_mapping Fixture.ratio Fixture.nameless_mapper
            (enhanced (direct_exact_result Fixture.aspirin_row "1191")
                      Fixture.nameless_product)
            Fixture.aspirin_row)
  ∧ matched (enhanced (direct_exact_result Fixture.aspirin_row "1191")
                      Fixture.nameless_product)
  ∧ Fixture.ratio (Py.upper "aspirin") (Py.upper "")
    < name_similarity_threshold (validation_config Fixture.nameless_mapper)
  ∧ ∃ r, (map_single_drug Fixture.ratio Fixture.nameless_mapper
            Fixture.aspirin_row []).1 = Ok r
         ∧ rxnorm_name r = Some ""
         ∧ confidence_score r = (0.9 + 0.1)%float
         ∧ (confidence_score r
            =? (0.9 + 0.1)
               * form_mismatch_penalty (validation_config Fixture.nameless_mapper))%float
           = false
         ∧ validation_notes r
           = ["Enhanced with specific product"; "HIGH confidence mapping"].
Proof.
  split; [vm_compute; reflexivity|]. split; [reflexivity|].
  split; [vm_compute; reflexivity|].
  eexists. split; [vm_compute; reflexivity|].
  repeat split; vm_compute; reflexivity.
Qed.

(** C9 as stated does not hold, on two counts. With the conditions
    the claim names (the raw name is not found, the table translates it
    to "aspirin", "aspirin" is found as "1191", no product is offered)
    and 0.8 qualifying as high, a similarity threshold of 70 and a
    penalty of 0.7, the similarity of the two names is 27, the
    confidence returned is [0.8 * 0.7] and the tier note is not the
    high one. And the table is not read case-insensitively: when its
    key is "acide acetylsalicylique", which differs from the ingredient
    by case only, the translation is not found and the result is
    unmatched, even with a threshold that the similarity passes. *)
Lemma aspirin_scenario_is_penalised :
  ((get Fixture.acide_row "DCI1" = "ACIDE ACETYLSALICYLIQUE"
    ∧ search_by_name_answer (api_client Fixture.plain_mapper) []
        "ACIDE ACETYLSALICYLIQUE" = Ok None
    ∧ ingredient_translations Fixture.plain_mapper !! "ACIDE ACETYLSALICYLIQUE"
      = Some "aspirin"
    ∧ search_by_name_answer (api_client Fixture.plain_mapper)
        [SearchByName "ACIDE ACETYLSALICYLIQUE"] "aspirin" = Ok (Some "1191")
    ∧ get_related_concepts_answer (api_client Fixture.plain_mapper)
        [SearchByName "ACIDE ACETYLSALICYLIQUE"; SearchByName "aspirin"]
        "1191" "SCD+SBD" = Ok []
    ∧ (high (confidence_thresholds Fixture.plain_mapper) <=? 0.8)%float = true)
   ∧ ∃ r h', map_single_drug Fixture.ratio Fixture.plain_mapper
               Fixture.acide_row [] = (Ok r, h')
             ∧ rxcui r = Some "1191"
             ∧ mapping_method r = "translated_exact"
             ∧ confidence_score r = (0.8 * 0.7)%float
             ∧ (confidence_score r =? 0.8)%float = false
             ∧ validation_notes r
               = ["Used translation: ACIDE ACETYLSALICYLIQUE -> aspirin";
                  "Low name similarity: 27%";
                  "LOW confidence - review recommended"]
             ∧ ("HIGH confidence mapping" ∉ validation_notes r))
  ∧ ((ingredient_translations Samples.lower_case_mapper
        !! "acide acetylsalicylique" = Some "aspirin"
      ∧ Py.upper "acide acetylsalicylique" = get Fixture.acide_row "DCI1"
      ∧ search_by_name_answer (api_client Samples.lower_case_mapper) []
          "ACIDE ACETYLSALICYLIQUE" = Ok None
      ∧ search_by_name_answer (api_client Samples.lower_case_mapper)
          [SearchByName "ACIDE ACETYLSALICYLIQUE"] "aspirin" = Ok (Some "1191")
      ∧ name_similarity_threshold (validation_config Samples.lower_case_mapper)
        ≤ Fixture.ratio "ACIDE ACETYLSALICYLIQUE" "ASPIRIN")
     ∧ ∃ r h', map_single_drug Fixture.ratio Samples.lower_case_mapper
                 Fixture.acide_row [] = (Ok r, h')
               ∧ rxcui r = None
               ∧ mapping_method r = "none"
               ∧ confidence_score r = 0%float
               ∧ h' = [SearchByName "ACIDE ACETYLSALICYLIQUE";
                       ApproximateSearch "ACIDE ACETYLSALICYLIQUE" 5]).
Proof.
  split.
  - split; [repeat split; vm_compute; reflexivity|].
    eexists _, _. split; [vm_compute; reflexivity|].
    repeat split; try (vm_compute; reflexivity).
    intros H. elem_absurd H.
  - split.
    + repeat split; try (vm_compute; reflexivity). vm_compute. discriminate.
    + eexists _, _. split; [vm_compute; reflexivity|]. repeat split.
Qed.

(** ** The general statements at concrete inputs *)

Lemma empty_ingredient_witness :
  get Fixture.empty_row "DCI1" = ""
  ∧ map_single_drug Fixture.ratio Fixture.plain_mapper Fixture.empty_row
      [SearchByName "aspirin"]
    = (Ok {| cnops_code := "C-0"; original_name := "SANS DCI"; dci1 := "";
             rxcui := None; rxnorm_name := None;
             confidence_score := 0%float; mapping_method := "none";
             validation_notes := ["No DCI1 ingredient specified"];
             alternative_matches := [] |},
       [SearchByName "aspirin"]).
Proof.
  split; [reflexivity|].
  exact (empty_ingredient_returns_at_once Fixture.ratio Fixture.plain_mapper
           Fixture.empty_row [SearchByName "aspirin"] eq_refl).
Defined.


Lemma fuzzy_high_witness :
  get Fixture.aspirine_row "DCI1" ≠ ""
  ∧ exact_lookups_miss Fixture.six_mapper Fixture.aspirine_row []
  ∧ approximate_search_answer (api_client Fixture.six_mapper)
      (after_exact_lookups Fixture.six_mapper Fixture.aspirine_row [])
      (get Fixture.aspirine_row "DCI1") 5
    = Ok (Fixture.cand "1191" 90 :: tail Fixture.six_candidates)
  ∧ 80 ≤ c_score (Fixture.cand "1191" 90)
  ∧ ∀ r, (map_single_drug Fixture.ratio Fixture.six_mapper
            Fixture.aspirine_row []).1 = Ok r →
      mapping_method r = "fuzzy_high"
      ∧ alternative_matches r = tail Fixture.six_candidates
      ∧ length (alternative_matches r) = 5%nat.
Proof.
  assert (get Fixture.aspirine_row "DCI1" ≠ "") as H1 by (vm_compute; discriminate).
  assert (exact_lookups_miss Fixture.six_mapper Fixture.aspirine_row []) as H2.
  { split.
    - exists None. split; reflexivity.
    - intros t Ht. vm_compute in Ht. discriminate. }
  assert (approximate_search_answer (api_client Fixture.six_mapper)
            (after_exact_lookups Fixture.six_mapper Fixture.aspirine_row [])
            (get Fixture.aspirine_row "DCI1") 5
          = Ok (Fixture.cand "1191" 90 :: tail Fixture.six_candidates)) as H3
    by reflexivity.
  assert (80 ≤ c_score (Fixture.cand "1191" 90)) as H4 by (simpl; lia).
  split; [exact H1|]. split; [exact H2|]. split; [exact H3|]. split; [exact H4|].
  destruct (fuzzy_high_keeps_all_other_candidates Fixture.ratio Fixture.six_mapper
              Fixture.aspirine_row [] _ _ H1 H2 H3) as [Hhigh _].
  destruct (Hhigh H4) as (_ & _ & Hres).
  intros r Hr. destruct (Hres r Hr) as (Hm & Ha & Hl & _).
  split; [exact Hm|]. split; [exact Ha|exact Hl].
Defined.

Lemma validation_finalises_witness :
  ∃ r h',
    map_single_drug Fixture.ratio Fixture.silent_mapper Fixture.aspirine_row []
      = (Ok r, h')
    ∧ get Fixture.aspirine_row "DCI1" ≠ ""
    ∧ ¬ matched r
    ∧ (∃ r0, r = _validate_mapping Fixture.ratio Fixture.silent_mapper r0
                   Fixture.aspirine_row)
    ∧ confidence_score r = 0%float
    ∧ ∃ earlier, validation_notes r = earlier ++ ["No RxNorm mapping found"].
Proof.
  eexists _, _.
  assert (map_single_drug Fixture.ratio Fixture.silent_mapper
            Fixture.aspirine_row [] = (Ok _, _)) as Hrun
    by (vm_compute; reflexivity).
  split; [exact Hrun|].
  assert (get Fixture.aspirine_row "DCI1" ≠ "") as Hd by (vm_compute; discriminate).
  split; [exact Hd|].
  match type of Hrun with _ = (Ok ?r, _) =>
    assert (¬ matched r) as Hnm by (unfold matched; simpl; discriminate) end.
  split; [exact Hnm|].
  destruct (validation_finalises_nonempty_ingredient Fixture.ratio
              Fixture.silent_mapper Fixture.aspirine_row _ _ _ Hrun) as [Hne _].
  destruct (Hne Hd) as [Hval Hun]. split; [exact Hval|exact (Hun Hnm)].
Defined.

Lemma match_method_confidence_witness :
  ∃ r h',
    map_single_drug Fixture.ratio Fixture.tablet_mapper Fixture.aspirin_row []
      = (Ok r, h')
    ∧ identifiers_present Fixture.tablet_mapper
    ∧ penalties_keep_nonzero Fixture.tablet_mapper = true
    ∧ matched r
    ∧ mapping_method r ∈ ["direct_exact"; "translated_exact"; "fuzzy_high"]
    ∧ (matched r ↔ mapping_method r ≠ "none" ∧ mapping_method r ≠ "error")
    ∧ (confidence_score r =? 0)%float = false.
Proof.
  eexists _, _.
  assert (map_single_drug Fixture.ratio Fixture.tablet_mapper
            Fixture.aspirin_row [] = (Ok _, _)) as Hrun
    by (vm_compute; reflexivity).
  split; [exact Hrun|].
  assert (identifiers_present Fixture.tablet_mapper) as Hids.
  { split.
    - intros h term n l c [= <-] Hc.
      repeat (apply elem_of_cons in Hc as [->|Hc]; [reflexivity|]).
      inversion Hc.
    - intros h id tty l p [= <-] Hp.
      destruct (({[ "1191" := [Fixture.tablet] ]} : gmap string (list product))
                  !! id) as [ps|] eqn:Hl; simpl in Hp; [|inversion Hp].
      apply lookup_singleton_Some in Hl as [_ <-].
      apply list_elem_of_singleton in Hp as ->. reflexivity. }
  assert (penalties_keep_nonzero Fixture.tablet_mapper = true) as Hpen
    by (vm_compute; reflexivity).
  split; [exact Hids|]. split; [exact Hpen|].
  match type of Hrun with _ = (Ok ?r, _) =>
    assert (matched r) as Hm by reflexivity end.
  split; [exact Hm|].
  destruct (match_method_confidence_invariant Fixture.ratio Fixture.tablet_mapper
              Fixture.aspirin_row _ _ _ Hrun)
    as (Hmeth & _ & _ & _ & Hiff & Hnz).
  split; [exact (Hmeth Hm)|]. split; [exact (Hiff Hids)|exact (Hnz Hpen Hm)].
Defined.

Lemma low_similarity_witness :
  matched (translated_exact_result Fixture.acide_row "aspirin" "1191")
  ∧ rxnorm_name (translated_exact_result Fixture.acide_row "aspirin" "1191")
    = Some "aspirin"
  ∧ "aspirin" ≠ ""
  ∧ dci1 (translated_exact_result Fixture.acide_row "aspirin" "1191") ≠ ""
  ∧ Fixture.ratio
      (Py.upper (dci1 (translated_exact_result Fixture.acide_row "aspirin" "1191")))
      (Py.upper "aspirin")
    < name_similarity_threshold (validation_config Fixture.plain_mapper)
  ∧ "Low name similarity: 27%"
    ∈ validation_notes
        (_validate_mapping Fixture.ratio Fixture.plain_mapper
           (translated_exact_result Fixture.acide_row "aspirin" "1191")
           Fixture.acide_row)
  ∧ confidence_score
      (_validate_mapping Fixture.ratio Fixture.plain_mapper
         (translated_exact_result Fixture.acide_row "aspirin" "1191")
         Fixture.acide_row)
    = (0.8 * 0.7)%float.
Proof.
  set (result := translated_exact_result Fixture.acide_row "aspirin" "1191").
  assert (matched result) as H1 by reflexivity.
  assert (rxnorm_name result = Some "aspirin") as H2 by reflexivity.
  assert ("aspirin" ≠ "") as H3 by discriminate.
  assert (dci1 result ≠ "") as H4 by (vm_compute; discriminate).
  assert (Fixture.ratio (Py.upper (dci1 result)) (Py.upper "aspirin")
          < name_similarity_threshold (validation_config Fixture.plain_mapper))
    as H5 by (vm_compute; reflexivity).
  split; [exact H1|]. split; [exact H2|]. split; [exact H3|].
  split; [exact H4|]. split; [exact H5|].
  destruct (low_similarity_is_penalised Fixture.ratio Fixture.plain_mapper result
              Fixture.acide_row H1 H4) as [Hlow _].
  destruct (Hlow "aspirin" H2 H3 H5) as (Hnote & Hplain & _).
  split; [exact Hnote|]. apply Hplain. vm_compute. reflexivity.
Defined.

Lemma process_file_witness :
  Fixture.batch !! 1%nat = Some Fixture.aspirin_row
  ∧ (map_single_drug Fixture.ratio Fixture.tied_mapper Fixture.aspirin_row
       (process_file Fixture.ratio Fixture.tied_mapper
          (take 1 Fixture.batch) []).2).1
    = Raise dict_lt_error
  ∧ length (process_file Fixture.ratio Fixture.tied_mapper Fixture.batch []).1
    = 3%nat
  ∧ ∃ out_row,
      (process_file Fixture.ratio Fixture.tied_mapper Fixture.batch []).1 !! 1%nat
        = Some out_row
      ∧ MAPPING_METHOD out_row = "error"
      ∧ CONFIDENCE_SCORE out_row = 0%float
      ∧ VALIDATION_NOTES out_row
        = "Error: '<' not supported between instances of 'dict' and 'dict'".
Proof.
  assert (Fixture.batch !! 1%nat = Some Fixture.aspirin_row) as H1 by reflexivity.
  assert ((map_single_drug Fixture.ratio Fixture.tied_mapper Fixture.aspirin_row
             (process_file Fixture.ratio Fixture.tied_mapper
                (take 1 Fixture.batch) []).2).1
          = Raise dict_lt_error) as H2 by (vm_compute; reflexivity).
  split; [exact H1|]. split; [exact H2|].
  destruct (process_file_survives_exceptions Fixture.ratio Fixture.tied_mapper
              Fixture.batch []) as [Hlen Hrows].
  split; [exact Hlen|].
  destruct (Hrows 1%nat Fixture.aspirin_row H1)
    as (out_row & Hlook & _ & _ & _ & Herr & _).
  exists out_row. split; [exact Hlook|].
  rewrite (Herr dict_lt_error H2). repeat split.
Defined.

Lemma aspirin_scenario_witness :
  get Fixture.acide_row "DCI1" = "ACIDE ACETYLSALICYLIQUE"
  ∧ search_by_name_answer (api_client Fixture.lenient_plain_mapper) []
      "ACIDE ACETYLSALICYLIQUE" = Ok None
  ∧ ingredient_translations Fixture.lenient_plain_mapper
      !! "ACIDE ACETYLSALICYLIQUE" = Some "aspirin"
  ∧ search_by_name_answer (api_client Fixture.lenient_plain_mapper)
      [SearchByName "ACIDE ACETYLSALICYLIQUE"] "aspirin" = Ok (Some "1191")
  ∧ get_related_concepts_answer (api_client Fixture.lenient_plain_mapper)
      [SearchByName "ACIDE ACETYLSALICYLIQUE"; SearchByName "aspirin"]
      "1191" "SCD+SBD" = Ok []
  ∧ (high (confidence_thresholds Fixture.lenient_plain_mapper) <=? 0.8)%float
    = true
  ∧ name_similarity_threshold (validation_config Fixture.lenient_plain_mapper)
    ≤ Fixture.ratio "ACIDE ACETYLSALICYLIQUE" "ASPIRIN"
  ∧ (map_single_drug Fixture.ratio Fixture.lenient_plain_mapper
       Fixture.acide_row []).1
    = Ok {| cnops_code := "C-ACIDE ACETYLSALICYLIQUE";
            original_name := "ACIDE ACETYLSALICYLIQUE 500";
            dci1 := "ACIDE ACETYLSALICYLIQUE";
            rxcui := Some "1191"; rxnorm_name := Some "aspirin";
            confidence_score := 0.8%float;
            mapping_method := "translated_exact";
            validation_notes :=
              ["Used translation: ACIDE ACETYLSALICYLIQUE -> aspirin";
               "HIGH confidence mapping"];
            alternative_matches := [] |}.
Proof.
  assert (get Fixture.acide_row "DCI1" = "ACIDE ACETYLSALICYLIQUE") as H0
    by (vm_compute; reflexivity).
  assert (search_by_name_answer (api_client Fixture.lenient_plain_mapper) []
            "ACIDE ACETYLSALICYLIQUE" = Ok None) as H1
    by (vm_compute; reflexivity).
  assert (ingredient_translations Fixture.lenient_plain_mapper
            !! "ACIDE ACETYLSALICYLIQUE" = Some "aspirin") as H2
    by (vm_compute; reflexivity).
  assert (search_by_name_answer (api_client Fixture.lenient_plain_mapper)
            [SearchByName "ACIDE ACETYLSALICYLIQUE"] "aspirin"
          = Ok (Some "1191")) as H3 by (vm_compute; reflexivity).
  assert (get_related_concepts_answer (api_client Fixture.lenient_plain_mapper)
            [SearchByName "ACIDE ACETYLSALICYLIQUE"; SearchByName "aspirin"]
            "1191" "SCD+SBD" = Ok []) as H4 by (vm_compute; reflexivity).
  assert ((high (confidence_thresholds Fixture.lenient_plain_mapper) <=? 0.8)%float
          = true) as H5 by reflexivity.
  assert (name_similarity_threshold (validation_config Fixture.lenient_plain_mapper)
          ≤ Fixture.ratio "ACIDE ACETYLSALICYLIQUE" "ASPIRIN") as H6
    by (vm_compute; discriminate).
  repeat (split; [assumption|]).
  rewrite (aspirin_scenario Fixture.ratio Fixture.lenient_plain_mapper
             Fixture.acide_row [] H0 H1 H2 H3 H4 H5 H6).
  vm_compute. reflexivity.
Defined.

(** ** The requests of one resolution *)

Lemma bind_ret_history {A B} (m : M A) (f : A → B) h :
  ((x <- m;; ret (f x)) h).2 = (m h).2.
Proof. unfold bind, ret. by destruct (m h) as [[a|e] h']. Qed.

Section Requests.

Variable fuzz_ratio : string → string → Z.
Variable self : CNOPSToRxNormMapper.

Lemma fuzzy_matching_calls r rec h :
  ∃ related,
    (fuzzy_matching fuzz_ratio self r rec h).2
      = h ++ [ApproximateSearch (dci1 r) 5] ++ related
    ∧ (related = [] ∨ ∃ id, related = [GetRelatedConcepts id "SCD+SBD"]).
Proof.
  unfold fuzzy_matching. unfold bind at 1. unfold approximate_search at 1.
  cbv beta iota.
  destruct (approximate_search_answer _ _ _ _) as [[|c rest]|e].
  - exists []. split; [by rewrite app_nil_r|by left].
  - destruct (80 <=? c_score c).
    + rewrite bind_ret_history, enhance_history.
      destruct (Py.truthy_opt _).
      * eexists. split; [by rewrite <- app_assoc|]. right. by eexists.
      * exists []. split; [by rewrite app_nil_r|by left].
    + exists []. split; [by rewrite app_nil_r|by left].
  - exists []. split; [by rewrite app_nil_r|by left].
Qed.

(** The requests of one call of [map_single_drug], whether it returns
    or raises: none for an empty ingredient; else the exact lookup of
    the raw name, then at most one exact lookup of its translation, then
    at most one approximate search for 5 entries, then at most one
    related-concept query for ['SCD+SBD']. *)
Lemma map_single_drug_calls (cnops_record : cnops_row) (h : history) :
  let name := get cnops_record "DCI1" in
  let after := (map_single_drug fuzz_ratio self cnops_record h).2 in
  (name = "" ∧ after = h)
  ∨ (name ≠ ""
     ∧ ∃ translated approximate related,
         after = h ++ [SearchByName name] ++ translated ++ approximate ++ related
         ∧ (translated = []
            ∨ ∃ t, ingredient_translations self !! Py.upper name = Some t
                   ∧ translated = [SearchByName t])
         ∧ (approximate = [] ∨ approximate = [ApproximateSearch name 5])
         ∧ (related = [] ∨ ∃ id, related = [GetRelatedConcepts id "SCD+SBD"])).
Proof.
  intros name after. subst after. unfold map_single_drug.
  fold (fresh_result cnops_record).
  change (dci1 (fresh_result cnops_record)) with name.
  destruct name as [|a s] eqn:Hname; [by left|].
  right. split; [done|]. rewrite <- Hname. cbn [Py.truthy negb].
  assert (Py.truthy name = true) as -> by (by rewrite Hname).
  cbn [negb]. unfold bind at 1. unfold search_by_name at 1. cbv beta iota.
  destruct (search_by_name_answer _ _ _) as [o1|e].
  2:{ exists [], [], []. repeat split; auto. }
  destruct (Py.truthy_opt o1).
  { rewrite bind_ret_history, enhance_history.
    destruct (Py.truthy_opt _).
    - exists [], []. eexists. split; [by rewrite <- app_assoc|].
      repeat split; auto. right. by eexists.
    - exists [], [], []. split; [by rewrite !app_nil_r|]. repeat split; auto. }
  unfold translation_lookup.
  change (dci1 (fresh_result cnops_record)) with name.
  destruct (ingredient_translations self !! _) as [t|] eqn:Ht.
  2:{ destruct (fuzzy_matching_calls (fresh_result cnops_record) cnops_record
                  (h ++ [SearchByName name])) as (related & -> & Hrel).
      exists [], [ApproximateSearch name 5], related.
      split; [by rewrite <- !app_assoc|]. repeat split; auto. }
  unfold bind at 1. unfold search_by_name at 1. cbv beta iota.
  destruct (search_by_name_answer _ _ t) as [o2|e].
  2:{ exists [SearchByName t], [], []. split; [by rewrite <- !app_assoc|].
      repeat split; eauto. }
  destruct (Py.truthy_opt o2).
  { rewrite bind_ret_history, enhance_history.
    destruct (Py.truthy_opt _).
    - exists [SearchByName t], []. eexists.
      split; [by rewrite <- !app_assoc|]. repeat split; eauto.
    - exists [SearchByName t], [], []. split; [by rewrite <- !app_assoc|].
      repeat split; eauto. }
  destruct (fuzzy_matching_calls (fresh_result cnops_record) cnops_record
              ((h ++ [SearchByName name]) ++ [SearchByName t]))
    as (related & -> & Hrel).
  exists [SearchByName t], [ApproximateSearch name 5], related.
  split; [by rewrite <- !app_assoc|]. repeat split; eauto.
Qed.

(** X1. The requests of one resolution, whether it returns or
    raises: none for an empty ingredient; otherwise the exact lookup of
    the raw ingredient first, then at most one exact lookup of its
    translation (the table's entry for the upper-cased ingredient),
    then at most one approximate search (of the raw ingredient, for 5
    entries), then at most one related-concept query (for SCD+SBD), in
    this order and nothing else: four requests at most. *)
Theorem map_single_drug_request_budget (cnops_record : cnops_row) (h : history) :
  let name := get cnops_record "DCI1" in
  let after := (map_single_drug fuzz_ratio self cnops_record h).2 in
  (name = "" ∧ after = h)
  ∨ (name ≠ ""
     ∧ ∃ translated approximate related,
         after = h ++ [SearchByName name] ++ translated ++ approximate ++ related
         ∧ (translated = []
            ∨ ∃ t, ingredient_translations self !! Py.upper name = Some t
                   ∧ translated = [SearchByName t])
         ∧ (approximate = [] ∨ approximate = [ApproximateSearch name 5])
         ∧ (related = [] ∨ ∃ id, related = [GetRelatedConcepts id "SCD+SBD"])
         ∧ (length ([SearchByName name] ++ translated ++ approximate ++ related)
            ≤ 4)%nat).
Proof.
  intros name after.
  destruct (map_single_drug_calls cnops_record h)
    as [[Hd Heq]|(Hd & tr & ap & rel & Heq & Htr & Hap & Hrel)].
  - left. by split.
  - right. split; [done|]. exists tr, ap, rel.
    split; [exact Heq|]. split; [exact Htr|]. split; [exact Hap|].
    split; [exact Hrel|].
    destruct Htr as [->|(t & _ & ->)]; destruct Hap as [-> | ->];
      destruct Hrel as [->|(id & ->)]; simpl; lia.
Qed.

End Requests.

(** ** The requests of a batch *)

Section BatchFacts.

Variable fuzz_ratio : string → string → Z.
Variable self : CNOPSToRxNormMapper.

Lemma process_row_history row h :
  (process_row fuzz_ratio self row h).2
  = (map_single_drug fuzz_ratio self row h).2.
Proof.
  unfold process_row. by destruct (map_single_drug _ _ _ _) as [[r|e] h'].
Qed.

Lemma process_file_cons row rest h :
  process_file fuzz_ratio self (row :: rest) h
  = ((process_row fuzz_ratio self row h).1
       :: (process_file fuzz_ratio self rest
             (process_row fuzz_ratio self row h).2).1,
     (process_file fuzz_ratio self rest
        (process_row fuzz_ratio self row h).2).2).
Proof.
  simpl. destruct (process_row _ _ row h) as [out h1]. simpl.
  by destruct (process_file _ _ rest h1) as [outs h2].
Qed.

(** X2. Processing a table costs at most four requests per record with
    a non-empty ingredient, and none for the others: the history after
    the loop extends the one before by at most that many calls. *)
Theorem process_file_request_budget (rows : list cnops_row) (h : history) :
  ∃ calls,
    (process_file fuzz_ratio self rows h).2 = h ++ calls
    ∧ (length calls
       ≤ 4 * length (filter (λ row, get row "DCI1" ≠ "") rows))%nat.
Proof.
  revert h. induction rows as [|row rest IH]; intros h.
  { exists []. by rewrite app_nil_r. }
  rewrite process_file_cons. cbn [snd]. rewrite process_row_history.
  pose proof (map_single_drug_calls fuzz_ratio self row h) as Hcalls.
  simpl in Hcalls.
  destruct Hcalls as [[Hd Heq]|(Hd & tr & ap & rel & Heq & Htr & Hap & Hrel)];
    rewrite Heq.
  - destruct (IH h) as (calls & -> & Hlen). exists calls. split; [done|].
    rewrite filter_cons_False; [done|]. by intros ?.
  - match goal with |- context [process_file _ _ rest ?h1] =>
      destruct (IH h1) as (calls & -> & Hlen) end.
    eexists. split; [by rewrite <- app_assoc|].
    rewrite filter_cons_True; [|done]. rewrite !length_app. simpl.
    destruct Htr as [->|(t & Ht & ->)]; destruct Hap as [-> | ->];
      destruct Hrel as [->|(id & ->)]; simpl; lia.
Qed.

End BatchFacts.

(** ** More on validation *)

Section ValidationFacts.

Variable fuzz_ratio : string → string → Z.
Variable self : CNOPSToRxNormMapper.

(** The notes validation adds to a matched result end with the tier of
    the confidence it returns. *)
Lemma validate_matched_tier r rec :
  matched r →
  ∃ earlier,
    validation_notes (_validate_mapping fuzz_ratio self r rec)
    = earlier
      ++ [tier_note self
            (confidence_score (_validate_mapping fuzz_ratio self r rec))].
Proof.
  unfold matched, _validate_mapping. intros ->. cbn [negb].
  destruct (Py.truthy_opt (rxnorm_name r) && Py.truthy (dci1 r));
    [destruct (_ <? _)|];
    (destruct (Py.contains "/" _ && negb _)); simpl; by eexists.
Qed.

(** X5. For a matched result whose ingredient contains "/" while the
    matched name does not, validation multiplies the confidence (after
    the name-similarity step) by the combination-drug penalty and adds
    the note of a possible combination mismatch right before the tier
    note; the tier is that of the penalised confidence. *)
Theorem combination_mismatch_is_penalised (result : MappingResult)
    (cnops_record : cnops_row) :
  matched result →
  Py.contains "/" (dci1 result) = true →
  Py.contains "/" (default "" (rxnorm_name result)) = false →
  let validated := _validate_mapping fuzz_ratio self result cnops_record in
  let pf := form_mismatch_penalty (validation_config self) in
  let pc := combination_drug_penalty (validation_config self) in
  ∃ s earlier,
    (s = confidence_score result ∨ s = (confidence_score result * pf)%float)
    ∧ confidence_score validated = (s * pc)%float
    ∧ validation_notes validated
      = validation_notes result ++ earlier
        ++ ["Possible combination drug mismatch"; tier_note self (s * pc)%float]
    ∧ (length earlier ≤ 1)%nat.
Proof.
  intros Hm Hd Hn validated pf pc. subst validated.
  unfold matched in Hm. unfold _validate_mapping. rewrite Hm. cbn [negb].
  destruct (Py.truthy_opt (rxnorm_name result) && Py.truthy (dci1 result));
    [destruct (_ <? _)|];
    cbn [dci1 rxnorm_name add_note set_score confidence_score validation_notes];
    rewrite Hd, Hn; cbn [andb negb];
    cbn [dci1 rxnorm_name add_note set_score confidence_score validation_notes].
  - eexists _, [_]. split; [by right|]. split; [done|].
    split; [by rewrite <- !app_assoc|done].
  - eexists _, []. split; [by left|]. split; [done|].
    split; [by rewrite <- !app_assoc|simpl; lia].
  - eexists _, []. split; [by left|]. split; [done|].
    split; [by rewrite <- !app_assoc|simpl; lia].
Qed.

(** X6. The tier tag of a returned match is the tier of the confidence
    returned with it: the notes of every matched result end with the
    tier note of its final confidence, so the tag says HIGH exactly when
    that confidence reaches the high threshold. *)
Theorem tier_note_matches_returned_confidence (cnops_record : cnops_row)
    (h h' : history) (r : MappingResult) :
  map_single_drug fuzz_ratio self cnops_record h = (Ok r, h') →
  matched r →
  ∃ earlier tag,
    validation_notes r = earlier ++ [tag]
    ∧ tag = tier_note self (confidence_score r)
    ∧ (tag = "HIGH confidence mapping"
       ↔ (high (confidence_thresholds self) <=? confidence_score r)%float = true).
Proof.
  intros Hrun Hm.
  apply map_single_drug_inv in Hrun
    as [(Hd & -> & ->)|(Hd & r0 & Hpre & ->)]; [done|].
  assert (matched r0) as Hm0.
  { unfold matched in *.
    by destruct (validate_keeps fuzz_ratio self r0 cnops_record) as (<- & _). }
  destruct (validate_matched_tier r0 cnops_record Hm0) as [earlier Hnotes].
  exists earlier. eexists. split; [exact Hnotes|]. split; [done|].
  unfold tier_note.
  destruct (high (confidence_thresholds self) <=? _)%float; [done|].
  split; [|done].
  destruct (medium _ <=? _)%float; [done|]. by destruct (low _ <=? _)%float.
Qed.

Lemma strategy_result_alternatives rec r :
  strategy_result self rec r →
  alternative_matches r ≠ [] →
  mapping_method r = "fuzzy_high"
  ∧ ∃ h0 best_match,
      approximate_search_answer (api_client self) h0 (get rec "DCI1") 5
        = Ok (best_match :: alternative_matches r)
      ∧ 80 ≤ c_score best_match.
Proof.
  destruct 1 as [id Hid|t id Hid|h0 c rest Hap Hsc]; simpl; [done|done|].
  intros _. split; [done|]. by exists h0, c.
Qed.

(** X7. Alternatives come from the fuzzy strategy only: a returned
    result with a non-empty list of alternatives has method
    [fuzzy_high], and its alternatives are what the approximate search
    returned after its accepted top candidate. *)
Theorem alternatives_only_from_fuzzy (cnops_record : cnops_row)
    (h h' : history) (r : MappingResult) :
  map_single_drug fuzz_ratio self cnops_record h = (Ok r, h') →
  alternative_matches r ≠ [] →
  mapping_method r = "fuzzy_high"
  ∧ ∃ h0 best_match,
      approximate_search_answer (api_client self) h0
        (get cnops_record "DCI1") 5
        = Ok (best_match :: alternative_matches r)
      ∧ 80 ≤ c_score best_match.
Proof.
  intros Hrun Halt.
  apply map_single_drug_inv in Hrun
    as [(Hd & -> & ->)|(Hd & r0 & Hpre & ->)]; [done|].
  destruct (validate_keeps fuzz_ratio self r0 cnops_record)
    as (_ & _ & Hmeth & Halts & _).
  rewrite Hmeth. rewrite Halts in Halt |- *.
  destruct Hpre as [|r0 Hsr|r0 h0 ps p Hsr Hm Hrel Hin]; [done| |].
  - by apply strategy_result_alternatives.
  - by apply (strategy_result_alternatives cnops_record r0).
Qed.

End ValidationFacts.

(** ** More on the product choice *)

Section ProductFacts.

Variable self : CNOPSToRxNormMapper.

Lemma contains_empty hay : Py.contains "" hay = true.
Proof. by destruct hay. Qed.

Lemma score_product_possible ts tf p sp :
  score_product self ts tf p = Ok sp → sp.1 ∈ possible_scores ∧ sp.2 = p.
Proof.
  unfold score_product, possible_scores. destruct (p_name p); [|done].
  intros [= <-]. split; [|done]. simpl.
  destruct (Py.truthy _ && _); destruct (Py.contains _ _); elem_found.
Qed.

Lemma score_products_possible ts tf products scored :
  score_products self ts tf products = Ok scored →
  Forall (λ sp, sp.1 ∈ possible_scores) scored.
Proof.
  revert scored. induction products as [|p ps IH]; intros scored H; simpl in H.
  - inversion H. constructor.
  - destruct (score_product self ts tf p) as [sp|e] eqn:Hsp; [|done].
    simpl in H.
    destruct (score_products self ts tf ps) as [r|e]; [|done].
    inversion H; subst. constructor; [|by apply IH].
    by apply score_product_possible in Hsp as [? _].
Qed.

(** X8. A list of a single named product never fails and always
    selects that product, whatever it scores. *)
Theorem single_product_is_always_selected (p : product)
    (name target_strength target_form : string) :
  p_name p = Some name →
  _find_best_product_match self [p] target_strength target_form = Ok (Some p).
Proof.
  intros Hn. unfold _find_best_product_match, score_products, score_product.
  rewrite Hn. cbn [obind sort_reverse sort_into insert_desc].
  destruct (0 <? _); [done|].
  unfold first_scd_or_first. simpl. by destruct (bool_decide _).
Qed.

Lemma score_products_nameless ts tf products p :
  p ∈ products → p_name p = None →
  score_products self ts tf products
  = Raise (AttributeError "'NoneType' object has no attribute 'upper'").
Proof.
  intros Hin Hn. induction products as [|q qs IH]; [inversion Hin|].
  simpl. unfold score_product at 1.
  destruct (p_name q) eqn:Hq.
  - apply elem_of_cons in Hin as [->|Hin]; [congruence|].
    simpl. by rewrite (IH Hin).
  - done.
Qed.

(** X9. One product without a name is enough to make the selection
    raise [AttributeError], wherever it stands in the list and whatever
    the other products are. *)
Theorem nameless_product_raises (products : list product) (p : product)
    (target_strength target_form : string) :
  p ∈ products →
  p_name p = None →
  _find_best_product_match self products target_strength target_form
  = Raise (AttributeError "'NoneType' object has no attribute 'upper'").
Proof.
  intros Hin Hn. unfold _find_best_product_match.
  destruct products as [|q qs]; [inversion Hin|].
  by rewrite (score_products_nameless _ _ _ p Hin Hn).
Qed.

(** X10. The selection can only return when different products got
    different scores; as a score is one of 0, 30, 50 and 80, it only
    returns for lists of at most four different products. *)
Theorem selection_returns_for_few_products_only (products : list product)
    (target_strength target_form : string) (o : option product) :
  _find_best_product_match self products target_strength target_form = Ok o →
  ∃ scored,
    score_products self target_strength target_form products = Ok scored
    ∧ scored.*2 = products
    ∧ tie_free scored
    ∧ (length (remove_dups products) ≤ 4)%nat.
Proof.
  unfold _find_best_product_match. destruct products as [|p0 ps].
  { intros _. exists []. repeat split; try done.
    - intros ? ? H. inversion H.
    - simpl. lia. }
  destruct (score_products self _ _ (p0 :: ps)) as [scored|e] eqn:Hsc; [|done].
  simpl. destruct (sort_reverse scored) as [sorted|e] eqn:Hsort; [|done].
  intros _. exists scored. split; [done|].
  pose proof (score_products_snd _ _ _ _ _ Hsc) as Hsnd.
  split; [done|].
  destruct (sort_reverse_sorted _ _ Hsort) as [Hfree _]. split; [done|].
  pose proof (score_products_possible _ _ _ _ Hsc) as Hposs.
  rewrite Forall_forall in Hposs.
  assert (NoDup ((remove_dups scored).*1)) as Hnd.
  { apply NoDup_fmap_2_strong; [|apply NoDup_remove_dups].
    intros [s1 q1] [s2 q2] H1 H2 Heq. simpl in Heq. subst s2.
    rewrite elem_of_remove_dups in H1, H2.
    pose proof (Hfree _ _ H1 H2 eq_refl) as Hq. simpl in Hq. by subst. }
  assert ((remove_dups scored).*1 ⊆+ possible_scores) as Hsub1.
  { apply NoDup_submseteq; [done|]. intros s Hs.
    apply list_elem_of_fmap in Hs as (sp & -> & Hsp).
    rewrite elem_of_remove_dups in Hsp. by apply Hposs. }
  assert (remove_dups (p0 :: ps) ⊆+ (remove_dups scored).*2) as Hsub2.
  { apply NoDup_submseteq; [apply NoDup_remove_dups|]. intros q Hq.
    rewrite elem_of_remove_dups in Hq. rewrite <- Hsnd in Hq.
    apply list_elem_of_fmap in Hq as (sp & -> & Hsp).
    apply list_elem_of_fmap. exists sp. split; [done|].
    by rewrite elem_of_remove_dups. }
  apply submseteq_length in Hsub1, Hsub2.
  rewrite length_fmap in Hsub1. rewrite length_fmap in Hsub2.
  exact (Nat.le_trans _ _ _ Hsub2 Hsub1).
Qed.

(** X11. Edge cases of the scoring. A strength that is blank after
    stripping (dosage and unit both missing) earns no product the
    strength points; a dose form that is empty and has no translation is
    a substring of every name, so it earns every named product the form
    points. *)
Theorem blank_strength_and_empty_form (p : product)
    (name target_strength target_form : string) :
  p_name p = Some name →
  (Py.strip target_strength = "" →
   ∃ s, score_product self target_strength target_form p = Ok (s, p)
        ∧ (s = 0 ∨ s = 30))
  ∧ (target_form = "" → dose_form_translations self !! "" = None →
     ∃ s, score_product self target_strength target_form p = Ok (s, p)
          ∧ (s = 30 ∨ s = 80)).
Proof.
  intros Hn. unfold score_product. rewrite Hn. split.
  - intros ->. cbn [Py.truthy andb].
    destruct (Py.contains _ _); eexists; (split; [done|]); auto.
  - intros -> ->. cbn [default from_option]. unfold Datatypes.id.
    cbn [Py.upper]. rewrite contains_empty.
    destruct (_ && _); eexists; (split; [done|]); auto.
Qed.

End ProductFacts.

(** ** Facts about the translation table *)

Lemma upper_char_idempotent c : Py.upper_char (Py.upper_char c) = Py.upper_char c.
Proof. by destruct c as [[] [] [] [] [] [] [] []]. Qed.

Lemma upper_idempotent s : Py.upper (Py.upper s) = Py.upper s.
Proof.
  induction s as [|c s IH]; [done|].
  cbn [Py.upper]. by rewrite upper_char_idempotent, IH.
Qed.

Lemma upper_case_entries_lookup (table : gmap string string) (name : string) :
  upper_case_entries table !! Py.upper name = table !! Py.upper name.
Proof.
  unfold upper_case_entries. destruct (table !! Py.upper name) as [v|] eqn:Hv.
  - apply map_lookup_filter_Some. split; [done|]. apply upper_idempotent.
  - apply map_lookup_filter_None. by left.
Qed.

(** X27. The ingredient is put in upper case before it is looked up
    in the translation table, and the keys of the table are taken as
    they are: an entry whose key contains a lower-case letter is never
    found. Removing all such entries from the table changes no result,
    no exception and no request of the resolver. *)
Theorem lower_case_keys_are_never_found (fuzz_ratio : string → string → Z)
    (self : CNOPSToRxNormMapper) (cnops_record : cnops_row) (h : history) :
  map_single_drug fuzz_ratio
    (with_translations self (upper_case_entries (ingredient_translations self)))
    cnops_record h
  = map_single_drug fuzz_ratio self cnops_record h.
Proof.
  unfold map_single_drug, translation_lookup. cbv zeta.
  cbn [ingredient_translations with_translations api_client].
  rewrite upper_case_entries_lookup.
  reflexivity.
Qed.

(** * Facts about the API client *)

Module ApiClientFacts.
Import ApiClient.

Lemma gets_app tr1 tr2 : gets (tr1 ++ tr2) = (gets tr1 + gets tr2)%nat.
Proof.
  induction tr1 as [|[site d|url ps t] tr1 IH]; simpl; [done|done|].
  by rewrite IH.
Qed.

Lemma sleep_ok site d tr :
  sleepable d = true → sleep site d tr = (Ok tt, tr ++ [Slept site d]).
Proof. unfold sleep. by intros ->. Qed.

Lemma sleep_trace site d tr :
  (sleep site d tr).2 = tr ∨ (sleep site d tr).2 = tr ++ [Slept site d].
Proof.
  unfold sleep. destruct (sleepable d); [by right|left].
  destruct d as [n|f].
  - by destruct (_ || _).
  - destruct (is_nan f); [done|]. by destruct (_ || _).
Qed.

Lemma backoff_sleepable attempt :
  0 ≤ attempt ≤ 33 → sleepable (Seconds (2 ^ attempt)) = true.
Proof.
  intros Ha. unfold sleepable.
  assert (0 < 2 ^ attempt) by (apply Z.pow_pos_nonneg; lia).
  assert (2 ^ attempt ≤ 2 ^ 33) by (apply Z.pow_le_mono_r; lia).
  change max_sleep_seconds with 9223372036.
  change (2 ^ 33) with 8589934592 in *.
  apply andb_true_iff. split; lia.
Qed.

Lemma attempts_gets self endpoint params remaining attempt tr :
  ∃ added,
    (attempts self endpoint params remaining attempt tr).2 = tr ++ added
    ∧ (gets added ≤ remaining)%nat.
Proof.
  revert attempt tr. induction remaining as [|remaining IH]; intros attempt tr.
  { exists []. split; [by rewrite app_nil_r|done]. }
  cbn [attempts]. unfold io_bind at 1.
  destruct (sleep RateLimit (rate_limit self) tr) as [[[]|e] tr1] eqn:Hs.
  2:{ pose proof (sleep_trace RateLimit (rate_limit self) tr) as Ht.
      rewrite Hs in Ht. simpl in Ht. destruct Ht as [->| ->].
      - exists []. split; [by rewrite app_nil_r|simpl; lia].
      - eexists. split; [done|]. simpl. lia. }
  pose proof (sleep_trace RateLimit (rate_limit self) tr) as Ht.
  rewrite Hs in Ht. simpl in Ht.
  assert (∃ pre, tr1 = tr ++ pre ∧ gets pre = 0%nat) as (pre & -> & Hpre).
  { destruct Ht as [->| ->]; [exists []; by rewrite app_nil_r|by eexists]. }
  destruct (session self _ _ _) as [body|msg|e].
  - eexists. split; [by rewrite <- app_assoc|]. rewrite gets_app, Hpre. simpl. lia.
  - destruct (attempt =? retries self - 1).
    { eexists. split; [by rewrite <- app_assoc|].
      rewrite gets_app, Hpre. simpl. lia. }
    unfold io_bind.
    destruct (sleep Backoff _ _) as [[[]|e] tr2] eqn:Hs2.
    + pose proof (sleep_trace Backoff (Seconds (2 ^ attempt))
                    ((tr ++ pre) ++ [Get (base_url self +:+ "/" +:+ endpoint)
                                       params (timeout self)])) as Ht2.
      rewrite Hs2 in Ht2. simpl in Ht2.
      destruct (IH (attempt + 1) tr2) as (added & -> & Hadded).
      destruct Ht2 as [->| ->]; eexists;
        (split; [by rewrite <- !app_assoc|]);
        rewrite !gets_app, ?Hpre; simpl; lia.
    + pose proof (sleep_trace Backoff (Seconds (2 ^ attempt))
                    ((tr ++ pre) ++ [Get (base_url self +:+ "/" +:+ endpoint)
                                       params (timeout self)])) as Ht2.
      rewrite Hs2 in Ht2. simpl in Ht2.
      destruct Ht2 as [->| ->]; eexists;
        (split; [by rewrite <- !app_assoc|]);
        rewrite !gets_app, ?Hpre; simpl; lia.
  - eexists. split; [by rewrite <- app_assoc|]. rewrite gets_app, Hpre. simpl. lia.
Qed.

(** X12. [_make_request] never sends more GET requests than [retries],
    whatever the session answers; with [retries] at zero or below it
    sends none, does not sleep, and returns [None]. *)
Theorem make_request_attempt_bound (self : client) (endpoint : string)
    (params : option (list (string * json))) (tr : trace) :
  (∃ added,
     (_make_request self endpoint params tr).2 = tr ++ added
     ∧ (gets added ≤ Z.to_nat (retries self))%nat)
  ∧ (retries self ≤ 0 →
     _make_request self endpoint params tr = (Ok JNone, tr)).
Proof.
  split; [apply attempts_gets|].
  intros Hr. unfold _make_request.
  by replace (Z.to_nat (retries self)) with 0%nat by lia.
Qed.

Lemma retried_snoc self url params k attempt :
  retried self url params (S k) attempt
  = retried self url params k attempt
    ++ [Slept RateLimit (rate_limit self); Get url params (timeout self);
        Slept Backoff (Seconds (2 ^ (attempt + Z.of_nat k)))].
Proof.
  revert attempt. induction k as [|k IH]; intros attempt.
  { simpl. by rewrite Z.add_0_r. }
  change (retried self url params (S (S k)) attempt)
    with ([Slept RateLimit (rate_limit self); Get url params (timeout self);
           Slept Backoff (Seconds (2 ^ attempt))]
          ++ retried self url params (S k) (attempt + 1)).
  rewrite IH. cbn [retried]. rewrite <- !app_assoc.
  by replace (attempt + 1 + Z.of_nat k) with (attempt + Z.of_nat (S k)) by lia.
Qed.

Lemma attempts_first_success self endpoint params body k :
  sleepable (rate_limit self) = true →
  let url := base_url self +:+ "/" +:+ endpoint in
  ∀ remaining attempt tr,
    (k < remaining)%nat →
    0 ≤ attempt →
    attempt + Z.of_nat k < retries self →
    attempt + Z.of_nat k ≤ 34 →
    (∀ i, (i < k)%nat →
       ∃ msg, session self
                (tr ++ retried self url params i attempt
                    ++ [Slept RateLimit (rate_limit self)]) url params
              = RequestException msg) →
    session self
      (tr ++ retried self url params k attempt
          ++ [Slept RateLimit (rate_limit self)]) url params = Body body →
    attempts self endpoint params remaining attempt tr
    = (Ok body,
       tr ++ retried self url params k attempt
          ++ [Slept RateLimit (rate_limit self); Get url params (timeout self)]).
Proof.
  intros Hrate url. induction k as [|k IH];
    intros remaining attempt tr Hk Ha Hlt Hcap Hfail Hbody.
  - destruct remaining as [|remaining]; [lia|].
    cbn [attempts retried]. unfold io_bind. rewrite (sleep_ok _ _ _ Hrate).
    cbn [retried app] in Hbody. fold url. rewrite Hbody.
    by rewrite <- app_assoc.
  - destruct remaining as [|remaining]; [lia|].
    cbn [attempts]. unfold io_bind at 1. rewrite (sleep_ok _ _ _ Hrate).
    fold url. destruct (Hfail 0%nat ltac:(lia)) as [msg Hmsg].
    cbn [retried app] in Hmsg. rewrite Hmsg.
    assert ((attempt =? retries self - 1) = false) as -> by lia.
    unfold io_bind. rewrite sleep_ok by (apply backoff_sleepable; lia).
    rewrite (IH remaining (attempt + 1)); [| lia | lia | lia | lia | |].
    + cbn [retried]. by rewrite <- !app_assoc.
    + intros i Hi. destruct (Hfail (S i) ltac:(lia)) as [msg' Hmsg'].
      exists msg'. rewrite <- Hmsg'. f_equal. cbn [retried].
      by rewrite <- !app_assoc.
    + rewrite <- Hbody. f_equal. cbn [retried]. by rewrite <- !app_assoc.
Qed.

(** X13. When the first [k] attempts fail with a [RequestException]
    and the next one, still within [retries], yields a body,
    [_make_request] returns that body after [k + 1] GET requests, having
    slept the rate limit before each and backed off 1, 2, 4, ... seconds
    between them. This needs lengths [time.sleep] accepts: a rate limit
    in range, and at most 34 failures, the backoff after the 35th
    ([2 ^ 34] seconds) being out of range. *)
Theorem make_request_returns_first_success (self : client) (endpoint : string)
    (params : option (list (string * json))) (tr : trace) (body : json)
    (k : nat) :
  sleepable (rate_limit self) = true →
  Z.of_nat k < retries self →
  (k ≤ 34)%nat →
  let url := base_url self +:+ "/" +:+ endpoint in
  (∀ i, (i < k)%nat →
     ∃ msg, session self
              (tr ++ retried self url params i 0
                  ++ [Slept RateLimit (rate_limit self)]) url params
            = RequestException msg) →
  session self
    (tr ++ retried self url params k 0 ++ [Slept RateLimit (rate_limit self)])
    url params = Body body →
  let tr' := tr ++ retried self url params k 0
                ++ [Slept RateLimit (rate_limit self);
                    Get url params (timeout self)] in
  _make_request self endpoint params tr = (Ok body, tr')
  ∧ gets (retried self url params k 0
          ++ [Slept RateLimit (rate_limit self); Get url params (timeout self)])
    = S k
  ∧ backoff_total (retried self url params k 0) = 2 ^ Z.of_nat k - 1.
Proof.
  intros Hrate Hk Hcap url Hfail Hbody tr'. split; [|split].
  - unfold _make_request. apply attempts_first_success; try done; lia.
  - clear. induction k as [|k IH]; [done|].
    rewrite retried_snoc, <- app_assoc, gets_app, gets_app in *.
    simpl in *. lia.
  - clear. induction k as [|k IH]; [done|].
    rewrite retried_snoc.
    assert (∀ t1 t2, backoff_total (t1 ++ t2)
                     = backoff_total t1 + backoff_total t2) as Happ.
    { induction t1 as [|[[] [n|f]|? ? ?] t1 IH1]; intros t2; simpl;
        rewrite ?IH1; lia. }
    rewrite Happ, IH. simpl.
    replace (0 + Z.of_nat k) with (Z.of_nat k) by lia.
    replace (Z.of_nat (S k)) with (Z.of_nat k + 1) by lia.
    rewrite Z.pow_add_r by lia. lia.
Qed.

Lemma backoff_total_app t1 t2 :
  backoff_total (t1 ++ t2) = backoff_total t1 + backoff_total t2.
Proof.
  induction t1 as [|[[] [n|f]|? ? ?] t1 IH1]; simpl; rewrite ?IH1; lia.
Qed.

Lemma attempts_S self endpoint params remaining attempt :
  attempts self endpoint params (S remaining) attempt
  = io_bind (sleep RateLimit (rate_limit self)) (fun _ =>
    fun tr =>
      let url := base_url self +:+ "/" +:+ endpoint in
      let tr' := tr ++ [Get url params (timeout self)] in
      match session self tr url params with
      | Body body => (Ok body, tr')
      | RequestException _ =>
          if attempt =? retries self - 1 then (Ok JNone, tr')
          else io_bind (sleep Backoff (Seconds (2 ^ attempt))) (fun _ =>
                 attempts self endpoint params remaining (attempt + 1)) tr'
      | OtherException e => (Raise e, tr')
      end).
Proof. reflexivity. Qed.

Lemma attempts_exhausted self endpoint params :
  sleepable (rate_limit self) = true →
  always_fails self (base_url self +:+ "/" +:+ endpoint) params →
  let url := base_url self +:+ "/" +:+ endpoint in
  retries self ≤ 35 →
  ∀ remaining attempt tr,
    0 ≤ attempt →
    attempt + Z.of_nat (S remaining) = retries self →
    attempts self endpoint params (S remaining) attempt tr
    = (Ok JNone,
       tr ++ retried self url params remaining attempt
          ++ [Slept RateLimit (rate_limit self); Get url params (timeout self)]).
Proof.
  intros Hrate Hfail url Hcap. subst url.
  induction remaining as [|remaining IH]; intros attempt tr Ha Hsum.
  - cbn [attempts retried]. unfold io_bind. rewrite (sleep_ok _ _ _ Hrate).
    destruct (Hfail (tr ++ [Slept RateLimit (rate_limit self)]))
      as [msg ->].
    assert ((attempt =? retries self - 1) = true) as -> by lia.
    by rewrite <- app_assoc.
  - rewrite attempts_S. unfold io_bind at 1. rewrite (sleep_ok _ _ _ Hrate).
    cbv zeta.
    destruct (Hfail (tr ++ [Slept RateLimit (rate_limit self)]))
      as [msg ->].
    assert ((attempt =? retries self - 1) = false) as -> by lia.
    unfold io_bind. rewrite sleep_ok by (apply backoff_sleepable; lia).
    rewrite IH by lia. cbn [retried]. by rewrite <- !app_assoc.
Qed.

Lemma attempts_overflow self endpoint params :
  sleepable (rate_limit self) = true →
  always_fails self (base_url self +:+ "/" +:+ endpoint) params →
  36 ≤ retries self →
  ∀ k remaining attempt tr,
    attempt = 34 - Z.of_nat k →
    0 ≤ attempt →
    (k < remaining)%nat →
    attempts self endpoint params remaining attempt tr
    = (Raise sleep_overflow,
       tr ++ retried self (base_url self +:+ "/" +:+ endpoint) params k attempt
          ++ [Slept RateLimit (rate_limit self);
              Get (base_url self +:+ "/" +:+ endpoint) params (timeout self)]).
Proof.
  intros Hrate Hfail Hmany.
  induction k as [|k IH]; intros remaining attempt tr Hatt Ha Hk;
    (destruct remaining as [|remaining]; [lia|]);
    rewrite attempts_S; unfold io_bind at 1; rewrite (sleep_ok _ _ _ Hrate);
    cbv zeta;
    destruct (Hfail (tr ++ [Slept RateLimit (rate_limit self)])) as [msg ->];
    (assert ((attempt =? retries self - 1) = false) as -> by lia).
  - replace attempt with 34 by lia. unfold io_bind. cbn [retried app].
    by rewrite <- app_assoc.
  - unfold io_bind. rewrite sleep_ok by (apply backoff_sleepable; lia).
    rewrite (IH remaining (attempt + 1)) by lia.
    cbn [retried]. by rewrite <- !app_assoc.
Qed.

(** X14. When every attempt fails with a [RequestException] and
    [retries] is at most 35, [_make_request] gives up after exactly
    [retries] GET requests and returns [None]: it backs off 1, 2, 4, ...
    seconds between attempts, [2 ^ (retries - 1) - 1] seconds in all,
    and does not back off after the last failure. With [retries] at 36
    or more it does not get that far: after the 35th failed GET the
    backoff of [2 ^ 34] seconds is more than [time.sleep] accepts, and
    the [OverflowError] leaves [_make_request]. *)
Theorem make_request_gives_up_after_retries (self : client) (endpoint : string)
    (params : option (list (string * json))) (tr : trace) :
  sleepable (rate_limit self) = true →
  0 < retries self →
  let url := base_url self +:+ "/" +:+ endpoint in
  always_fails self url params →
  (retries self ≤ 35 →
   let added := retried self url params (Z.to_nat (retries self) - 1) 0
                ++ [Slept RateLimit (rate_limit self);
                    Get url params (timeout self)] in
   _make_request self endpoint params tr = (Ok JNone, tr ++ added)
   ∧ gets added = Z.to_nat (retries self)
   ∧ backoff_total added = 2 ^ (retries self - 1) - 1)
  ∧ (36 ≤ retries self →
     let added := retried self url params 34 0
                  ++ [Slept RateLimit (rate_limit self);
                      Get url params (timeout self)] in
     _make_request self endpoint params tr = (Raise sleep_overflow, tr ++ added)
     ∧ gets added = 35%nat).
Proof.
  intros Hrate Hpos url Hfail. split.
  - intros Hcap added. subst added.
    destruct (Z.to_nat (retries self)) as [|n] eqn:Hn; [lia|].
    replace (S n - 1)%nat with n by lia.
    split; [|split].
    + unfold _make_request. rewrite Hn.
      apply attempts_exhausted; try done; lia.
    + clear. generalize 0 at 1. induction n as [|n IH]; intros a; [done|].
      cbn [retried]. rewrite <- app_assoc. simpl. by rewrite IH.
    + replace (retries self - 1) with (Z.of_nat n) by lia. clear.
      rewrite backoff_total_app. simpl. rewrite Z.add_0_r.
      assert (∀ a, 0 ≤ a →
                backoff_total (retried self url params n a)
                = 2 ^ a * (2 ^ Z.of_nat n - 1)) as Hgen.
      { induction n as [|n IH]; intros a Ha; [simpl; lia|].
        cbn [retried]. rewrite backoff_total_app. simpl. rewrite IH by lia.
        replace (Z.of_nat (S n)) with (Z.of_nat n + 1) by lia.
        rewrite !Z.pow_add_r by lia. lia. }
      rewrite Hgen by lia. lia.
  - intros Hmany added. subst added. split.
    + unfold _make_request.
      apply (attempts_overflow self endpoint params Hrate Hfail Hmany 34%nat);
        lia.
    + rewrite gets_app. clear. generalize 0 at 1.
      assert (∀ n a, gets (retried self url params n a) = n) as Hg.
      { induction n as [|n IH]; intros a; [done|].
        cbn [retried app gets]. by rewrite IH. }
      intros a. rewrite Hg. reflexivity.
Qed.

(** ** Reading the decoded response *)

Lemma lookup_key_truthy key entries v :
  lookup_key key entries = Some v → truthy (JDict entries) = true.
Proof. by destruct entries. Qed.

Lemma collect_fmap {A B C} (f : B → outcome C) (g : A → B) (h : A → C) l :
  (∀ x, f (g x) = Ok (h x)) → collect f (g <$> l) = Ok (h <$> l).
Proof.
  intros Hf. induction l as [|x l IH]; [done|].
  rewrite !fmap_cons. cbn [collect]. by rewrite Hf, IH.
Qed.

Lemma collect_length {A B} (f : A → outcome B) l r :
  collect f l = Ok r → length r = length l.
Proof.
  revert r. induction l as [|x l IH]; intros r H; simpl in H.
  - by inversion H.
  - destruct (f x); [|done]. simpl in H. destruct (collect f l); [|done].
    inversion H; subst. simpl. by rewrite (IH _ eq_refl).
Qed.

(** X15. [search_by_name] returns the first identifier of
    [idGroup.rxnormId] when that is a non-empty list. It returns [None]
    when the request gave [None] (retries exhausted), when the response
    has no [idGroup], and when the group has no [rxnormId] or an empty
    one: a failed request cannot be told from a name that is not
    known. *)
Theorem search_by_name_reads_first_identifier (self : client) (name : string)
    (tr tr' : trace) (result : json) :
  _make_request self "rxcui.json" (Some [("name", JStr name)]) tr
    = (Ok result, tr') →
  let found := search_by_name self name tr in
  (∀ entries group id others,
     result = JDict entries →
     lookup_key "idGroup" entries = Some (JDict group) →
     lookup_key "rxnormId" group = Some (JList (id :: others)) →
     found = (Ok id, tr'))
  ∧ (result = JNone → found = (Ok JNone, tr'))
  ∧ (∀ entries,
       result = JDict entries → lookup_key "idGroup" entries = None →
       found = (Ok JNone, tr'))
  ∧ (∀ entries group,
       result = JDict entries →
       lookup_key "idGroup" entries = Some (JDict group) →
       lookup_key "rxnormId" group = None
       ∨ lookup_key "rxnormId" group = Some (JList []) →
       found = (Ok JNone, tr')).
Proof.
  intros Hreq found. subst found. unfold search_by_name, io_bind.
  rewrite Hreq. unfold io_lift, first_rxnorm_id.
  split; [|split; [|split]].
  - intros entries group id others -> Hg Hids.
    rewrite (lookup_key_truthy _ _ _ Hg).
    by repeat first [rewrite Hg | rewrite Hids | progress cbn].
  - by intros ->.
  - intros entries -> Hg. destruct entries as [|e entries]; [done|].
    cbn [truthy py_get obind]. rewrite Hg. by cbn.
  - intros entries group -> Hg Hids.
    rewrite (lookup_key_truthy _ _ _ Hg).
    destruct Hids as [Hids|Hids];
      by repeat first [rewrite Hg | rewrite Hids | progress cbn].
Qed.

(** X16. The operations are not shielded against a response of an
    unexpected shape: when [idGroup] is present but is not a dict (JSON
    null, say), [search_by_name] raises [AttributeError] instead of
    returning [None]. *)
Theorem search_by_name_raises_on_odd_group (self : client) (name : string)
    (tr tr' : trace) (entries : list (string * json)) (group : json) :
  _make_request self "rxcui.json" (Some [("name", JStr name)]) tr
    = (Ok (JDict entries), tr') →
  lookup_key "idGroup" entries = Some group →
  (∀ g, group ≠ JDict g) →
  search_by_name self name tr
  = (Raise (AttributeError
              ("'" +:+ type_name group +:+ "' object has no attribute 'get'")),
     tr').
Proof.
  intros Hreq Hg Hnot. unfold search_by_name, io_bind. rewrite Hreq.
  unfold io_lift, first_rxnorm_id. rewrite (lookup_key_truthy _ _ _ Hg).
  cbn [py_get obind]. rewrite Hg. cbn [default from_option].
  unfold Datatypes.id. destruct group as [| | | | | |g]; try done.
  by destruct (Hnot g).
Qed.

(** X17. [approximate_search] returns one entry per candidate of the
    response, in the order of the response: it passes [max_entries] to
    the service but does not cut the list itself. A candidate without
    score gets score 0; one without identifier or term gets [None]. *)
Theorem approximate_search_keeps_every_candidate (self : client)
    (term : string) (max_entries : Z) (tr tr' : trace)
    (entries group : list (string * json))
    (candidates : list (list (string * json))) :
  _make_request self "approximateTerm.json"
    (Some [("term", JStr term); ("maxEntries", JInt max_entries)]) tr
    = (Ok (JDict entries), tr') →
  lookup_key "approximateGroup" entries = Some (JDict group) →
  lookup_key "candidate" group = Some (JList (JDict <$> candidates)) →
  approximate_search self term max_entries tr
  = (Ok (match_of_dict <$> candidates), tr')
  ∧ ∀ found, (approximate_search self term max_entries tr).1 = Ok found →
      length found = length candidates.
Proof.
  intros Hreq Hg Hc.
  assert (approximate_search self term max_entries tr
          = (Ok (match_of_dict <$> candidates), tr')) as Heq.
  { unfold approximate_search, io_bind. rewrite Hreq.
    unfold io_lift, candidate_matches. rewrite (lookup_key_truthy _ _ _ Hg).
    destruct candidates as [|c cs].
    { by repeat first [rewrite Hg | rewrite Hc | progress cbn]. }
    repeat first [rewrite Hg | rewrite Hc
                 | progress cbn [py_get obind subscript default from_option
                                 Datatypes.id truthy fmap list_fmap iterate]].
    rewrite <- !fmap_cons.
    by rewrite (collect_fmap match_of JDict match_of_dict). }
  split; [done|]. rewrite Heq. intros found [= <-]. by rewrite length_fmap.
Qed.

Lemma concept_of_dict_ok concept :
  concept_of (JDict concept) = Ok (concept_of_dict concept).
Proof. done. Qed.

Lemma group_concepts_holds group concepts :
  group_holds group concepts →
  group_concepts group = Ok (concept_of_dict <$> concepts).
Proof.
  intros (entries & -> & [Hp|[-> Hp]]); unfold group_concepts.
  - destruct concepts as [|c cs].
    { by repeat first [rewrite Hp | progress cbn]. }
    repeat first [rewrite Hp
                 | progress cbn [py_get obind subscript default from_option
                                 Datatypes.id truthy fmap list_fmap iterate]].
    rewrite <- !fmap_cons.
    by rewrite (collect_fmap concept_of JDict concept_of_dict).
  - cbn [py_get obind]. by rewrite Hp.
Qed.

Lemma collect_groups (groups : list json)
    (concepts : list (list (list (string * json)))) :
  Forall2 group_holds groups concepts →
  collect group_concepts groups
  = Ok ((fun cs : list (list (string * json)) => concept_of_dict <$> cs)
          <$> concepts).
Proof.
  induction 1 as [|g cs groups concepts Hg _ IH]; [done|].
  cbn [collect]. by rewrite (group_concepts_holds _ _ Hg), IH.
Qed.

Lemma concat_fmap_fmap {A B} (f : A → B) (ls : list (list A)) :
  concat ((fun l : list A => f <$> l) <$> ls) = f <$> concat ls.
Proof.
  induction ls as [|l ls IH]; [done|].
  rewrite fmap_cons. cbn [concat]. by rewrite IH, fmap_app.
Qed.

(** X18. [get_related_concepts] asks for [rxcui/<rxcui>/related.json],
    with the term types as the only parameter (none at all when [tty]
    is [None] or empty), and returns the concepts of all the groups of
    the response in one list, group after group in the order of the
    response; a group without [conceptProperties], or with an empty
    one, adds nothing. *)
Theorem get_related_concepts_flattens_groups (self : client) (rxcui : string)
    (tty : option string) (tr tr' : trace)
    (entries related : list (string * json)) (groups : list json)
    (concepts : list (list (list (string * json)))) :
  _make_request self ("rxcui/" +:+ rxcui +:+ "/related.json")
    (if Py.truthy_opt tty then Some [("tty", JStr (default "" tty))] else None)
    tr = (Ok (JDict entries), tr') →
  lookup_key "relatedGroup" entries = Some (JDict related) →
  lookup_key "conceptGroup" related = Some (JList groups) →
  Forall2 group_holds groups concepts →
  get_related_concepts self rxcui tty tr
  = (Ok (concept_of_dict <$> concat concepts), tr').
Proof.
  intros Hreq Hr Hg Hgroups. unfold get_related_concepts, io_bind.
  cbv zeta. rewrite Hreq. unfold io_lift, related_concepts.
  repeat first [rewrite (lookup_key_truthy _ _ _ Hr)
               | rewrite (lookup_key_truthy _ _ _ Hg)
               | rewrite Hr | rewrite Hg
               | rewrite (collect_groups _ _ Hgroups)
               | progress cbn [py_get obind subscript default from_option
                               Datatypes.id iterate]].
  by rewrite concat_fmap_fmap.
Qed.

Lemma attempts_none_when_failing self endpoint params :
  sleepable (rate_limit self) = true →
  always_fails self (base_url self +:+ "/" +:+ endpoint) params →
  retries self ≤ 35 →
  ∀ remaining attempt tr,
    0 ≤ attempt →
    attempt + Z.of_nat remaining = retries self →
    (attempts self endpoint params remaining attempt tr).1 = Ok JNone.
Proof.
  intros Hrate Hfail Hcap remaining attempt tr Ha Hsum.
  destruct remaining as [|remaining]; [done|].
  by rewrite attempts_exhausted.
Qed.

Lemma make_request_none_when_failing self endpoint params tr :
  sleepable (rate_limit self) = true →
  always_fails self (base_url self +:+ "/" +:+ endpoint) params →
  retries self ≤ 35 →
  (_make_request self endpoint params tr).1 = Ok JNone.
Proof.
  intros Hrate Hfail Hcap. unfold _make_request.
  destruct (decide (0 ≤ retries self)) as [Hr|Hr].
  - apply attempts_none_when_failing; try done; lia.
  - by replace (Z.to_nat (retries self)) with 0%nat by lia.
Qed.

(** X19. When every GET fails with a [RequestException] (the service
    cannot be reached), the rate limit is a length [time.sleep] accepts
    and [retries] is at most 35, so that every backoff is one too, none
    of the three operations raises: [search_by_name] returns [None] and
    the two others return the empty list, the very answers they give
    for a name the service does not know. *)
Theorem unreachable_service_looks_like_no_match (self : client) (tr : trace) :
  sleepable (rate_limit self) = true →
  retries self ≤ 35 →
  (∀ url params, always_fails self url params) →
  (∀ name, (search_by_name self name tr).1 = Ok JNone)
  ∧ (∀ term max_entries,
       (approximate_search self term max_entries tr).1 = Ok [])
  ∧ (∀ rxcui tty, (get_related_concepts self rxcui tty tr).1 = Ok []).
Proof.
  intros Hrate Hcap Hfail.
  assert (∀ endpoint params,
            ∃ tr', _make_request self endpoint params tr = (Ok JNone, tr'))
    as Hnone.
  { intros endpoint params.
    pose proof (make_request_none_when_failing self endpoint params tr Hrate
                  (Hfail _ _) Hcap) as H.
    destruct (_make_request self endpoint params tr) as [o tr'].
    simpl in H. subst o. by exists tr'. }
  split; [|split].
  - intros name. unfold search_by_name, io_bind.
    by destruct (Hnone "rxcui.json" (Some [("name", JStr name)])) as [tr' ->].
  - intros term max_entries. unfold approximate_search, io_bind.
    by destruct (Hnone "approximateTerm.json"
                   (Some [("term", JStr term); ("maxEntries", JInt max_entries)]))
      as [tr' ->].
  - intros rxcui tty. unfold get_related_concepts, io_bind. cbv zeta.
    by destruct (Hnone ("rxcui/" +:+ rxcui +:+ "/related.json")
                   (if Py.truthy_opt tty
                    then Some [("tty", JStr (default "" tty))] else None))
      as [tr' ->].
Qed.

End ApiClientFacts.

(** * The order of the floats

    The comparisons of binary64 floats, read through their
    specification: they are those of a total order away from NaN. *)

Lemma SFcompare_antisym x y c :
  SpecFloat.SFcompare x y = Some c → SpecFloat.SFcompare y x = Some (CompOpp c).
Proof.
  destruct x as [sx|sx| |sx mx ex], y as [sy|sy| |sy my ey]; simpl;
    try discriminate; intros [= <-]; f_equal;
    repeat match goal with s : bool |- _ => destruct s end; try reflexivity.
  all: change (PosDef.Pos.compare_cont Eq) with Pos.compare.
  all: destruct (Z.compare_spec ex ey), (Z.compare_spec ey ex); try lia;
         try reflexivity.
  all: destruct (Pos.compare_spec mx my), (Pos.compare_spec my mx); simpl;
         try lia; try reflexivity.
Qed.

Lemma SFleb_trans x y z :
  SpecFloat.SFleb x y = true → SpecFloat.SFleb y z = true →
  SpecFloat.SFleb x z = true.
Proof.
  unfold SpecFloat.SFleb.
  destruct x as [sx|sx| |sx mx ex], y as [sy|sy| |sy my ey],
           z as [sz|sz| |sz mz ez]; simpl; try discriminate; try reflexivity;
    repeat match goal with s : bool |- _ => destruct s end;
    simpl; try discriminate; try reflexivity.
  all: change (PosDef.Pos.compare_cont Eq) with Pos.compare.
  all: destruct (Z.compare_spec ex ey), (Z.compare_spec ey ez),
         (Z.compare_spec ex ez); try lia; try discriminate; try reflexivity.
  all: destruct (Pos.compare_spec mx my), (Pos.compare_spec my mz),
         (Pos.compare_spec mx mz); simpl; try lia; try discriminate;
         try reflexivity.
Qed.

Lemma float_leb_trans (x y z : float) :
  (x <=? y)%float = true → (y <=? z)%float = true → (x <=? z)%float = true.
Proof. rewrite !FloatAxioms.leb_spec. apply SFleb_trans. Qed.

Lemma float_ltb_negb_leb (x y : float) :
  is_nan x = false → is_nan y = false →
  (x <? y)%float = negb (y <=? x)%float.
Proof.
  unfold is_nan.
  rewrite !FloatAxioms.eqb_spec, FloatAxioms.ltb_spec, FloatAxioms.leb_spec.
  unfold SpecFloat.SFeqb, SpecFloat.SFltb, SpecFloat.SFleb.
  intros Hx Hy.
  destruct (SpecFloat.SFcompare (FloatOps.Prim2SF x) (FloatOps.Prim2SF y))
    as [c|] eqn:Hc.
  - rewrite (SFcompare_antisym _ _ _ Hc). by destruct c.
  - exfalso.
    destruct (FloatOps.Prim2SF x), (FloatOps.Prim2SF y); simpl in *;
      discriminate.
Qed.

Lemma float_ltb_leb (x y : float) :
  (x <? y)%float = true → (x <=? y)%float = true.
Proof.
  rewrite FloatAxioms.ltb_spec, FloatAxioms.leb_spec.
  unfold SpecFloat.SFltb, SpecFloat.SFleb.
  by destruct (SpecFloat.SFcompare _ _) as [[]|].
Qed.

Lemma float_leb_ltb_false (x y : float) :
  (x <=? y)%float = true → (y <? x)%float = false.
Proof.
  rewrite FloatAxioms.ltb_spec, FloatAxioms.leb_spec.
  unfold SpecFloat.SFltb, SpecFloat.SFleb.
  destruct (SpecFloat.SFcompare (FloatOps.Prim2SF x) (FloatOps.Prim2SF y))
    as [c|] eqn:Hc; [|done].
  rewrite (SFcompare_antisym _ _ _ Hc). by destruct c.
Qed.

(** * Facts about the summary *)

Lemma count_rows_cons {A} (mask : A → bool) x df :
  count_rows mask (x :: df) = (Nat.b2n (mask x) + count_rows mask df)%nat.
Proof. unfold count_rows. simpl. by destruct (mask x). Qed.

Lemma count_rows_le {A} (mask : A → bool) df :
  (count_rows mask df ≤ length df)%nat.
Proof.
  induction df as [|x df IH]; [done|].
  rewrite count_rows_cons. destruct (mask x); simpl; lia.
Qed.

Section SummaryFacts.

Variable self : CNOPSToRxNormMapper.

Lemma one_tier_per_score (score : float) :
  is_nan (high (confidence_thresholds self)) = false →
  is_nan (medium (confidence_thresholds self)) = false →
  is_nan score = false →
  (medium (confidence_thresholds self)
   <=? high (confidence_thresholds self))%float = true →
  (Nat.b2n (high (confidence_thresholds self) <=? score)%float
   + Nat.b2n ((medium (confidence_thresholds self) <=? score)%float
              && (score <? high (confidence_thresholds self))%float)
   + Nat.b2n (score <? medium (confidence_thresholds self))%float)%nat = 1%nat.
Proof.
  intros Hh Hm Hs Hmh.
  rewrite (float_ltb_negb_leb score (high _)) by done.
  rewrite (float_ltb_negb_leb score (medium _)) by done.
  destruct (high (confidence_thresholds self) <=? score)%float eqn:H1.
  - by rewrite (float_leb_trans _ _ _ Hmh H1).
  - by destruct (medium (confidence_thresholds self) <=? score)%float.
Qed.

(** X20. When no threshold and no score is NaN and the medium
    threshold does not exceed the high one, the three tiers of the
    summary partition the rows: every row is counted in exactly one of
    high, medium and low, so the three counts add up to the total. The
    mapped rows are counted apart and never exceed the total. *)
Theorem summary_tiers_partition_rows (df : list output_row) (s : summary) :
  no_nan self df = true →
  (medium (confidence_thresholds self)
   <=? high (confidence_thresholds self))%float = true →
  _print_summary self df = Ok s →
  (s_high_conf s + s_med_conf s + s_low_conf s)%nat = s_total s
  ∧ s_total s = length df
  ∧ (s_mapped s ≤ s_total s)%nat.
Proof.
  unfold no_nan. intros Hnan Hmh Hs.
  apply andb_true_iff in Hnan as [Hnan Hrows].
  apply andb_true_iff in Hnan as [Hh Hm].
  apply negb_true_iff in Hh, Hm.
  destruct df as [|row0 df0] eqn:Hdf; [done|]. rewrite <- Hdf in *.
  assert (s = {| s_total := length df;
                 s_mapped := count_rows (fun r => notna (RXCUI r)) df;
                 s_high_conf :=
                   count_rows (fun r => (high (confidence_thresholds self)
                                         <=? CONFIDENCE_SCORE r)%float) df;
                 s_med_conf :=
                   count_rows (fun r => (medium (confidence_thresholds self)
                                         <=? CONFIDENCE_SCORE r)%float
                                        && (CONFIDENCE_SCORE r
                                            <? high (confidence_thresholds self))%float)
                              df;
                 s_low_conf :=
                   count_rows (fun r => (CONFIDENCE_SCORE r
                                         <? medium (confidence_thresholds self))%float)
                              df |}) as ->.
  { rewrite Hdf in *. by inversion Hs. }
  cbn [s_total s_mapped s_high_conf s_med_conf s_low_conf].
  split; [|split; [done|apply count_rows_le]].
  clear Hs Hdf. induction df as [|row df IH]; [done|].
  simpl in Hrows. apply andb_true_iff in Hrows as [Hrow Hrows].
  apply negb_true_iff in Hrow.
  rewrite !count_rows_cons.
  pose proof (one_tier_per_score (CONFIDENCE_SCORE row) Hh Hm Hrow Hmh).
  specialize (IH Hrows). simpl length. lia.
Qed.

End SummaryFacts.

(** * Facts about the stand-alone mapper *)

Module SimpleFacts.
Import ApiClient ApiClientFacts Simple.

Lemma search_by_name_gets self name tr :
  ∃ added,
    (search_by_name self name tr).2 = tr ++ added
    ∧ (gets added ≤ Z.to_nat (retries self))%nat.
Proof.
  destruct (attempts_gets self "rxcui.json" (Some [("name", JStr name)])
              (Z.to_nat (retries self)) 0 tr) as (added & Hadded & Hle).
  exists added. split; [|done].
  unfold search_by_name, io_bind, _make_request.
  destruct (attempts _ _ _ _ _ tr) as [[result|e] tr']; by simpl in *.
Qed.

Lemma search_by_name_unreachable self name tr :
  sleepable (rate_limit self) = true →
  retries self = 3 →
  unreachable self →
  let url := base_url self +:+ "/" +:+ "rxcui.json" in
  let params := Some [("name", JStr name)] in
  search_by_name self name tr
  = (Ok JNone,
     tr ++ [Slept RateLimit (rate_limit self); Get url params (timeout self);
            Slept Backoff (Seconds 1);
            Slept RateLimit (rate_limit self); Get url params (timeout self);
            Slept Backoff (Seconds 2);
            Slept RateLimit (rate_limit self); Get url params (timeout self)]).
Proof.
  intros Hrate Hretries Hdown url params.
  unfold search_by_name, io_bind, _make_request. rewrite Hretries.
  change (Z.to_nat 3) with 3%nat.
  by rewrite (attempts_exhausted self "rxcui.json" params Hrate (Hdown _ _)
                ltac:(lia))
    by (rewrite ?Hretries; lia).
Qed.

(** X22. What the stand-alone resolver returns. The identifier is
    present exactly when the method is not [none]; the method is
    [none], [direct_exact] or [translated_exact]; an unmatched result
    has no identifier, no name and confidence 0.0; a direct match has
    confidence 0.9 and the raw ingredient as its name; a translated
    match has confidence 0.8 and the table's translation as its name;
    every match is tagged HIGH. One resolution sends at most six GET
    requests, whether it returns or raises. *)
Theorem simple_mapper_invariant
    (session : trace → string → option (list (string * json)) → reply)
    (cnops_record : cnops_row) (tr : trace) :
  let self := SimpleCNOPSMapper session in
  (∃ added,
     (map_single_drug self cnops_record tr).2 = tr ++ added
     ∧ (gets added ≤ 6)%nat)
  ∧ ∀ r, (map_single_drug self cnops_record tr).1 = Ok r →
      dci1 r = get cnops_record "DCI1"
      ∧ (truthy (rxcui r) = true ↔ mapping_method r ≠ "none")
      ∧ mapping_method r ∈ ["none"; "direct_exact"; "translated_exact"]
      ∧ (mapping_method r = "none" →
         rxcui r = JNone ∧ rxnorm_name r = None
         ∧ confidence_score r = 0%float)
      ∧ (mapping_method r = "direct_exact" →
         rxnorm_name r = Some (dci1 r) ∧ confidence_score r = 0.9%float
         ∧ validation_notes r = ["HIGH confidence mapping"])
      ∧ (mapping_method r = "translated_exact" →
         rxnorm_name r = ingredient_translations !! Py.upper (dci1 r)
         ∧ confidence_score r = 0.8%float
         ∧ last (validation_notes r) = Some "HIGH confidence mapping").
Proof.
  intros self. unfold map_single_drug. cbv zeta.
  set (result := new_result cnops_record).
  destruct (negb (Py.truthy (dci1 result))) eqn:Hd.
  { split.
    - exists []. simpl. split; [by rewrite app_nil_r|lia].
    - intros r [= <-]. cbn. repeat split; try done. elem_found. }
  unfold io_bind.
  destruct (search_by_name_gets self (dci1 result) tr) as (a1 & Ha1 & Hg1).
  change (Z.to_nat (retries self)) with 3%nat in Hg1.
  destruct (search_by_name self (dci1 result) tr) as [[id|e] tr1] eqn:Hs1;
    simpl in Ha1; subst tr1; cbn beta iota.
  2:{ split; [|done]. exists a1. split; [done|lia]. }
  destruct (truthy id) eqn:Hid.
  { split.
    - exists a1. split; [done|lia].
    - intros r [= <-]. cbn. repeat split; try done. elem_found. }
  destruct (ingredient_translations !! Py.upper (dci1 result))
    as [translated|] eqn:Htr.
  2:{ split.
      - exists a1. split; [done|lia].
      - intros r [= <-]. cbn. repeat split; try done.
        elem_found. }
  destruct (search_by_name_gets self translated (tr ++ a1)) as (a2 & Ha2 & Hg2).
  change (Z.to_nat (retries self)) with 3%nat in Hg2.
  destruct (search_by_name self translated (tr ++ a1)) as [[id2|e] tr2] eqn:Hs2;
    simpl in Ha2; subst tr2; cbn beta iota.
  2:{ split; [|done]. exists (a1 ++ a2).
      split; [by rewrite app_assoc|]. rewrite gets_app. lia. }
  split.
  { exists (a1 ++ a2). destruct (truthy id2);
      (split; [by rewrite app_assoc|]); rewrite gets_app; lia. }
  destruct (truthy id2) eqn:Hid2; intros r [= <-]; cbn.
  - repeat split; try done. elem_found.
  - repeat split; try done. elem_found.
Qed.

(** X23. When the service cannot be reached, the stand-alone resolver
    does not fail: a record with an ingredient comes back unmatched
    with the single note that no mapping was found, after three GET
    requests and three seconds of backoff for the raw name, and as many
    again for the translation when the table has one. *)
Theorem simple_mapper_unreachable_service
    (session : trace → string → option (list (string * json)) → reply)
    (cnops_record : cnops_row) (tr : trace) :
  let self := SimpleCNOPSMapper session in
  unreachable self →
  get cnops_record "DCI1" ≠ "" →
  let lookups :=
    match ingredient_translations !! Py.upper (get cnops_record "DCI1") with
    | Some _ => 2
    | None => 1
    end in
  ∃ added,
    map_single_drug self cnops_record tr
    = (Ok (add_note (new_result cnops_record) "No mapping found"), tr ++ added)
    ∧ Z.of_nat (gets added) = 3 * lookups
    ∧ backoff_total added = 3 * lookups.
Proof.
  intros self Hdown Hdci lookups. subst lookups.
  unfold map_single_drug. cbv zeta.
  change (dci1 (new_result cnops_record)) with (get cnops_record "DCI1").
  destruct (get cnops_record "DCI1") as [|c name'] eqn:Hname; [done|].
  cbn [Py.truthy negb]. unfold io_bind at 1.
  rewrite (search_by_name_unreachable self _ tr eq_refl eq_refl Hdown).
  cbn [truthy].
  destruct (ingredient_translations !! Py.upper (String c name'))
    as [translated|] eqn:Htr.
  - unfold io_bind.
    rewrite (search_by_name_unreachable self _ _ eq_refl eq_refl Hdown).
    cbn [truthy]. eexists. split.
    + unfold io_ret. by rewrite <- app_assoc.
    + rewrite gets_app, backoff_total_app. by cbn.
  - eexists. split; [done|]. by cbn.
Qed.

Lemma process_rows_length self rows tr :
  length (process_rows self rows tr).1 = length rows.
Proof.
  revert tr. induction rows as [|row rows IH]; intros tr; [done|].
  cbn [process_rows].
  destruct (map_single_drug self row tr) as [[r|e] tr1];
    specialize (IH tr1);
    destruct (process_rows self rows tr1) as [outs tr2];
    simpl in *; by rewrite IH.
Qed.

Lemma map_single_drug_loop_row self cnops_record tr r :
  (map_single_drug self cnops_record tr).1 = Ok r → loop_row (result_row r).
Proof.
  unfold map_single_drug, io_bind. cbv zeta.
  destruct (negb (Py.truthy (dci1 (new_result cnops_record)))).
  { intros [= <-]. by right. }
  destruct (search_by_name self _ tr) as [[id|e] tr1]; [|done].
  destruct (truthy id).
  { intros [= <-]. left. split; [done|]. cbn. elem_found. }
  destruct (ingredient_translations !! _) as [translated|].
  2:{ intros [= <-]. by right. }
  destruct (search_by_name self translated tr1) as [[id2|e] tr2]; [|done].
  destruct (truthy id2); intros [= <-]; [left|by right].
  split; [done|]. cbn. elem_found.
Qed.

Lemma process_rows_loop_rows self rows tr :
  Forall loop_row (process_rows self rows tr).1.
Proof.
  revert tr. induction rows as [|row rows IH]; intros tr; [by constructor|].
  cbn [process_rows].
  destruct (map_single_drug self row tr) as [[r|e] tr1] eqn:Hr;
    specialize (IH tr1);
    destruct (process_rows self rows tr1) as [outs tr2]; simpl in *;
    constructor; try done.
  - apply (map_single_drug_loop_row self row tr). by rewrite Hr.
  - by right.
Qed.

Lemma loop_row_buckets out :
  loop_row out →
  (0.8 <=? CONFIDENCE_SCORE out)%float = resolved out
  ∧ (CONFIDENCE_SCORE out <? 0.8)%float = negb (resolved out)
  ∧ (0.5 <=? CONFIDENCE_SCORE out)%float = resolved out
  ∧ (0.3 <=? CONFIDENCE_SCORE out)%float = resolved out
  ∧ (CONFIDENCE_SCORE out <? 0.3)%float = negb (resolved out).
Proof.
  intros [[-> Hs]|[-> ->]]; [|done].
  apply list_elem_of_In in Hs. simpl in Hs.
  by destruct Hs as [<-|[<-|[]]].
Qed.

Lemma generate_dashboard_rows results_df :
  results_df ≠ [] →
  generate_dashboard results_df
  = Ok {| total_records := length results_df;
          mapped_records := count_rows (fun r => notna (RXCUI r)) results_df;
          failed_records :=
            length results_df
            - count_rows (fun r => notna (RXCUI r)) results_df;
          high_conf :=
            count_rows (fun r => (0.8 <=? CONFIDENCE_SCORE r)%float) results_df;
          med_conf :=
            count_rows (fun r => (0.5 <=? CONFIDENCE_SCORE r)%float
                                 && (CONFIDENCE_SCORE r <? 0.8)%float)
                       results_df;
          low_conf :=
            count_rows (fun r => (0.3 <=? CONFIDENCE_SCORE r)%float
                                 && (CONFIDENCE_SCORE r <? 0.8)%float)
                       results_df;
          very_low_conf :=
            count_rows (fun r => (CONFIDENCE_SCORE r <? 0.3)%float)
                       results_df |}.
Proof. by destruct results_df. Qed.

(** X25. The dashboard of a frame made by the stand-alone
    [process_file] has two buckets only: every row with method
    [direct_exact] or [translated_exact] counts as high confidence,
    every other row (method [none] or [error]) as very low, and the
    medium and low buckets stay empty. *)
Theorem simple_dashboard_has_two_buckets (self : client)
    (rows : list cnops_row) (tr : trace) (results_df : list output_row) :
  (process_file self rows tr).1 = Ok results_df →
  ∃ st,
    generate_dashboard results_df = Ok st
    ∧ total_records st = length rows
    ∧ high_conf st = count_rows resolved results_df
    ∧ med_conf st = 0%nat
    ∧ low_conf st = 0%nat
    ∧ (high_conf st + very_low_conf st)%nat = total_records st.
Proof.
  intros Hrun.
  assert (results_df = (process_rows self rows tr).1 ∧ results_df ≠ [])
    as [Hdf Hne].
  { unfold process_file in Hrun.
    destruct (process_rows self rows tr) as [[|out outs] tr1]; [done|].
    by inversion Hrun. }
  pose proof (process_rows_loop_rows self rows tr) as Hall.
  pose proof (process_rows_length self rows tr) as Hlen.
  rewrite <- Hdf in Hall, Hlen. clear Hrun Hdf.
  rewrite (generate_dashboard_rows _ Hne). eexists. split; [done|].
  cbn [total_records high_conf med_conf low_conf very_low_conf].
  split; [done|]. clear Hne Hlen.
  induction Hall as [|out outs Hout _ IH]; [done|].
  destruct (loop_row_buckets out Hout) as (H1 & H2 & H3 & H4 & H5).
  unfold count_rows in *. cbn [List.filter].
  rewrite H1, H2, H3, H4, H5.
  destruct IH as (IH1 & IH2 & IH3 & IH4).
  destruct (resolved out); simpl; rewrite ?IH2, ?IH3; repeat split; lia.
Qed.

Lemma one_bucket_per_score (score : float) :
  is_nan score = false →
  (Nat.b2n (0.8 <=? score)%float
   + Nat.b2n ((0.3 <=? score)%float && (score <? 0.8)%float)
   + Nat.b2n (score <? 0.3)%float)%nat = 1%nat.
Proof.
  intros Hs.
  rewrite (float_ltb_negb_leb score 0.8) by done.
  rewrite (float_ltb_negb_leb score 0.3) by done.
  destruct (0.8 <=? score)%float eqn:H1.
  - by rewrite (float_leb_trans 0.3 0.8 score eq_refl H1).
  - by destruct (0.3 <=? score)%float.
Qed.

Lemma medium_is_low (score : float) :
  (Nat.b2n ((0.5 <=? score)%float && (score <? 0.8)%float)
   ≤ Nat.b2n ((0.3 <=? score)%float && (score <? 0.8)%float))%nat.
Proof.
  destruct (0.5 <=? score)%float eqn:H1; [|simpl; lia].
  by rewrite (float_leb_trans 0.3 0.5 score eq_refl H1).
Qed.

(** X26. In the dashboard the low bucket (0.3 to 0.8) contains the
    medium bucket (0.5 to 0.8): every row counted as medium is counted
    as low as well. When no score is NaN, the high, low and very low
    buckets partition the rows, so the four buckets shown add up to the
    total plus the medium count. *)
Theorem dashboard_low_bucket_contains_medium (results_df : list output_row)
    (st : statistics) :
  generate_dashboard results_df = Ok st →
  (med_conf st ≤ low_conf st)%nat
  ∧ (forallb (fun r => negb (is_nan (CONFIDENCE_SCORE r))) results_df = true →
     (high_conf st + low_conf st + very_low_conf st)%nat = total_records st
     ∧ (high_conf st + med_conf st + low_conf st + very_low_conf st)%nat
       = (total_records st + med_conf st)%nat).
Proof.
  intros Hst.
  assert (results_df ≠ []) as Hne by (by intros ->).
  rewrite (generate_dashboard_rows _ Hne) in Hst. injection Hst as <-.
  cbn [total_records high_conf med_conf low_conf very_low_conf]. clear Hne.
  assert (∀ (mask : output_row → bool) x df,
            count_rows mask (x :: df)
            = (Nat.b2n (mask x) + count_rows mask df)%nat) as Hcons.
  { intros mask x df. unfold count_rows. simpl. by destruct (mask x). }
  split.
  - induction results_df as [|out outs IH]; [done|].
    rewrite !Hcons. pose proof (medium_is_low (CONFIDENCE_SCORE out)). lia.
  - intros Hnan.
    assert ((count_rows (λ r, (0.8 <=? CONFIDENCE_SCORE r)%float) results_df
             + count_rows (λ r, (0.3 <=? CONFIDENCE_SCORE r)%float
                                && (CONFIDENCE_SCORE r <? 0.8)%float) results_df
             + count_rows (λ r, (CONFIDENCE_SCORE r <? 0.3)%float) results_df)%nat
            = length results_df) as Hsum.
    { induction results_df as [|out outs IH]; [done|].
      simpl in Hnan. apply andb_true_iff in Hnan as [Hout Hnan].
      apply negb_true_iff in Hout.
      rewrite !Hcons. pose proof (one_bucket_per_score _ Hout).
      specialize (IH Hnan). simpl length. lia. }
    split; lia.
Qed.

End SimpleFacts.

(** * Worked examples for the further facts *)

Lemma combination_mismatch_witness :
  matched Samples.combination_result
  ∧ Py.contains "/" (dci1 Samples.combination_result) = true
  ∧ Py.contains "/" (default "" (rxnorm_name Samples.combination_result)) = false
  ∧ ∃ s earlier,
      confidence_score
        (_validate_mapping Fixture.ratio Fixture.plain_mapper
           Samples.combination_result Fixture.aspirin_row)
      = (s * 0.5)%float
      ∧ validation_notes
          (_validate_mapping Fixture.ratio Fixture.plain_mapper
             Samples.combination_result Fixture.aspirin_row)
        = earlier ++ ["Possible combination drug mismatch";
                      tier_note Fixture.plain_mapper (s * 0.5)%float].
Proof.
  assert (matched Samples.combination_result) as H1 by reflexivity.
  assert (Py.contains "/" (dci1 Samples.combination_result) = true) as H2
    by reflexivity.
  assert (Py.contains "/" (default "" (rxnorm_name Samples.combination_result))
          = false) as H3 by reflexivity.
  split; [exact H1|]. split; [exact H2|]. split; [exact H3|].
  destruct (combination_mismatch_is_penalised Fixture.ratio Fixture.plain_mapper
              Samples.combination_result Fixture.aspirin_row H1 H2 H3)
    as (s & earlier & _ & Hscore & Hnotes & _).
  exists s, earlier. split; [exact Hscore|exact Hnotes].
Defined.

Lemma tier_note_witness :
  ∃ r h',
    map_single_drug Fixture.ratio Fixture.tablet_mapper Fixture.aspirin_row []
      = (Ok r, h')
    ∧ matched r
    ∧ ∃ earlier,
        validation_notes r
        = earlier ++ [tier_note Fixture.tablet_mapper (confidence_score r)].
Proof.
  eexists _, _.
  assert (map_single_drug Fixture.ratio Fixture.tablet_mapper
            Fixture.aspirin_row [] = (Ok _, _)) as Hrun
    by (vm_compute; reflexivity).
  split; [exact Hrun|].
  match type of Hrun with _ = (Ok ?r, _) =>
    assert (matched r) as Hm by reflexivity end.
  split; [exact Hm|].
  destruct (tier_note_matches_returned_confidence Fixture.ratio
              Fixture.tablet_mapper Fixture.aspirin_row _ _ _ Hrun Hm)
    as (earlier & tag & Hnotes & -> & _).
  exists earlier. exact Hnotes.
Defined.

Lemma alternatives_witness :
  ∃ r h',
    map_single_drug Fixture.ratio Fixture.six_mapper Fixture.aspirine_row []
      = (Ok r, h')
    ∧ alternative_matches r ≠ []
    ∧ mapping_method r = "fuzzy_high".
Proof.
  eexists _, _.
  assert (map_single_drug Fixture.ratio Fixture.six_mapper
            Fixture.aspirine_row [] = (Ok _, _)) as Hrun
    by (vm_compute; reflexivity).
  split; [exact Hrun|].
  match type of Hrun with _ = (Ok ?r, _) =>
    assert (alternative_matches r ≠ []) as Ha by discriminate end.
  split; [exact Ha|].
  exact (proj1 (alternatives_only_from_fuzzy Fixture.ratio Fixture.six_mapper
                  Fixture.aspirine_row _ _ _ Hrun Ha)).
Defined.

Lemma single_product_witness :
  p_name Fixture.branded_tablet
    = Some "aspirin 500 MG Oral Tablet [Bayer Aspirin]"
  ∧ _find_best_product_match Fixture.plain_mapper [Fixture.branded_tablet]
      "250 MG" "SIROP"
    = Ok (Some Fixture.branded_tablet).
Proof.
  split; [reflexivity|].
  exact (single_product_is_always_selected Fixture.plain_mapper
           Fixture.branded_tablet _ "250 MG" "SIROP" eq_refl).
Defined.

Lemma nameless_product_witness :
  Samples.unnamed_product ∈ [Fixture.tablet; Samples.unnamed_product]
  ∧ p_name Samples.unnamed_product = None
  ∧ _find_best_product_match Fixture.plain_mapper
      [Fixture.tablet; Samples.unnamed_product] "500 MG" "COMPRIME"
    = Raise (AttributeError "'NoneType' object has no attribute 'upper'").
Proof.
  assert (Samples.unnamed_product ∈ [Fixture.tablet; Samples.unnamed_product])
    as H1 by (apply list_elem_of_In; simpl; auto).
  split; [exact H1|]. split; [reflexivity|].
  exact (nameless_product_raises Fixture.plain_mapper _ _ "500 MG" "COMPRIME"
           H1 eq_refl).
Defined.

Lemma selection_returns_witness :
  _find_best_product_match Fixture.plain_mapper [Fixture.tablet]
    "500 MG" "COMPRIME" = Ok (Some Fixture.tablet)
  ∧ (length (remove_dups [Fixture.tablet]) ≤ 4)%nat.
Proof.
  assert (_find_best_product_match Fixture.plain_mapper [Fixture.tablet]
            "500 MG" "COMPRIME" = Ok (Some Fixture.tablet)) as H1
    by (vm_compute; reflexivity).
  split; [exact H1|].
  destruct (selection_returns_for_few_products_only Fixture.plain_mapper
              [Fixture.tablet] "500 MG" "COMPRIME" _ H1)
    as (scored & _ & _ & _ & Hlen).
  exact Hlen.
Defined.

Lemma blank_strength_witness :
  p_name Fixture.tablet = Some "aspirin 500 MG Oral Tablet"
  ∧ Py.strip " " = ""
  ∧ ∃ s, score_product Fixture.plain_mapper " " "COMPRIME" Fixture.tablet
         = Ok (s, Fixture.tablet)
         ∧ (s = 0 ∨ s = 30).
Proof.
  split; [reflexivity|]. split; [reflexivity|].
  exact (proj1 (blank_strength_and_empty_form Fixture.plain_mapper
                  Fixture.tablet _ " " "COMPRIME" eq_refl) eq_refl).
Defined.

Lemma first_success_witness :
  ApiClient.sleepable (ApiClient.rate_limit
                         (Samples.rxnav (Samples.flaky 2 Samples.aspirin_ids)))
    = true
  ∧ ∃ tr',
      ApiClient._make_request
        (Samples.rxnav (Samples.flaky 2 Samples.aspirin_ids)) "rxcui.json"
        (Some [("name", ApiClient.JStr "aspirin")]) []
      = (Ok Samples.aspirin_ids, tr')
      ∧ ApiClient.gets tr' = 3%nat
      ∧ ApiClient.backoff_total tr' = 3.
Proof.
  assert (ApiClient.sleepable
            (ApiClient.rate_limit
               (Samples.rxnav (Samples.flaky 2 Samples.aspirin_ids))) = true)
    as H1 by reflexivity.
  split; [exact H1|].
  destruct (ApiClientFacts.make_request_returns_first_success
              (Samples.rxnav (Samples.flaky 2 Samples.aspirin_ids)) "rxcui.json"
              (Some [("name", ApiClient.JStr "aspirin")]) [] Samples.aspirin_ids
              2%nat H1 eq_refl ltac:(lia)) as (Hrun & _ & _).
  - intros i Hi. exists "connection refused".
    destruct i as [|[|i]]; [reflexivity|reflexivity|lia].
  - reflexivity.
  - eexists. split; [exact Hrun|]. split; reflexivity.
Defined.

Lemma gives_up_witness :
  ApiClient.always_fails (Samples.rxnav Samples.refusing)
    "https://rxnav.nlm.nih.gov/REST/rxcui.json"
    (Some [("name", ApiClient.JStr "aspirin")])
  ∧ ∃ added,
      ApiClient._make_request (Samples.rxnav Samples.refusing) "rxcui.json"
        (Some [("name", ApiClient.JStr "aspirin")]) []
      = (Ok ApiClient.JNone, added)
      ∧ ApiClient.gets added = 3%nat
      ∧ ApiClient.backoff_total added = 3.
Proof.
  assert (ApiClient.always_fails (Samples.rxnav Samples.refusing)
            "https://rxnav.nlm.nih.gov/REST/rxcui.json"
            (Some [("name", ApiClient.JStr "aspirin")])) as H1
    by (intros tr; by exists "connection refused").
  split; [exact H1|].
  destruct (proj1 (ApiClientFacts.make_request_gives_up_after_retries
                     (Samples.rxnav Samples.refusing) "rxcui.json"
                     (Some [("name", ApiClient.JStr "aspirin")]) []
                     eq_refl eq_refl H1) ltac:(vm_compute; discriminate))
    as (Hrun & Hgets & Hback).
  eexists. split; [exact Hrun|]. split; [exact Hgets|exact Hback].
Defined.

Lemma first_identifier_witness :
  ∃ tr',
    ApiClient._make_request (Samples.rxnav (Samples.answering Samples.aspirin_ids))
      "rxcui.json" (Some [("name", ApiClient.JStr "aspirin")]) []
    = (Ok Samples.aspirin_ids, tr')
    ∧ ApiClient.search_by_name
        (Samples.rxnav (Samples.answering Samples.aspirin_ids)) "aspirin" []
      = (Ok (ApiClient.JStr "1191"), tr').
Proof.
  eexists.
  assert (ApiClient._make_request
            (Samples.rxnav (Samples.answering Samples.aspirin_ids))
            "rxcui.json" (Some [("name", ApiClient.JStr "aspirin")]) []
          = (Ok Samples.aspirin_ids, _)) as Hreq by (vm_compute; reflexivity).
  split; [exact Hreq|].
  exact (proj1 (ApiClientFacts.search_by_name_reads_first_identifier
                  _ _ _ _ _ Hreq) _ _ _ _ eq_refl eq_refl eq_refl).
Defined.

Lemma odd_group_witness :
  ∃ tr',
    ApiClient._make_request (Samples.rxnav (Samples.answering Samples.null_group))
      "rxcui.json" (Some [("name", ApiClient.JStr "aspirin")]) []
    = (Ok Samples.null_group, tr')
    ∧ ApiClient.search_by_name
        (Samples.rxnav (Samples.answering Samples.null_group)) "aspirin" []
      = (Raise (AttributeError "'NoneType' object has no attribute 'get'"), tr').
Proof.
  eexists.
  assert (ApiClient._make_request
            (Samples.rxnav (Samples.answering Samples.null_group))
            "rxcui.json" (Some [("name", ApiClient.JStr "aspirin")]) []
          = (Ok Samples.null_group, _)) as Hreq by (vm_compute; reflexivity).
  split; [exact Hreq|].
  exact (ApiClientFacts.search_by_name_raises_on_odd_group _ _ _ _ _
           ApiClient.JNone Hreq eq_refl ltac:(discriminate)).
Defined.

Lemma every_candidate_witness :
  ∃ tr' found,
    ApiClient._make_request
      (Samples.rxnav (Samples.answering Samples.approximate_body))
      "approximateTerm.json"
      (Some [("term", ApiClient.JStr "aspirine");
             ("maxEntries", ApiClient.JInt 1)]) []
    = (Ok Samples.approximate_body, tr')
    ∧ ApiClient.approximate_search
        (Samples.rxnav (Samples.answering Samples.approximate_body))
        "aspirine" 1 []
      = (Ok found, tr')
    ∧ length found = 2%nat.
Proof.
  eexists _, _.
  assert (ApiClient._make_request
            (Samples.rxnav (Samples.answering Samples.approximate_body))
            "approximateTerm.json"
            (Some [("term", ApiClient.JStr "aspirine");
                   ("maxEntries", ApiClient.JInt 1)]) []
          = (Ok Samples.approximate_body, _)) as Hreq
    by (vm_compute; reflexivity).
  split; [exact Hreq|].
  split;
    [exact (proj1 (ApiClientFacts.approximate_search_keeps_every_candidate
                     _ _ _ _ _ _ _ Samples.aspirin_candidates
                     Hreq eq_refl eq_refl))
    |reflexivity].
Defined.

Lemma flattened_groups_witness :
  Forall2 ApiClient.group_holds Samples.related_groups
    [[]; Samples.tablet_concepts]
  ∧ ∃ tr',
      ApiClient.get_related_concepts
        (Samples.rxnav (Samples.answering Samples.related_body))
        "1191" (Some "SCD+SBD") []
      = (Ok (ApiClient.concept_of_dict <$> Samples.tablet_concepts), tr').
Proof.
  assert (Forall2 ApiClient.group_holds Samples.related_groups
            [[]; Samples.tablet_concepts]) as Hgroups.
  { repeat constructor.
    - eexists. split; [reflexivity|]. right. by split.
    - eexists. split; [reflexivity|]. by left. }
  split; [exact Hgroups|]. eexists.
  assert (ApiClient._make_request
            (Samples.rxnav (Samples.answering Samples.related_body))
            "rxcui/1191/related.json"
            (Some [("tty", ApiClient.JStr "SCD+SBD")]) []
          = (Ok (ApiClient.JDict [("relatedGroup",
                                   ApiClient.JDict Samples.related_group)]), _))
    as Hreq by (vm_compute; reflexivity).
  exact (ApiClientFacts.get_related_concepts_flattens_groups
           (Samples.rxnav (Samples.answering Samples.related_body))
           "1191" (Some "SCD+SBD") [] _ _ Samples.related_group
           Samples.related_groups _ Hreq eq_refl eq_refl Hgroups).
Defined.

Lemma unreachable_service_witness :
  ApiClient.sleepable (ApiClient.rate_limit (Samples.rxnav Samples.refusing))
    = true
  ∧ (ApiClient.search_by_name (Samples.rxnav Samples.refusing) "aspirin" []).1
    = Ok ApiClient.JNone
  ∧ (ApiClient.get_related_concepts (Samples.rxnav Samples.refusing)
       "1191" (Some "SCD+SBD") []).1 = Ok [].
Proof.
  assert (∀ url params,
            ApiClient.always_fails (Samples.rxnav Samples.refusing) url params)
    as Hdown by (intros url params tr; by exists "connection refused").
  split; [reflexivity|].
  destruct (ApiClientFacts.unreachable_service_looks_like_no_match
              (Samples.rxnav Samples.refusing) [] eq_refl
              ltac:(vm_compute; discriminate) Hdown)
    as (H1 & _ & H3).
  split; [exact (H1 _)|exact (H3 _ _)].
Defined.

Lemma summary_partition_witness :
  no_nan Fixture.tablet_mapper Samples.frame = true
  ∧ ∃ s,
      _print_summary Fixture.tablet_mapper Samples.frame = Ok s
      ∧ (s_high_conf s + s_med_conf s + s_low_conf s)%nat = 3%nat.
Proof.
  assert (no_nan Fixture.tablet_mapper Samples.frame = true) as H1
    by (vm_compute; reflexivity).
  split; [exact H1|]. eexists.
  assert (_print_summary Fixture.tablet_mapper Samples.frame = Ok _) as Hs
    by (vm_compute; reflexivity).
  split; [exact Hs|].
  destruct (summary_tiers_partition_rows Fixture.tablet_mapper Samples.frame _
              H1 eq_refl Hs) as (Hsum & Htotal & _).
  rewrite Hsum. exact Htotal.
Defined.

Lemma simple_unreachable_witness :
  Simple.unreachable (Simple.SimpleCNOPSMapper Samples.refusing)
  ∧ get Fixture.acide_row "DCI1" ≠ ""
  ∧ ∃ added,
      Simple.map_single_drug (Simple.SimpleCNOPSMapper Samples.refusing)
        Fixture.acide_row []
      = (Ok (Simple.add_note (Simple.new_result Fixture.acide_row)
               "No mapping found"), added)
      ∧ ApiClient.gets added = 6%nat.
Proof.
  assert (Simple.unreachable (Simple.SimpleCNOPSMapper Samples.refusing))
    as H1 by (intros url params tr; by exists "connection refused").
  assert (get Fixture.acide_row "DCI1" ≠ "") as H2 by (vm_compute; discriminate).
  split; [exact H1|]. split; [exact H2|].
  destruct (SimpleFacts.simple_mapper_unreachable_service Samples.refusing
              Fixture.acide_row [] H1 H2) as (added & Hrun & Hgets & _).
  exists added. split; [exact Hrun|].
  apply Nat2Z.inj. rewrite Hgets. vm_compute. reflexivity.
Defined.

Lemma simple_dashboard_witness :
  ∃ results_df st,
    (Simple.process_file Samples.simple_mapper Fixture.batch []).1 = Ok results_df
    ∧ Simple.generate_dashboard results_df = Ok st
    ∧ Simple.total_records st = 3%nat
    ∧ Simple.med_conf st = 0%nat
    ∧ Simple.low_conf st = 0%nat.
Proof.
  eexists.
  assert ((Simple.process_file Samples.simple_mapper Fixture.batch []).1 = Ok _)
    as Hrun by (vm_compute; reflexivity).
  destruct (SimpleFacts.simple_dashboard_has_two_buckets Samples.simple_mapper
              Fixture.batch [] _ Hrun)
    as (st & Hst & Htotal & _ & Hmed & Hlow & _).
  exists st. split; [exact Hrun|]. split; [exact Hst|].
  split; [exact Htotal|]. split; [exact Hmed|exact Hlow].
Defined.

Lemma dashboard_buckets_witness :
  ∃ st,
    Simple.generate_dashboard
      (Simple.process_rows Samples.simple_mapper Fixture.batch []).1 = Ok st
    ∧ (Simple.med_conf st ≤ Simple.low_conf st)%nat.
Proof.
  eexists.
  assert (Simple.generate_dashboard
            (Simple.process_rows Samples.simple_mapper Fixture.batch []).1
          = Ok _) as Hst by (vm_compute; reflexivity).
  split; [exact Hst|].
  exact (proj1 (SimpleFacts.dashboard_low_bucket_contains_medium _ _ Hst)).
Defined.
